(** * ACI fabric snapshot collection and comparison engine

    A shallow embedding of the stage-2 snapshot tool
    (aci_client.py, collectors/, snapshot_manager.py, inventory_parser.py,
    shared/utils.py) together with the properties its specification states.

    Conventions of the embedding:
    - Python [str] is a byte string ([string]); the whitespace, digit and
      case-folding tables are the ASCII ones.
    - Python [int] is [Z]; [len] yields a non-negative [Z].
    - A Python [dict] is an association list in insertion order; lookup
      returns the first binding and assignment replaces in place or appends.
    - A raised exception is the [Raise] branch of the [result] monad.
    - I/O (HTTP, SSH, the clock, the file system) is an explicit argument:
      an oracle or a state that is passed along. *)

From Stdlib Require Import List String Ascii ZArith Lia Bool Arith.
From Stdlib Require Import Permutation Sorted DecimalString.
Import ListNotations.

Local Open Scope string_scope.
Local Open Scope list_scope.
Set Warnings "-register-all".

(* ================================================================== *)
(** ** Python string primitives *)
(* ================================================================== *)

Module PyStr.

(** [str.isspace] on one ASCII character: TAB..CR, FS..US and SPACE. *)
Definition is_space (c : ascii) : bool :=
  let n := nat_of_ascii c in
  (((9 <=? n) && (n <=? 13)) || ((28 <=? n) && (n <=? 31)) || (n =? 32))%nat.

Definition is_digit (c : ascii) : bool :=
  let n := nat_of_ascii c in ((48 <=? n) && (n <=? 57))%nat.

Definition lower_ascii (c : ascii) : ascii :=
  let n := nat_of_ascii c in
  if ((65 <=? n) && (n <=? 90))%nat then ascii_of_nat (n + 32) else c.

(** [s.lower()] *)
Fixpoint lower (s : string) : string :=
  match s with
  | EmptyString => EmptyString
  | String c s' => String (lower_ascii c) (lower s')
  end.

(** [s.startswith(p)] *)
Definition startswith (p s : string) : bool := String.prefix p s.

(** [sub in s] *)
Fixpoint contains (sub s : string) : bool :=
  String.prefix sub s ||
  match s with
  | EmptyString => false
  | String _ s' => contains sub s'
  end.

(** Characters of a string, and back. *)
Abbreviation chars := list_ascii_of_string.
Abbreviation of_chars := string_of_list_ascii.

(** [s.lstrip()], [s.rstrip()], [s.strip()] on character lists. *)
Fixpoint lstrip_chars (l : list ascii) : list ascii :=
  match l with
  | c :: l' => if is_space c then lstrip_chars l' else l
  | [] => []
  end.

Definition rstrip_chars (l : list ascii) : list ascii :=
  rev (lstrip_chars (rev l)).

Definition strip_chars (l : list ascii) : list ascii :=
  rstrip_chars (lstrip_chars l).

Definition strip (s : string) : string := of_chars (strip_chars (chars s)).

(** [s.strip(set)]: remove leading and trailing characters that occur in
    [set]. *)
Definition in_set (set : string) (c : ascii) : bool :=
  existsb (Ascii.eqb c) (chars set).

Fixpoint lstrip_set (set : string) (l : list ascii) : list ascii :=
  match l with
  | c :: l' => if in_set set c then lstrip_set set l' else l
  | [] => []
  end.

Definition strip_set (set s : string) : string :=
  of_chars (rev (lstrip_set set (rev (lstrip_set set (chars s))))).

(** [s.split()] with no argument: maximal runs of non-whitespace.
    [cur] holds the current field, reversed. *)
Fixpoint split_ws (cur : list ascii) (l : list ascii) : list (list ascii) :=
  match l with
  | [] => match cur with [] => [] | _ => [rev cur] end
  | c :: l' =>
      if is_space c
      then match cur with
           | [] => split_ws [] l'
           | _ => rev cur :: split_ws [] l'
           end
      else split_ws (c :: cur) l'
  end.

Definition split (s : string) : list string :=
  map of_chars (split_ws [] (chars s)).

(** [s.split(sep)] for a one-character separator: always at least one
    field, empty fields kept. *)
Fixpoint split_char (sep : ascii) (cur : list ascii) (l : list ascii)
  : list (list ascii) :=
  match l with
  | [] => [rev cur]
  | c :: l' =>
      if Ascii.eqb c sep
      then rev cur :: split_char sep [] l'
      else split_char sep (c :: cur) l'
  end.

Definition split_on (sep : ascii) (s : string) : list string :=
  map of_chars (split_char sep [] (chars s)).

(** [s.split(sep, 1)] for a one-character separator that occurs in [s]:
    the text before the first separator and the text after it. *)
Fixpoint split_once (sep : ascii) (s : string) : option (string * string) :=
  match s with
  | EmptyString => None
  | String c s' =>
      if Ascii.eqb c sep then Some (EmptyString, s')
      else match split_once sep s' with
           | Some (a, b) => Some (String c a, b)
           | None => None
           end
  end.

(** [s] between double quotes. *)
Definition quoted (s : string) : string :=
  String (ascii_of_nat 34) (s ++ String (ascii_of_nat 34) EmptyString).

(** The line feed character. *)
Definition LF : ascii := ascii_of_nat 10.
Definition CR : ascii := ascii_of_nat 13.

(** [str(n)] for an integer. *)
Definition str_of_Z (z : Z) : string := NilZero.string_of_int (Z.to_int z).

End PyStr.

(* ================================================================== *)
(** ** Insertion-ordered dictionaries with string keys *)
(* ================================================================== *)

Module Dict.
Section Ops.
Context {V : Type}.

Definition t : Type := list (string * V).

(** [d.get(k)] as an option; the first binding wins. *)
Fixpoint get (k : string) (d : t) : option V :=
  match d with
  | [] => None
  | (k', v) :: d' => if String.eqb k k' then Some v else get k d'
  end.

(** [k in d] *)
Definition mem (k : string) (d : t) : bool :=
  match get k d with Some _ => true | None => false end.

(** [d[k] = v]: replace in place, or append. *)
Fixpoint set (k : string) (v : V) (d : t) : t :=
  match d with
  | [] => [(k, v)]
  | (k', v') :: d' =>
      if String.eqb k k' then (k', v) :: d' else (k', v') :: set k v d'
  end.

(** [list(d.keys())] *)
Definition keys (d : t) : list string := map fst d.

(** Storing a table of distinct fresh keys one after the other. *)
Definition set_all (entries : t) (d : t) : t :=
  fold_left (fun acc kv => set (fst kv) (snd kv) acc) entries d.

End Ops.
Arguments t V : clear implicits.
End Dict.

(* ================================================================== *)
(** ** Python values, exceptions and dictionaries *)
(* ================================================================== *)

Module Py.

(** *** Exceptions and the error monad *)

Inductive exn_kind : Type :=
| TypeError | AttributeError | KeyError | ValueError | OverflowError
| OtherException.

(** An exception object: its class and [str(e)]. *)
Record exn : Type := MkExn { exn_kind_of : exn_kind; str_exn : string }.

Inductive result (A : Type) : Type :=
| Ok (a : A)
| Raise (e : exn).
Arguments Ok {A} a.
Arguments Raise {A} e.

Definition bind {A B} (m : result A) (k : A -> result B) : result B :=
  match m with
  | Ok a => k a
  | Raise e => Raise e
  end.

Declare Scope py_scope.
Delimit Scope py_scope with py.
Notation "x <- m ;; k" := (bind m (fun x => k))
  (at level 61, m at next level, right associativity) : py_scope.
Local Open Scope py_scope.

Definition raise {A} (k : exn_kind) (msg : string) : result A :=
  Raise (MkExn k msg).

(** *** What the model takes from the interpreter

    The binary64 arithmetic and the calendar formatting of the interpreter
    are an interface: the operations the program performs on floats and on
    [datetime] values, and the one law about them that the comparison of a
    snapshot with itself relies on ([x - x] is [0.0] for a finite [x] and
    [nan] otherwise, and neither exceeds 0). *)

Class Runtime : Type := {
  float : Type;
  (** [x == 0.0], the falsy floats *)
  float_is_zero : float -> bool;
  (** [float(n)]; [None] is [OverflowError] *)
  float_of_int : Z -> option float;
  (** [abs(x - y) > 0] *)
  float_absdiff_pos : float -> float -> bool;
  (** [timedelta(microseconds=us).total_seconds()] *)
  total_seconds : Z -> float;
  (** [datetime.isoformat()] of a time stamp held in microseconds *)
  isoformat : Z -> string;
  (** [datetime.strftime(format)] *)
  strftime : string -> Z -> string;
  float_absdiff_self : forall x, float_absdiff_pos x x = false
}.

Section Values.
Context `{RT : Runtime}.

(** The values that [json.load] yields and [json.dump] accepts. *)
Inductive value : Type :=
| VNone
| VBool (b : bool)
| VInt (z : Z)
| VFloat (f : float)
| VStr (s : string)
| VList (l : list value)
| VDict (d : list (string * value)).

Definition dict : Type := Dict.t value.
Definition dict_get : string -> dict -> option value := Dict.get.
Definition dict_mem : string -> dict -> bool := Dict.mem.
Definition dict_set : string -> value -> dict -> dict := Dict.set.
Definition dict_keys : dict -> list string := Dict.keys.

(** [bool(v)] *)
Definition truthy (v : value) : bool :=
  match v with
  | VNone => false
  | VBool b => b
  | VInt z => negb (z =? 0)%Z
  | VFloat f => negb (float_is_zero f)
  | VStr s => negb (String.eqb s "")
  | VList l => match l with [] => false | _ => true end
  | VDict d => match d with [] => false | _ => true end
  end.

(** [type(v).__name__], used in messages only. *)
Definition type_name (v : value) : string :=
  match v with
  | VNone => "NoneType" | VBool _ => "bool" | VInt _ => "int"
  | VFloat _ => "float" | VStr _ => "str" | VList _ => "list"
  | VDict _ => "dict"
  end.

(** [len(v)] *)
Definition py_len (v : value) : result Z :=
  match v with
  | VStr s => Ok (Z.of_nat (String.length s))
  | VList l => Ok (Z.of_nat (List.length l))
  | VDict d => Ok (Z.of_nat (List.length d))
  | _ => raise TypeError ("object of type '" ++ type_name v ++ "' has no len()")
  end.

(** [v.get(k, default)] *)
Definition py_get (v : value) (k : string) (default : value) : result value :=
  match v with
  | VDict d => Ok (match dict_get k d with Some x => x | None => default end)
  | _ => raise AttributeError
           ("'" ++ type_name v ++ "' object has no attribute 'get'")
  end.

(** [v.keys()] *)
Definition py_keys (v : value) : result (list string) :=
  match v with
  | VDict d => Ok (dict_keys d)
  | _ => raise AttributeError
           ("'" ++ type_name v ++ "' object has no attribute 'keys'")
  end.

(** [k in v] for a string [k] *)
Definition py_in (k : string) (v : value) : result bool :=
  match v with
  | VDict d => Ok (dict_mem k d)
  | VList l =>
      Ok (existsb (fun x => match x with VStr s => String.eqb s k | _ => false end) l)
  | VStr s => Ok (PyStr.contains k s)
  | _ => raise TypeError
           ("argument of type '" ++ type_name v ++ "' is not iterable")
  end.

(** [v[k]] for a string [k] *)
Definition py_getitem (v : value) (k : string) : result value :=
  match v with
  | VDict d =>
      match dict_get k d with
      | Some x => Ok x
      | None => raise KeyError ("'" ++ k ++ "'")
      end
  | VList _ => raise TypeError "list indices must be integers or slices, not str"
  | VStr _ => raise TypeError "string indices must be integers, not 'str'"
  | _ => raise TypeError
           ("'" ++ type_name v ++ "' object is not subscriptable")
  end.

(** [isinstance(v, int)]: [bool] is a subclass of [int]. *)
Definition is_int (v : value) : bool :=
  match v with VInt _ | VBool _ => true | _ => false end.

(** The integer an [int] instance stands for in arithmetic. *)
Definition int_of_bool (b : bool) : Z := if b then 1%Z else 0%Z.

(** [abs(c - b) > 0] on two values. *)
Definition absdiff_pos (c b : value) : result bool :=
  let int_int (x y : Z) : result bool := Ok (0 <? Z.abs (x - y))%Z in
  let int_float (x : Z) (g : float) (swap : bool) : result bool :=
    match float_of_int x with
    | Some f => Ok (if swap then float_absdiff_pos g f else float_absdiff_pos f g)
    | None => raise OverflowError "int too large to convert to float"
    end in
  let unsupported : result bool :=
    raise TypeError ("unsupported operand type(s) for -: '" ++ type_name c
                     ++ "' and '" ++ type_name b ++ "'") in
  match c, b with
  | VInt x, VInt y => int_int x y
  | VInt x, VBool y => int_int x (int_of_bool y)
  | VBool x, VInt y => int_int (int_of_bool x) y
  | VBool x, VBool y => int_int (int_of_bool x) (int_of_bool y)
  | VFloat f, VFloat g => Ok (float_absdiff_pos f g)
  | VInt x, VFloat g => int_float x g false
  | VBool x, VFloat g => int_float (int_of_bool x) g false
  | VFloat f, VInt y => int_float y f true
  | VFloat f, VBool y => int_float (int_of_bool y) f true
  | _, _ => unsupported
  end.

Definition is_none (v : value) : bool :=
  match v with VNone => true | _ => false end.

End Values.

End Py.

(* ================================================================== *)
(** ** Stable sorting, as [sorted] and [list.sort] do it *)
(* ================================================================== *)

Module StableSort.
Section Sort.
Context {A : Type}.
Variable le : A -> A -> bool.

(** Insert [x], which stood before every element of [l] in the input,
    ahead of the first element it does not exceed. *)
Fixpoint insert (x : A) (l : list A) : list A :=
  match l with
  | [] => [x]
  | y :: l' => if le x y then x :: l else y :: insert x l'
  end.

Fixpoint sort (l : list A) : list A :=
  match l with
  | [] => []
  | x :: l' => insert x (sort l')
  end.

End Sort.
End StableSort.

(* ================================================================== *)
(** ** shared/device_info.py *)
(* ================================================================== *)

Module DeviceInfo.

(** [DeviceInfo].  [priority] is [None] when the inventory carries none
    (the class of aci_client.py declares it [Optional[int]]). *)
Record t : Type := Make {
  name : string;
  hostname : string;
  username : string;
  password : string;
  device_type : string;
  node_id : option Z;
  priority : option Z;
  port : Z
}.

(** The dataclass constructor followed by [__post_init__]. *)
Definition new (name hostname username password device_type : string)
    (node_id priority : option Z) (port : Z) : Py.result t :=
  if String.eqb name "" then Py.raise Py.ValueError "Device name cannot be empty"
  else if String.eqb hostname "" then
    Py.raise Py.ValueError "Device hostname cannot be empty"
  else
    let port' := if String.eqb device_type "apic" && (port =? 22)%Z
                 then 443%Z else port in
    Py.Ok (Make name hostname username password device_type
                node_id priority port').

End DeviceInfo.

(* ================================================================== *)
(** ** aci_client.py *)
(* ================================================================== *)

Module AciClient.
Section Client.
Context `{RT : Py.Runtime}.

(** What the controller answers to an HTTP request. *)
Inductive http_reply : Type :=
| RequestException (msg : string)
    (** connection error, timeout, ... *)
| Response (status : Z) (json : option Py.value)
    (** a response; [json] is [None] when the body is not valid JSON *).

(** The management network: the login service and the GET service of each
    controller. *)
Record network : Type := MkNetwork {
  (** hostname, user, password: the token, if the login succeeds *)
  login : string -> string -> string -> option string;
  (** URL and query parameters *)
  http_get : string -> option (list (string * string)) -> http_reply
}.

Inductive log_level : Type := DEBUG | INFO | WARNING | ERROR.
Definition log_record : Type := (log_level * string)%type.

(** *** [APICClient] *)

Record APICClient : Type := MkAPICClient {
  apic_hostname : string;
  apic_username : string;
  apic_password : string;
  base_url : string;
  auth_token : option string;
  is_authenticated : bool
}.

Definition new_APICClient (hostname username password : string) : APICClient :=
  MkAPICClient hostname username password ("https://" ++ hostname) None false.

(** [authenticate]: the outcome and the client afterwards.  Every failure
    the method handles (connection error, unexpected answer) is a failed
    login of the oracle. *)
Definition authenticate (net : network) (c : APICClient) : bool * APICClient :=
  match login net (apic_hostname c) (apic_username c) (apic_password c) with
  | Some token =>
      (true, MkAPICClient (apic_hostname c) (apic_username c) (apic_password c)
                          (base_url c) (Some token) true)
  | None => (false, c)
  end.

(** [response.raise_for_status()] raises for 4xx and 5xx. *)
Definition is_error_status (status : Z) : bool :=
  ((400 <=? status) && (status <? 600))%Z.

(** [get_data]: the value returned ([VNone] for [None]) and the records
    logged.  The client itself is not changed. *)
Definition get_data (net : network) (c : APICClient) (endpoint : string)
    (params : option (list (string * string))) : Py.value * list log_record :=
  if negb (is_authenticated c) then
    (Py.VNone, [(ERROR, "Not authenticated to APIC " ++ apic_hostname c)%string])
  else
    let url := (base_url c ++ endpoint)%string in
    match http_get net url params with
    | RequestException msg =>
        (Py.VNone, [(ERROR, "Error retrieving data from " ++ endpoint
                            ++ " on APIC " ++ apic_hostname c ++ ": " ++ msg)%string])
    | Response status body =>
        if is_error_status status then
          (Py.VNone, [(ERROR, "Error retrieving data from " ++ endpoint
                              ++ " on APIC " ++ apic_hostname c ++ ": "
                              ++ PyStr.str_of_Z status ++ " Error")%string])
        else
          match body with
          | Some data =>
              (data, [(DEBUG, "Successfully retrieved data from " ++ endpoint
                              ++ " on APIC " ++ apic_hostname c)%string])
          | None =>
              (Py.VNone, [(ERROR, "JSON decode error for " ++ endpoint
                                  ++ " on APIC " ++ apic_hostname c)%string])
          end
    end.

(** *** [FabricClient] *)

(** The sort key of [__init__]: [x.priority or 1]. *)
Definition priority_key (d : DeviceInfo.t) : Z :=
  match DeviceInfo.priority d with
  | Some p => if (p =? 0)%Z then 1%Z else p
  | None => 1%Z
  end.

Definition priority_le (a b : DeviceInfo.t) : bool :=
  (priority_key a <=? priority_key b)%Z.

Record FabricClient : Type := MkFabricClient {
  apic_devices : list DeviceInfo.t;
  fc_username : string;
  fc_password : string;
  primary_apic : option APICClient
}.

(** [FabricClient(apic_devices, username, password)] *)
Definition new_FabricClient (devices : list DeviceInfo.t)
    (username password : string) : FabricClient :=
  MkFabricClient (StableSort.sort priority_le devices) username password None.

(** The loop of [connect_to_fabric] over the devices that remain.  The
    third component lists the devices on which [authenticate] was called,
    in call order. *)
Fixpoint connect_loop (net : network) (fc : FabricClient)
    (devices : list DeviceInfo.t) : bool * FabricClient * list DeviceInfo.t :=
  match devices with
  | [] => (false, fc, [])
  | d :: rest =>
      let apic_client := new_APICClient (DeviceInfo.hostname d) (fc_username fc) (fc_password fc) in
      match authenticate net apic_client with
      | (true, apic_client') =>
          (true,
           MkFabricClient (apic_devices fc) (fc_username fc) (fc_password fc)
                          (Some apic_client'),
           [d])
      | (false, _) =>
          let '(ok, fc', tried) := connect_loop net fc rest in
          (ok, fc', d :: tried)
      end
  end.

Definition connect_to_fabric (net : network) (fc : FabricClient)
  : bool * FabricClient * list DeviceInfo.t :=
  connect_loop net fc (apic_devices fc).

Definition connect := connect_to_fabric.

(** [get_fabric_data] *)
Definition get_fabric_data (net : network) (fc : FabricClient)
    (endpoint : string) (params : option (list (string * string)))
  : Py.value * list log_record :=
  match primary_apic fc with
  | None => (Py.VNone, [(ERROR, "No primary APIC connection available")])
  | Some apic => get_data net apic endpoint params
  end.

End Client.
End AciClient.

(* ================================================================== *)
(** ** collectors/leaf_collector.py: the text parsers *)
(* ================================================================== *)

Module LeafParsers.
Import PyStr.

(** [output.strip().split('\n')] *)
Definition lines_of (output : string) : list string :=
  split_on LF (strip output).

(** *** The regular expressions of the parsers, as matchers on characters *)

Definition is_hex (c : ascii) : bool :=
  let n := nat_of_ascii c in
  (is_digit c || ((65 <=? n) && (n <=? 70)) || ((97 <=? n) && (n <=? 102)))%nat.

Definition DOT : ascii := ascii_of_nat 46.

(** [[0-9a-fA-F]{4}] at the head: the rest of the text. *)
Definition hex4 (l : list ascii) : option (list ascii) :=
  match l with
  | a :: b :: c :: d :: rest =>
      if is_hex a && is_hex b && is_hex c && is_hex d then Some rest else None
  | _ => None
  end.

Definition dot (l : list ascii) : option (list ascii) :=
  match l with
  | c :: rest => if Ascii.eqb c DOT then Some rest else None
  | [] => None
  end.

Definition and_then {A B} (o : option A) (k : A -> option B) : option B :=
  match o with Some a => k a | None => None end.

(** [[0-9a-fA-F]{4}\.[0-9a-fA-F]{4}\.[0-9a-fA-F]{4}] at the head. *)
Definition mac_at (l : list ascii) : bool :=
  match and_then (and_then (and_then (and_then (hex4 l) dot) hex4) dot) hex4 with
  | Some _ => true
  | None => false
  end.

(** [re.search(p, s)] for a pattern tried at every position. *)
Fixpoint search (at_head : list ascii -> bool) (l : list ascii) : bool :=
  at_head l || match l with [] => false | _ :: l' => search at_head l' end.

(** The longest run of digits at the head, and what follows it. *)
Fixpoint span_digits (l : list ascii) : list ascii * list ascii :=
  match l with
  | c :: l' =>
      if is_digit c then let '(ds, rest) := span_digits l' in (c :: ds, rest)
      else ([], l)
  | [] => ([], [])
  end.

(** [\d+] at the head: the rest of the text. *)
Definition digits1 (l : list ascii) : option (list ascii) :=
  match span_digits l with
  | ([], _) => None
  | (_, rest) => Some rest
  end.

(** [\d+\.\d+\.\d+\.\d+] at the head. *)
Definition ipv4_at (l : list ascii) : bool :=
  match and_then (and_then (and_then (and_then (and_then (and_then
          (digits1 l) dot) digits1) dot) digits1) dot) digits1 with
  | Some _ => true
  | None => false
  end.

(** [re.search(r'^\s*\d+', line)] *)
Definition leading_number (l : list ascii) : bool :=
  match lstrip_chars l with
  | c :: _ => is_digit c
  | [] => false
  end.

(** [re.findall(r'\d+', line)]; the fuel is the length of the text. *)
Fixpoint findall_digits (fuel : nat) (l : list ascii) : list (list ascii) :=
  match fuel with
  | O => []
  | S fuel' =>
      match l with
      | [] => []
      | c :: l' =>
          if is_digit c
          then let '(ds, rest) := span_digits l in
               ds :: findall_digits fuel' rest
          else findall_digits fuel' l'
      end
  end.

Definition digit_value (c : ascii) : Z := Z.of_nat (nat_of_ascii c - 48).

(** [int(s)] for a run of digits. *)
Definition int_of_digits (ds : list ascii) : Z :=
  fold_left (fun acc c => (10 * acc + digit_value c)%Z) ds 0%Z.

(** *** The parsers *)

Record interface_entry : Type := MkInterface {
  if_interface : string;
  if_status : string;
  if_vlan : string;
  if_duplex : string
}.

Record interface_status : Type := MkInterfaceStatus {
  total_interfaces : Z;
  up_interfaces : Z;
  interfaces : list interface_entry
}.

(** The header filter of [parse_interface_status]. *)
Definition is_data_line (line : string) : bool :=
  negb (startswith "Port" line) && negb (startswith "----" line).

(** One data line of [show interface status]: an entry when the line is
    not blank and has at least four fields. *)
Definition parse_interface_line (line : string) : option interface_entry :=
  if negb (String.eqb (strip line) "") then
    match split line with
    | p0 :: p1 :: p2 :: p3 :: _ => Some (MkInterface p0 p1 p2 p3)
    | _ => None
    end
  else None.

Fixpoint filter_map {A B} (f : A -> option B) (l : list A) : list B :=
  match l with
  | [] => []
  | a :: l' => match f a with
               | Some b => b :: filter_map f l'
               | None => filter_map f l'
               end
  end.

Definition is_connected (i : interface_entry) : bool :=
  contains "connected" (lower (if_status i)).

Definition parse_interface_status (output : string) : interface_status :=
  let lines := lines_of output in
  let data_lines := filter is_data_line lines in
  let interfaces := filter_map parse_interface_line data_lines in
  MkInterfaceStatus
    (Z.of_nat (List.length interfaces))
    (Z.of_nat (List.length (filter is_connected interfaces)))
    interfaces.

Record port_channel_entry : Type := MkPortChannel {
  pc_interface : string;
  pc_status : string;
  pc_protocol : string
}.

Definition parse_port_channel_line (line : string) : option port_channel_entry :=
  if contains "Po" line && (contains "(SU)" line || contains "(SD)" line) then
    match split line with
    | p0 :: p1 :: _ =>
        Some (MkPortChannel p0 (if contains "(SU)" line then "up" else "down") p1)
    | _ => None
    end
  else None.

Definition count_if {A} (f : A -> bool) (l : list A) : Z :=
  Z.of_nat (List.length (filter f l)).

Definition len {A} (l : list A) : Z := Z.of_nat (List.length l).

(** What [process_command_output] returns, by parser.  Each constructor
    stands for the dictionary the parser builds; [processed_to_value]
    spells the dictionaries out. *)
Inductive processed : Type :=
| PInterfaces (r : interface_status)
| PPortChannels (total up : Z) (port_channels : list port_channel_entry)
| PMacTable (total_mac_entries raw_line_count : Z)
| PArpTable (total_arp_entries raw_line_count : Z)
| PVlans (total_vlans raw_line_count : Z)
| PVpc (vpc_enabled : bool) (vpc_status : string)
| PFabricInterfaces (total : Z) (fabric_interfaces : list string)
| PEndpoints (total_endpoints raw_line_count : Z)
| PBridgeDomains (bridge_domain_count raw_line_count : Z)
| PDefault (line_count : Z) (sample_lines : list string).

Definition parse_port_channel_summary (output : string) : processed :=
  let port_channels := filter_map parse_port_channel_line (lines_of output) in
  PPortChannels (len port_channels)
    (count_if (fun pc => String.eqb (pc_status pc) "up") port_channels)
    port_channels.

Definition parse_mac_table (output : string) : processed :=
  let lines := lines_of output in
  PMacTable (count_if (fun line => search mac_at (chars line)) lines) (len lines).

Definition parse_arp_table (output : string) : processed :=
  let lines := lines_of output in
  PArpTable
    (count_if (fun line => search ipv4_at (chars line)
                           && negb (contains "incomplete" (lower line))) lines)
    (len lines).

Definition parse_vlan_brief (output : string) : processed :=
  let lines := lines_of output in
  PVlans (count_if (fun line => leading_number (chars line)) lines) (len lines).

Definition parse_vpc_brief (output : string) : processed :=
  let vpc_enabled := contains "vPC domain id" output in
  let vpc_status :=
    if contains "vPC status" output && contains "up" output then "up" else "down" in
  PVpc vpc_enabled (if vpc_enabled then vpc_status else "disabled").

Definition parse_fabric_interfaces (output : string) : processed :=
  let fabric_interfaces :=
    map strip (filter (fun line => contains "Fabric" line || contains "fabric" line)
                      (lines_of output)) in
  PFabricInterfaces (len fabric_interfaces) fabric_interfaces.

(** The loop of [parse_endpoint_summary]: the first line that mentions a
    total decides, whether or not it carries a number. *)
Fixpoint endpoint_total (lines : list string) : Z :=
  match lines with
  | [] => 0%Z
  | line :: rest =>
      if contains "Total" line && contains "endpoint" (lower line) then
        match rev (findall_digits (String.length line) (chars line)) with
        | last :: _ => int_of_digits last
        | [] => 0%Z
        end
      else endpoint_total rest
  end.

Definition parse_endpoint_summary (output : string) : processed :=
  let lines := lines_of output in
  PEndpoints (endpoint_total lines) (len lines).

Definition parse_bd_summary (output : string) : processed :=
  let lines := lines_of output in
  PBridgeDomains (Z.max 0 (len lines - 5)) (len lines).

(** [process_command_output].  None of the parsers raises. *)
Definition process_command_output (data_type raw_output : string) : processed :=
  if String.eqb data_type "interfaces" then PInterfaces (parse_interface_status raw_output)
  else if String.eqb data_type "port_channels" then parse_port_channel_summary raw_output
  else if String.eqb data_type "mac_table" then parse_mac_table raw_output
  else if String.eqb data_type "arp_table" then parse_arp_table raw_output
  else if String.eqb data_type "vlans" then parse_vlan_brief raw_output
  else if String.eqb data_type "vpc" then parse_vpc_brief raw_output
  else if String.eqb data_type "fabric_interfaces" then parse_fabric_interfaces raw_output
  else if String.eqb data_type "endpoints" then parse_endpoint_summary raw_output
  else if String.eqb data_type "bridge_domains" then parse_bd_summary raw_output
  else
    let lines := lines_of raw_output in
    PDefault (len lines) (firstn 5 lines).

(** [processed.get('total_interfaces', 0)]: only the interface parser's
    dictionary has the key. *)
Definition get_total_interfaces (p : processed) : Z :=
  match p with
  | PInterfaces r => total_interfaces r
  | _ => 0%Z
  end.

Section Encode.
Context `{RT : Py.Runtime}.
Import Py.

Definition interface_to_value (i : interface_entry) : value :=
  VDict [("interface", VStr (if_interface i)); ("status", VStr (if_status i));
         ("vlan", VStr (if_vlan i)); ("duplex", VStr (if_duplex i))].

Definition port_channel_to_value (pc : port_channel_entry) : value :=
  VDict [("interface", VStr (pc_interface pc)); ("status", VStr (pc_status pc));
         ("protocol", VStr (pc_protocol pc))].

(** The dictionary of each parser, keys in the order of the source. *)
Definition processed_to_value (p : processed) : value :=
  match p with
  | PInterfaces r =>
      VDict [("total_interfaces", VInt (total_interfaces r));
             ("up_interfaces", VInt (up_interfaces r));
             ("interfaces", VList (map interface_to_value (interfaces r)))]
  | PPortChannels total up pcs =>
      VDict [("total_port_channels", VInt total); ("up_port_channels", VInt up);
             ("port_channels", VList (map port_channel_to_value pcs))]
  | PMacTable n raw => VDict [("total_mac_entries", VInt n); ("raw_line_count", VInt raw)]
  | PArpTable n raw => VDict [("total_arp_entries", VInt n); ("raw_line_count", VInt raw)]
  | PVlans n raw => VDict [("total_vlans", VInt n); ("raw_line_count", VInt raw)]
  | PVpc enabled status => VDict [("vpc_enabled", VBool enabled); ("vpc_status", VStr status)]
  | PFabricInterfaces n l =>
      VDict [("total_fabric_interfaces", VInt n); ("fabric_interfaces", VList (map VStr l))]
  | PEndpoints n raw => VDict [("total_endpoints", VInt n); ("raw_line_count", VInt raw)]
  | PBridgeDomains n raw => VDict [("bridge_domain_count", VInt n); ("raw_line_count", VInt raw)]
  | PDefault n l => VDict [("line_count", VInt n); ("sample_lines", VList (map VStr l))]
  end.

End Encode.

End LeafParsers.

(* ================================================================== *)
(** ** collectors/base_collector.py *)
(* ================================================================== *)

Module BaseCollector.
Section Base.
Context `{RT : Py.Runtime}.
Import Py.
Local Open Scope py_scope.

(** The mutable fields of a collector object.  Time stamps are
    [datetime] values in microseconds. *)
Record t : Type := MkCollector {
  name : string;
  collection_time : option Z;
  errors : list string
}.

Definition new (name : string) : t := MkCollector name None [].

(** The dictionary [end_collection] returns, for a payload of type [D]. *)
Record CollectionResult (D : Type) : Type := MkResult {
  collector : string;
  start_time : Z;
  end_time : Z;
  duration_seconds : float;
  result_errors : list string;
  data : D
}.
Arguments MkResult {D}.
Arguments collector {D}.
Arguments start_time {D}.
Arguments end_time {D}.
Arguments duration_seconds {D}.
Arguments result_errors {D}.
Arguments data {D}.

(** [start_collection]; [now] is what [datetime.now()] returns. *)
Definition start_collection (now : Z) (self : t) : t :=
  MkCollector (name self) (Some now) [].

(** [add_error] *)
Definition add_error (error : string) (self : t) : t :=
  MkCollector (name self) (collection_time self) (errors self ++ [error]).

(** [end_collection]; [now] is what [datetime.now()] returns. *)
Definition end_collection {D} (now : Z) (data : D) (self : t)
  : result (CollectionResult D) :=
  match collection_time self with
  | Some started =>
      let end_time := now in
      let duration := total_seconds (end_time - started) in
      Ok (MkResult (name self) started end_time duration (errors self) data)
  | None =>
      raise TypeError
        "unsupported operand type(s) for -: 'datetime.datetime' and 'NoneType'"
  end.

End Base.
Arguments MkResult {_ D}.
Arguments collector {_ D}.
Arguments start_time {_ D}.
Arguments end_time {_ D}.
Arguments duration_seconds {_ D}.
Arguments result_errors {_ D}.
Arguments data {_ D}.
End BaseCollector.

(* ================================================================== *)
(** ** collectors/fabric_collector.py *)
(* ================================================================== *)

Module FabricCollector.
Section Fabric.
Context `{RT : Py.Runtime}.
Import Py BaseCollector.
Local Open Scope py_scope.

Definition query_params : Type := option (list (string * string)).

Record endpoint_config : Type := MkEndpoint {
  endpoint : string;
  params : query_params;
  description : string
}.

Definition FABRIC_ENDPOINTS : Dict.t endpoint_config :=
  [ ("topology", MkEndpoint "/api/class/fabricNode.json" None
                   "Fabric nodes and their status");
    ("links", MkEndpoint "/api/class/fabricLink.json" None
                "Fabric links between nodes");
    ("faults", MkEndpoint "/api/class/faultInst.json"
                 (Some [("query-target-filter",
                         ("eq(faultInst.severity," ++ PyStr.quoted "major" ++ ","
                          ++ PyStr.quoted "critical" ++ ")")%string)])
                 "Major and critical faults");
    ("health", MkEndpoint "/api/class/healthInst.json" None
                 "Health scores for fabric objects");
    ("discovery", MkEndpoint "/api/class/dhcpClient.json" None
                    "Fabric discovery and node registration");
    ("isis", MkEndpoint "/api/class/isisInternalRoute.json" None
               "IS-IS internal routes");
    ("ospf", MkEndpoint "/api/class/ospfInternalRoute.json" None
               "OSPF internal routes");
    ("bgp", MkEndpoint "/api/class/bgpInternalRoute.json" None
              "BGP internal routes") ].

(** One entry of [fabric_data]. *)
Record fabric_entry : Type := MkEntry {
  fe_endpoint : string;
  fe_description : string;
  fe_count : Z;
  fe_data : value;
  fe_error : option string
}.

(** [fabric_client.get_fabric_data], as the collector sees it: a value,
    [None] included, or an exception. *)
Definition fetcher : Type := string -> query_params -> result value.

(** The body of the [try] statement up to the choice of the branch:
    [Some (count, records)] when the response carries [imdata]. *)
Definition fetch_records (fetch : fetcher) (config : endpoint_config)
  : result (option (Z * value)) :=
  response <- fetch (endpoint config) (params config) ;;
  if truthy response then
    has_imdata <- py_in "imdata" response ;;
    if has_imdata then
      imdata <- py_getitem response "imdata" ;;
      count <- py_len imdata ;;
      Ok (Some (count, imdata))
    else Ok None
  else Ok None.

Definition state : Type := (BaseCollector.t * Dict.t fabric_entry)%type.

(** One turn of the loop over the endpoint table. *)
Definition collect_metric (fetch : fetcher) (st : state)
    (item : string * endpoint_config) : state :=
  let '(self, fabric_data) := st in
  let '(data_type, config) := item in
  match fetch_records fetch config with
  | Ok (Some (count, imdata)) =>
      (self,
       Dict.set data_type
         (MkEntry (endpoint config) (description config) count imdata None)
         fabric_data)
  | Ok None =>
      (add_error ("No data returned for " ++ data_type) self,
       Dict.set data_type
         (MkEntry (endpoint config) (description config) 0 (VList []) None)
         fabric_data)
  | Raise e =>
      (add_error ("Failed to collect " ++ data_type ++ ": " ++ str_exn e) self,
       Dict.set data_type
         (MkEntry (endpoint config) (description config) 0 (VList [])
                  (Some (str_exn e)))
         fabric_data)
  end.

(** [collection not in data or data[collection]['count'] == 0] *)
Definition missing_or_empty (collection : string) (data : Dict.t fabric_entry) : bool :=
  match Dict.get collection data with
  | None => true
  | Some e => (fe_count e =? 0)%Z
  end.

(** One turn of the first loop of [validate_fabric_data]. *)
Definition validate_collection (data : Dict.t fabric_entry) (self : BaseCollector.t)
    (collection : string) : result BaseCollector.t :=
  if missing_or_empty collection data then
    if String.eqb collection "topology" then
      Ok (add_error ("Critical: No " ++ collection
                     ++ " data - fabric discovery may be incomplete") self)
    else if String.eqb collection "faults" then
      match Dict.get collection data with
      | Some _ => Ok self
      | None => raise KeyError ("'" ++ collection ++ "'")
      end
    else Ok self
  else Ok self.

(** [validate_fabric_data]; the boolean it returns is not used by
    [collect]. *)
Definition validate_fabric_data (data : Dict.t fabric_entry) (self : BaseCollector.t)
  : result BaseCollector.t :=
  self <- validate_collection data self "topology" ;;
  self <- validate_collection data self "links" ;;
  self <- validate_collection data self "faults" ;;
  match Dict.get "topology" data with
  | Some e =>
      let node_count := fe_count e in
      if (node_count <? 3)%Z then
        Ok (add_error ("Warning: Only " ++ PyStr.str_of_Z node_count
                       ++ " nodes found - fabric may be incomplete") self)
      else Ok self
  | None => Ok self
  end.

(** [collect], for the endpoint table [table] of the class; [t_start] and
    [t_end] are the two readings of the clock. *)
Definition collect (table : Dict.t endpoint_config) (fetch : fetcher)
    (t_start t_end : Z) (self : BaseCollector.t)
  : result (CollectionResult (Dict.t fabric_entry)) :=
  let self := start_collection t_start self in
  let '(self, fabric_data) := fold_left (collect_metric fetch) table (self, []) in
  self <- validate_fabric_data fabric_data self ;;
  end_collection t_end fabric_data self.

End Fabric.
End FabricCollector.

(* ================================================================== *)
(** ** collectors/leaf_collector.py: the collector *)
(* ================================================================== *)

Module LeafCollector.
Section Leaf.
Context `{RT : Py.Runtime}.
Import Py BaseCollector LeafParsers.
Local Open Scope py_scope.

Record command_config : Type := MkCommand {
  command : string;
  description : string
}.

Definition LEAF_COMMANDS : Dict.t command_config :=
  [ ("interfaces", MkCommand "show interface status"
                     "Interface status and configuration");
    ("port_channels", MkCommand "show port-channel summary"
                        "Port channel status and members");
    ("mac_table", MkCommand "show mac address-table" "MAC address table entries");
    ("arp_table", MkCommand "show ip arp vrf all" "ARP table entries for all VRFs");
    ("vlans", MkCommand "show vlan brief" "VLAN configuration and status");
    ("vpc", MkCommand "show vpc brief" "vPC status and configuration");
    ("fabric_interfaces", MkCommand "show interface fabric brief"
                            "Fabric interface status");
    ("endpoints", MkCommand "show system internal epm endpoint summary"
                    "Endpoint database summary");
    ("bridge_domains", MkCommand "show system internal epm bd summary"
                         "Bridge domain endpoint summary") ].

(** An open SSH session: [execute_command], which yields the output of a
    command or [None]. *)
Definition NXOSClient : Type := string -> option string.

(** [NXOSClient.execute_commands] (aci_client.py): a failed command is
    recorded with the empty string. *)
Definition execute_commands (nxos_client : NXOSClient) (commands : list string)
  : Dict.t string :=
  fold_left
    (fun results command =>
       match nxos_client command with
       | Some output => Dict.set command output results
       | None => Dict.set command "" results
       end)
    commands [].

(** One entry of [leaf_data] that a command produced. *)
Record leaf_entry : Type := MkEntry {
  le_command : string;
  le_description : string;
  le_raw_output : option string;
  le_processed_data : option processed;
  le_error : option string
}.

(** The values of [leaf_data]: the description of the device under
    ['device_info'], and one entry per command. *)
Inductive leaf_item : Type :=
| DeviceItem (name hostname : string) (node_id : option Z) (device_type : string)
| MetricItem (e : leaf_entry).

Definition item_has_error (i : leaf_item) : bool :=
  match i with
  | MetricItem e => match le_error e with Some _ => true | None => false end
  | DeviceItem _ _ _ _ => false
  end.

Definition item_processed (i : leaf_item) : option processed :=
  match i with
  | MetricItem e => le_processed_data e
  | DeviceItem _ _ _ _ => None
  end.

Definition state : Type := (BaseCollector.t * Dict.t leaf_item)%type.

(** One turn of the loop over the command table.  The parsers are total,
    so the handler of the [try] statement is never entered. *)
Definition process_metric (device_info : DeviceInfo.t) (results : Dict.t string)
    (st : state) (item : string * command_config) : state :=
  let '(self, leaf_data) := st in
  let '(data_type, cmd_config) := item in
  let command := command cmd_config in
  match Dict.get command results with
  | Some output =>
      if negb (String.eqb output "") then
        let processed_data := process_command_output data_type output in
        (self,
         Dict.set data_type
           (MetricItem (MkEntry command (description cmd_config) (Some output)
                                (Some processed_data) None))
           leaf_data)
      else
        (add_error ("No output for " ++ data_type ++ " command on "
                    ++ DeviceInfo.name device_info) self,
         Dict.set data_type
           (MetricItem (MkEntry command (description cmd_config) None None
                                (Some "No command output")))
           leaf_data)
  | None =>
      (add_error ("No output for " ++ data_type ++ " command on "
                  ++ DeviceInfo.name device_info) self,
       Dict.set data_type
         (MetricItem (MkEntry command (description cmd_config) None None
                              (Some "No command output")))
         leaf_data)
  end.

(** One turn of the first loop of [validate_leaf_data]. *)
Definition validate_collection (device_info : DeviceInfo.t) (data : Dict.t leaf_item)
    (self : BaseCollector.t) (collection : string) : BaseCollector.t :=
  let failed := match Dict.get collection data with
                | None => true
                | Some i => item_has_error i
                end in
  if failed then
    add_error ("Critical: Failed to collect " ++ collection ++ " from "
               ++ DeviceInfo.name device_info) self
  else self.

(** [validate_leaf_data]; the boolean it returns is not used by
    [collect]. *)
Definition validate_leaf_data (device_info : DeviceInfo.t) (data : Dict.t leaf_item)
    (self : BaseCollector.t) : BaseCollector.t :=
  let self := validate_collection device_info data self "interfaces" in
  let self := validate_collection device_info data self "fabric_interfaces" in
  match Dict.get "interfaces" data with
  | Some i =>
      match item_processed i with
      | Some interface_data =>
          if (get_total_interfaces interface_data =? 0)%Z then
            add_error ("Warning: No interfaces found on "
                       ++ DeviceInfo.name device_info) self
          else self
      | None => self
      end
  | None => self
  end.

(** [collect], for the command table [table] of the class.
    [connect_to_device] is [fabric_client.connect_to_device]: the session,
    or [None] when the device cannot be reached. *)
Definition collect (table : Dict.t command_config)
    (connect_to_device : DeviceInfo.t -> option NXOSClient)
    (device_info : DeviceInfo.t) (t_start t_end : Z) (self : BaseCollector.t)
  : result (CollectionResult (Dict.t leaf_item)) :=
  let self := start_collection t_start self in
  match connect_to_device device_info with
  | None =>
      let self := add_error ("Failed to connect to leaf "
                             ++ DeviceInfo.name device_info) self in
      end_collection t_end [] self
  | Some nxos_client =>
      let leaf_data : Dict.t leaf_item :=
        [("device_info",
          DeviceItem (DeviceInfo.name device_info) (DeviceInfo.hostname device_info)
                     (DeviceInfo.node_id device_info) (DeviceInfo.device_type device_info))] in
      let commands_to_run := map (fun kv => command (snd kv)) table in
      let results := execute_commands nxos_client commands_to_run in
      let '(self, leaf_data) :=
        fold_left (process_metric device_info results) table (self, leaf_data) in
      let self := validate_leaf_data device_info leaf_data self in
      end_collection t_end leaf_data self
  end.

End Leaf.
End LeafCollector.

(* ================================================================== *)
(** ** snapshot_manager.py *)
(* ================================================================== *)

Module SnapshotManager.
Section Manager.
Context `{RT : Py.Runtime}.
Import Py.
Local Open Scope py_scope.

(** *** The snapshots directory *)

(** An entry of the snapshots directory.  [st_mtime] is the modification
    time as [datetime.fromtimestamp] renders it, in microseconds; [files]
    are the names inside a directory. *)
Record dir_entry : Type := MkDirEntry {
  de_name : string;
  is_dir : bool;
  st_mtime : Z;
  de_files : list string
}.

(** The directory, in the order [iterdir] yields its entries. *)
Definition directory : Type := list dir_entry.

Definition path_join (dir name : string) : string := dir ++ "/" ++ name.




Record snapshot_info : Type := MkSnapshotInfo {
  si_name : string;
  si_path : string;
  created : Z;
  si_files : list string
}.

(** [s.endswith(suffix)] *)
Definition endswith (suffix s : string) : bool :=
  PyStr.startswith (PyStr.of_chars (rev (PyStr.chars suffix)))
                   (PyStr.of_chars (rev (PyStr.chars s))).

Definition snapshot_info_of (snapshots_dir : string) (e : dir_entry) : snapshot_info :=
  MkSnapshotInfo (de_name e) (path_join snapshots_dir (de_name e)) (st_mtime e)
    (map (path_join (path_join snapshots_dir (de_name e)))
         (filter (endswith "_data.json") (de_files e))).

(** The order of [sort(key=lambda x: x['created'], reverse=True)]. *)
Definition newer_or_equal (a b : snapshot_info) : bool :=
  (created b <=? created a)%Z.

(** [list_snapshots] *)
Definition list_snapshots (snapshots_dir : string) (fs : directory)
  : list snapshot_info :=
  let snapshots := map (snapshot_info_of snapshots_dir) (filter is_dir fs) in
  StableSort.sort newer_or_equal snapshots.


(** *** The rollup *)

Inductive collection_status : Type :=
| Completed                      (** no error *)
| CompletedWithErrors (n : Z)    (** [n] errors *)
| Failed                         (** no data *).

Inductive fabric_status : Type := HEALTHY | WARNING | CRITICAL.

(** What [create_overall_summary] writes to [snapshot_summary.txt]: the
    line of each collection, the total, the status line and the
    recommendations. *)
Record overall_summary : Type := MkSummary {
  collections_completed : list (string * collection_status);
  total_errors : Z;
  status : fabric_status;
  recommendations : list string
}.

(** One turn of the loop over [collections.items()]. *)
Definition summarize_collection
    (acc : list (string * collection_status) * Z)
    (item : string * value)
  : result (list (string * collection_status) * Z) :=
  let '(lines, total_errors) := acc in
  let '(collection_type, data) := item in
  if truthy data then
    errors <- py_get data "errors" (VList []) ;;
    error_count <- py_len errors ;;
    let status := if (error_count =? 0)%Z then Completed
                  else CompletedWithErrors error_count in
    Ok (lines ++ [(collection_type, status)], (total_errors + error_count)%Z)
  else
    Ok (lines ++ [(collection_type, Failed)], (total_errors + 1)%Z).

Fixpoint summarize_collections
    (acc : list (string * collection_status) * Z) (items : list (string * value))
  : result (list (string * collection_status) * Z) :=
  match items with
  | [] => Ok acc
  | item :: rest =>
      acc' <- summarize_collection acc item ;;
      summarize_collections acc' rest
  end.

(** [create_overall_summary] *)
Definition create_overall_summary (collections : dict) : result overall_summary :=
  acc <- summarize_collections ([], 0%Z) collections ;;
  let '(lines, total_errors) := acc in
  let status :=
    if (total_errors =? 0)%Z then HEALTHY
    else if (total_errors <=? 3)%Z then WARNING
    else CRITICAL in
  let recommendations :=
    if (total_errors =? 0)%Z then
      ["  - Fabric appears healthy for maintenance window";
       "  - Proceed with planned activities"]
    else
      ["  - Review error details in individual collection files";
       "  - Address critical issues before maintenance";
       "  - Consider delaying maintenance if major issues exist"] in
  Ok (MkSummary lines total_errors status recommendations).

(** *** Loading a snapshot *)

(** The files of a snapshot directory, in the order [glob] yields them:
    the name and what [json.load] makes of the content, or [None] when the
    file cannot be read or parsed. *)
Definition snapshot_files : Type := list (string * option value).

(** [s.replace(sub, '')] for a non-empty [sub]; [skip] counts the
    characters of a match still to be dropped. *)
Fixpoint remove_all (sub : string) (skip : nat) (s : string) : string :=
  match s with
  | EmptyString => EmptyString
  | String c s' =>
      match skip with
      | S k => remove_all sub k s'
      | O => if PyStr.startswith sub s
             then remove_all sub (String.length sub - 1) s'
             else String c (remove_all sub 0 s')
      end
  end.

(** [data_file.stem.replace('_data', '')] for a name that ends in
    [.json]. *)
Definition collection_type_of (file_name : string) : string :=
  let stem := String.substring 0 (String.length file_name - 5) file_name in
  remove_all "_data" 0 stem.

(** [load_snapshot_data] *)
Definition load_snapshot_data (files : snapshot_files) : dict :=
  fold_left
    (fun snapshot_data file =>
       let '(file_name, content) := file in
       if endswith "_data.json" file_name then
         dict_set (collection_type_of file_name)
                  (match content with Some v => v | None => VNone end)
                  snapshot_data
       else snapshot_data)
    files [].

(** *** Comparison *)

(** [extract_count]: the loop over [processed.items()]. *)
Fixpoint first_total (processed : dict) : value :=
  match processed with
  | [] => VNone
  | (key, v) :: rest =>
      if PyStr.contains "total" (PyStr.lower key) && is_int v then v
      else first_total rest
  end.

(** [extract_count]; [VNone] is [None]. *)
Definition extract_count (data : value) : value :=
  match data with
  | VDict d =>
      match dict_get "count" d with
      | Some count => count
      | None =>
          match dict_get "processed_data" d with
          | Some (VDict processed) => first_total processed
          | _ => VNone
          end
      end
  | _ => VNone
  end.

(** The lines [compare_collections] produces, one constructor for each
    format string. *)
Inductive change : Type :=
| ErrorsIncreased (baseline_errors current_errors : Z)
| ErrorsDecreased (baseline_errors current_errors : Z)
| MissingData (key : string)
| CountChanged (key : string) (baseline_count current_count : value)
| NewData (key : string).

(** The first loop of [compare_collections], over the keys of the
    baseline that remain. *)
Fixpoint compare_baseline_keys (baseline_data current_data : value)
    (keys : list string) (changes : list change) : result (list change) :=
  match keys with
  | [] => Ok changes
  | key :: rest =>
      present <- py_in key current_data ;;
      if negb present then
        compare_baseline_keys baseline_data current_data rest
          (changes ++ [MissingData key])
      else
        baseline_item <- py_getitem baseline_data key ;;
        let baseline_count := extract_count baseline_item in
        current_item <- py_getitem current_data key ;;
        let current_count := extract_count current_item in
        if negb (is_none baseline_count) && negb (is_none current_count) then
          differs <- absdiff_pos current_count baseline_count ;;
          if differs then
            compare_baseline_keys baseline_data current_data rest
              (changes ++ [CountChanged key baseline_count current_count])
          else compare_baseline_keys baseline_data current_data rest changes
        else compare_baseline_keys baseline_data current_data rest changes
  end.

(** The second loop, over the keys of the current data. *)
Fixpoint compare_current_keys (baseline_data : value)
    (keys : list string) (changes : list change) : result (list change) :=
  match keys with
  | [] => Ok changes
  | key :: rest =>
      present <- py_in key baseline_data ;;
      if negb present then
        compare_current_keys baseline_data rest (changes ++ [NewData key])
      else compare_current_keys baseline_data rest changes
  end.

(** [compare_collections] *)
Definition compare_collections (baseline current : value) : result (list change) :=
  baseline_errors_list <- py_get baseline "errors" (VList []) ;;
  baseline_errors <- py_len baseline_errors_list ;;
  current_errors_list <- py_get current "errors" (VList []) ;;
  current_errors <- py_len current_errors_list ;;
  let changes :=
    if (baseline_errors <? current_errors)%Z then
      [ErrorsIncreased baseline_errors current_errors]
    else if (current_errors <? baseline_errors)%Z then
      [ErrorsDecreased baseline_errors current_errors]
    else [] in
  baseline_data <- py_get baseline "data" (VDict []) ;;
  current_data <- py_get current "data" (VDict []) ;;
  baseline_keys <- py_keys baseline_data ;;
  changes <- compare_baseline_keys baseline_data current_data baseline_keys changes ;;
  current_keys <- py_keys current_data ;;
  compare_current_keys baseline_data current_keys changes.

(** What the report says about one collection. *)
Inductive section_report : Type :=
| NoDataInEither
| NewCollectionAdded
| CollectionMissing
| Changes (changes : list change)
| NoSignificantChanges.

(** [sorted(set(baseline_data.keys()) | set(current_data.keys()))] *)
Definition all_collections (baseline_data current_data : dict) : list string :=
  StableSort.sort String.leb
    (nodup string_dec (dict_keys baseline_data ++ dict_keys current_data)).

(** The body of the loop of [create_comparison_report]. *)
Definition compare_collection_type (baseline_data current_data : dict)
    (collection_type : string) : result section_report :=
  let baseline_collection :=
    match dict_get collection_type baseline_data with Some v => v | None => VNone end in
  let current_collection :=
    match dict_get collection_type current_data with Some v => v | None => VNone end in
  if negb (truthy baseline_collection) && negb (truthy current_collection) then
    Ok NoDataInEither
  else if negb (truthy baseline_collection) then Ok NewCollectionAdded
  else if negb (truthy current_collection) then Ok CollectionMissing
  else
    changes <- compare_collections baseline_collection current_collection ;;
    match changes with
    | [] => Ok NoSignificantChanges
    | _ => Ok (Changes changes)
    end.

Fixpoint compare_all (baseline_data current_data : dict)
    (collection_types : list string) : result (list (string * section_report)) :=
  match collection_types with
  | [] => Ok []
  | collection_type :: rest =>
      section <- compare_collection_type baseline_data current_data collection_type ;;
      sections <- compare_all baseline_data current_data rest ;;
      Ok ((collection_type, section) :: sections)
  end.

(** [create_comparison_report]: the sections of the report, for the files
    found under the two snapshot paths. *)
Definition create_comparison_report (baseline current : snapshot_files)
  : result (list (string * section_report)) :=
  let baseline_data := load_snapshot_data baseline in
  let current_data := load_snapshot_data current in
  compare_all baseline_data current_data (all_collections baseline_data current_data).

(** *** What [save_collection_data] stores

    The value that [json.load] reads back from what [json.dump] wrote for
    the result of a collector. *)

Definition option_to_value {A} (f : A -> value) (o : option A) : value :=
  match o with Some a => f a | None => VNone end.

Definition result_to_value {D} (data_to_value : D -> value)
    (r : BaseCollector.CollectionResult D) : value :=
  VDict [("collector", VStr (BaseCollector.collector r));
         ("start_time", VStr (isoformat (BaseCollector.start_time r)));
         ("end_time", VStr (isoformat (BaseCollector.end_time r)));
         ("duration_seconds", VFloat (BaseCollector.duration_seconds r));
         ("errors", VList (map VStr (BaseCollector.result_errors r)));
         ("data", data_to_value (BaseCollector.data r))].

Definition fabric_entry_to_value (e : FabricCollector.fabric_entry) : value :=
  VDict ([("endpoint", VStr (FabricCollector.fe_endpoint e));
          ("description", VStr (FabricCollector.fe_description e));
          ("count", VInt (FabricCollector.fe_count e));
          ("data", FabricCollector.fe_data e)]
         ++ match FabricCollector.fe_error e with
            | Some msg => [("error", VStr msg)]
            | None => []
            end).

Definition fabric_result_to_value
    (r : BaseCollector.CollectionResult (Dict.t FabricCollector.fabric_entry)) : value :=
  result_to_value
    (fun data => VDict (map (fun kv => (fst kv, fabric_entry_to_value (snd kv))) data)) r.

Definition leaf_item_to_value (i : LeafCollector.leaf_item) : value :=
  match i with
  | LeafCollector.DeviceItem name hostname node_id device_type =>
      VDict [("name", VStr name); ("hostname", VStr hostname);
             ("node_id", option_to_value VInt node_id);
             ("device_type", VStr device_type)]
  | LeafCollector.MetricItem e =>
      VDict ([("command", VStr (LeafCollector.le_command e));
              ("description", VStr (LeafCollector.le_description e))]
             ++ match LeafCollector.le_raw_output e with
                | Some raw => [("raw_output", VStr raw)]
                | None => []
                end
             ++ match LeafCollector.le_processed_data e with
                | Some p => [("processed_data", LeafParsers.processed_to_value p)]
                | None => []
                end
             ++ match LeafCollector.le_error e with
                | Some msg => [("error", VStr msg)]
                | None => []
                end)
  end.

Definition leaf_result_to_value
    (r : BaseCollector.CollectionResult (Dict.t LeafCollector.leaf_item)) : value :=
  result_to_value
    (fun data => VDict (map (fun kv => (fst kv, leaf_item_to_value (snd kv))) data)) r.

End Manager.
End SnapshotManager.

(* ================================================================== *)
(** ** shared/utils.py: [read_inventory_file] *)
(* ================================================================== *)

Module Utils.
Import PyStr.

(** [f.readlines()] in text mode: a line ends at LF, CR or CR LF.  The
    line terminators are left out; every line is stripped before use. *)
Fixpoint readlines (cur : list ascii) (l : list ascii) : list (list ascii) :=
  match l with
  | [] => match cur with [] => [] | _ => [rev cur] end
  | c :: l' =>
      if Ascii.eqb c LF then rev cur :: readlines [] l'
      else if Ascii.eqb c CR then
        match l' with
        | c' :: l'' =>
            if Ascii.eqb c' LF then rev cur :: readlines [] l''
            else rev cur :: readlines [] l'
        | [] => [rev cur]
        end
      else readlines (c :: cur) l'
  end.

(** [s.split(sep)[1]] when [sep] occurs in [s]: the text between the first
    and the second occurrence of [sep].  [skip] counts the characters of
    the current match of [sep] still to be passed over; [inside] tells
    whether the first occurrence lies behind. *)
Fixpoint second_field (sep : string) (skip : nat) (inside : bool) (s : string)
  : string :=
  match s with
  | EmptyString => EmptyString
  | String c s' =>
      match skip with
      | S k => second_field sep k inside s'
      | O =>
          if startswith sep s then
            if inside then EmptyString
            else second_field sep (String.length sep - 1) true s'
          else if inside then String c (second_field sep 0 true s')
          else second_field sep 0 false s'
      end
  end.

Record host_entry : Type := MkHost {
  host_name : string;
  section : option string;
  line : string
}.

Record inventory_data : Type := MkInventoryData {
  sections : list string;
  hosts : list host_entry;
  metadata : Dict.t string
}.

Definition state : Type := (inventory_data * option string)%type.

(** One turn of the loop of [read_inventory_file] over the lines. *)
Definition read_line (st : state) (raw_line : list ascii) : state :=
  let '(inventory, current_section) := st in
  let line := of_chars (strip_chars raw_line) in
  if startswith "#" line then
    if contains "Generated:" line then
      (MkInventoryData (sections inventory) (hosts inventory)
         (Dict.set "generated" (strip (second_field "Generated:" 0 false line))
                   (metadata inventory)),
       current_section)
    else if contains "Management Network:" line then
      (MkInventoryData (sections inventory) (hosts inventory)
         (Dict.set "management_type"
                   (strip (second_field "Management Network:" 0 false line))
                   (metadata inventory)),
       current_section)
    else st
  else if startswith "[" line && contains "]" line then
    let current_section := strip_set "[]" line in
    (MkInventoryData (sections inventory ++ [current_section]) (hosts inventory)
                     (metadata inventory),
     Some current_section)
  else if negb (String.eqb line "") && negb (startswith "[" line)
          && contains "=" line then
    match split line with
    | host_name :: _ =>
        (MkInventoryData (sections inventory)
           (hosts inventory ++ [MkHost host_name current_section line])
           (metadata inventory),
         current_section)
    | [] => st
    end
  else st.

(** [read_inventory_file], on the content of the file. *)
Definition read_inventory_file (content : string) : inventory_data :=
  fst (fold_left read_line (readlines [] (chars content))
                 (MkInventoryData [] [] [], None)).

End Utils.

(* ================================================================== *)
(** ** inventory_parser.py *)
(* ================================================================== *)

Module InventoryParser.
Import PyStr Utils.

(** The digits of [int(s)] after the sign: digits, with single
    underscores between them. *)
Fixpoint int_digits (acc : Z) (after_digit : bool) (l : list ascii) : option Z :=
  match l with
  | [] => if after_digit then Some acc else None
  | c :: l' =>
      if is_digit c then
        int_digits (10 * acc + LeafParsers.digit_value c)%Z true l'
      else if Ascii.eqb c "_"%char && after_digit then
        match l' with
        | c' :: _ => if is_digit c' then int_digits acc false l' else None
        | [] => None
        end
      else None
  end.

(** [int(s)]: [None] is [ValueError].  The interpreter's limit on the
    number of digits is not modelled. *)
Definition py_int (s : string) : option Z :=
  match strip_chars (chars s) with
  | c :: l =>
      if Ascii.eqb c "-"%char then option_map Z.opp (int_digits 0 false l)
      else if Ascii.eqb c "+"%char then int_digits 0 false l
      else int_digits 0 false (c :: l)
  | [] => None
  end.

(** The loop of [parse_ini_host] over [parts[1:]]. *)
Definition parse_params (parts : list string) : Dict.t string :=
  fold_left
    (fun params part =>
       match split_once "="%char part with
       | Some (key, value) => Dict.set key value params
       | None => params
       end)
    parts [].

(** The device type that a section name stands for. *)
Definition device_type_of_section (section : string) : string :=
  let section := lower section in
  if contains "apic" section then "apic"
  else if contains "leaf" section || contains "leaves" section then "leaf"
  else if contains "spine" section then "spine"
  else "other".

(** [parse_ini_host]: [None] when the body raises. *)
Definition parse_ini_host (host_data : host_entry) : option DeviceInfo.t :=
  match split (line host_data) with
  | [] => None    (* parts[0]: IndexError *)
  | hostname :: rest =>
      let params := parse_params rest in
      match section host_data with
      | None => None    (* None.lower(): AttributeError *)
      | Some section =>
          let device_type := device_type_of_section section in
          let node_id :=
            match Dict.get "node_id" params with
            | Some v => py_int v
            | None => None
            end in
          let priority :=
            match Dict.get "priority" params with
            | Some v => match py_int v with Some p => p | None => 1%Z end
            | None => 1%Z
            end in
          match DeviceInfo.new hostname hostname "" "" device_type
                               node_id (Some priority) 22 with
          | Py.Ok device_info => Some device_info
          | Py.Raise _ => None
          end
      end
  end.

Record FabricInventory : Type := MkInventory {
  apic_devices : list DeviceInfo.t;
  leaf_devices : list DeviceInfo.t;
  spine_devices : list DeviceInfo.t;
  other_devices : list DeviceInfo.t;
  fabric_name : string;
  discovery_timestamp : string;
  total_devices : Z
}.

(** The four device lists of [parse_ini_file], filled host by host. *)
Definition add_host (acc : list DeviceInfo.t * list DeviceInfo.t
                           * list DeviceInfo.t * list DeviceInfo.t)
    (host : host_entry) :=
  let '(apics, leaves, spines, others) := acc in
  match parse_ini_host host, section host with
  | Some device_info, Some section =>
      let section := lower section in
      if contains "apic" section then (apics ++ [device_info], leaves, spines, others)
      else if contains "leaf" section || contains "leaves" section then
        (apics, leaves ++ [device_info], spines, others)
      else if contains "spine" section then
        (apics, leaves, spines ++ [device_info], others)
      else (apics, leaves, spines, others ++ [device_info])
  | _, _ => acc
  end.

(** [parse_ini_file], on the content of the file. *)
Definition parse_ini_file (content : string) : FabricInventory :=
  let inventory_data := read_inventory_file content in
  let '(apics, leaves, spines, others) :=
    fold_left add_host (hosts inventory_data) ([], [], [], []) in
  MkInventory apics leaves spines others "ACI Fabric"
    (match Dict.get "generated" (metadata inventory_data) with
     | Some g => g
     | None => "unknown"
     end)
    (Z.of_nat (List.length apics + List.length leaves
               + List.length spines + List.length others)).

End InventoryParser.

(* ================================================================== *)
(** ** aci_client.py: the sessions of the switches *)
(* ================================================================== *)

Module DeviceSessions.
Section Sessions.
Context `{RT : Py.Runtime}.
Import Py.

(** What a switch answers to a command sent over SSH. *)
Inductive exec_outcome : Type :=
| Exited (exit_status : Z) (stdout stderr : string)
| ExecException (msg : string)
    (** the channel fails, or the output is not UTF-8 *).

(** The switches: whether an SSH connection to a host is accepted with
    the given credentials, and what a host answers to a command. *)
Record switches : Type := MkSwitches {
  ssh_connect : string -> string -> string -> bool;
  remote_exec : string -> string -> exec_outcome
}.

(** [NXOSClient].  [has_ssh_client] tells whether [ssh_client] is set. *)
Record NXOSClient : Type := MkNXOSClient {
  nx_hostname : string;
  nx_username : string;
  nx_password : string;
  has_ssh_client : bool;
  is_connected : bool
}.

Definition new_NXOSClient (hostname username password : string) : NXOSClient :=
  MkNXOSClient hostname username password false false.

(** [NXOSClient.connect]: the client object is made before the
    connection is tried, and stays when the connection fails. *)
Definition nxos_connect (sw : switches) (c : NXOSClient) : bool * NXOSClient :=
  if ssh_connect sw (nx_hostname c) (nx_username c) (nx_password c) then
    (true, MkNXOSClient (nx_hostname c) (nx_username c) (nx_password c) true true)
  else
    (false, MkNXOSClient (nx_hostname c) (nx_username c) (nx_password c) true
                         (is_connected c)).

(** [NXOSClient.execute_command] *)
Definition execute_command (sw : switches) (c : NXOSClient) (command : string)
  : option string :=
  if negb (is_connected c) then None
  else
    match remote_exec sw (nx_hostname c) command with
    | Exited exit_status stdout _ =>
        if (exit_status =? 0)%Z then Some stdout else None
    | ExecException _ => None
    end.

(** [NXOSClient.disconnect] *)
Definition nxos_disconnect (c : NXOSClient) : NXOSClient :=
  if has_ssh_client c then
    MkNXOSClient (nx_hostname c) (nx_username c) (nx_password c) false false
  else c.

(** The fields of [FabricClient]: those of the controller side, and the
    sessions of the switches by device name. *)
Record Fabric : Type := MkFabric {
  client : AciClient.FabricClient;
  device_clients : Dict.t NXOSClient
}.

(** [FabricClient.connect_to_device] *)
Definition connect_to_device (sw : switches) (fabric : Fabric) (device : DeviceInfo.t)
  : option NXOSClient * Fabric :=
  match Dict.get (DeviceInfo.name device) (device_clients fabric) with
  | Some cached => (Some cached, fabric)
  | None =>
      let nxos_client :=
        new_NXOSClient (DeviceInfo.hostname device)
          (AciClient.fc_username (client fabric))
          (AciClient.fc_password (client fabric)) in
      match nxos_connect sw nxos_client with
      | (true, nxos_client') =>
          (Some nxos_client',
           MkFabric (client fabric)
             (Dict.set (DeviceInfo.name device) nxos_client' (device_clients fabric)))
      | (false, _) => (None, fabric)
      end
  end.

(** [APICClient.logout] *)
Definition logout (c : AciClient.APICClient) : AciClient.APICClient :=
  if AciClient.is_authenticated c then
    AciClient.MkAPICClient (AciClient.apic_hostname c) (AciClient.apic_username c)
      (AciClient.apic_password c) (AciClient.base_url c) None false
  else c.

(** What [disconnect_all] leaves: the fabric client, and the client
    objects it held (a caller may still hold them) as [logout] and
    [disconnect] left them. *)
Record disconnected : Type := MkDisconnected {
  fabric_after : Fabric;
  apic_after : option AciClient.APICClient;
  clients_after : Dict.t NXOSClient
}.

(** [FabricClient.disconnect_all] *)
Definition disconnect_all (fabric : Fabric) : disconnected :=
  MkDisconnected
    (MkFabric
       (AciClient.MkFabricClient (AciClient.apic_devices (client fabric))
          (AciClient.fc_username (client fabric))
          (AciClient.fc_password (client fabric)) None)
       [])
    (option_map logout (AciClient.primary_apic (client fabric)))
    (map (fun item => (fst item, nxos_disconnect (snd item))) (device_clients fabric)).

(** The session a collector works with: [execute_command] of a client. *)
Definition session (sw : switches) (c : NXOSClient) : LeafCollector.NXOSClient :=
  execute_command sw c.

(** [connect_to_device] as the leaf collector calls it. *)
Definition connect_for_collector (sw : switches) (fabric : Fabric)
  : DeviceInfo.t -> option LeafCollector.NXOSClient :=
  fun device => option_map (session sw) (fst (connect_to_device sw fabric device)).

End Sessions.
End DeviceSessions.

(* ================================================================== *)
(** ** snapshot_manager.py: writing a snapshot *)
(* ================================================================== *)

Module SnapshotWriter.
Section Writer.
Context `{RT : Py.Runtime}.
Import Py SnapshotManager.



End Writer.
End SnapshotWriter.

(* ================================================================== *)
(** ** inventory_parser.py, device_info.py: the remaining functions *)
(* ================================================================== *)

Module InventoryValidation.
Import PyStr InventoryParser.

(** The messages [validate_inventory] collects. *)
Definition validation_errors (inventory : FabricInventory) : list string :=
  (if Nat.eqb (List.length (apic_devices inventory)) 0
   then ["No APIC controllers found"] else [])
  ++ (if Nat.eqb (List.length (leaf_devices inventory)) 0
         && Nat.eqb (List.length (spine_devices inventory)) 0
      then ["No leaf or spine switches found"] else [])
  ++ (if (total_devices inventory <? 2)%Z
      then [("Very small fabric: only " ++ str_of_Z (total_devices inventory)
             ++ " devices")%string]
      else [])
  ++ flat_map
       (fun apic =>
          if String.eqb (DeviceInfo.hostname apic) ""
             || String.eqb (DeviceInfo.hostname apic) "unknown"
          then [("APIC " ++ DeviceInfo.name apic ++ " missing hostname/IP")%string]
          else [])
       (apic_devices inventory).

(** [validate_inventory] *)
Definition validate_inventory (inventory : FabricInventory) : bool :=
  match validation_errors inventory with
  | [] => true
  | _ => false
  end.

(** [get_collection_targets] *)
Definition get_collection_targets (inventory : FabricInventory)
  : Dict.t (list DeviceInfo.t) :=
  [("fabric", apic_devices inventory); ("apic", apic_devices inventory);
   ("leaf", leaf_devices inventory); ("spine", spine_devices inventory)].

End InventoryValidation.

Module DeviceInfoMethods.
Section Methods.
Context `{RT : Py.Runtime}.
Import Py.

(** [to_dict] *)
Definition to_dict (d : DeviceInfo.t) : dict :=
  [("name", VStr (DeviceInfo.name d));
   ("hostname", VStr (DeviceInfo.hostname d));
   ("username", VStr (DeviceInfo.username d));
   ("password", VStr (DeviceInfo.password d));
   ("device_type", VStr (DeviceInfo.device_type d));
   ("node_id", match DeviceInfo.node_id d with Some n => VInt n | None => VNone end);
   ("priority", match DeviceInfo.priority d with Some p => VInt p | None => VNone end);
   ("port", VInt (DeviceInfo.port d))].

Definition get_str (key default : string) (data : dict) : option string :=
  match dict_get key data with
  | Some (VStr s) => Some s
  | Some _ => None
  | None => Some default
  end.

Definition get_opt_int (key : string) (default : option Z) (data : dict)
  : option (option Z) :=
  match dict_get key data with
  | Some (VInt z) => Some (Some z)
  | Some VNone => Some None
  | Some _ => None
  | None => Some default
  end.

(** [from_dict], on the dictionaries whose fields have the types the
    class declares: [None] stands for a dictionary that has a field of
    another type, which the typed record cannot hold. *)
Definition from_dict (data : dict) : option (result DeviceInfo.t) :=
  match get_str "name" "" data, get_str "hostname" "" data,
        get_str "username" "" data, get_str "password" "" data,
        get_str "device_type" "unknown" data,
        get_opt_int "node_id" None data, get_opt_int "priority" (Some 1%Z) data,
        get_opt_int "port" (Some 22%Z) data with
  | Some name, Some hostname, Some username, Some password, Some device_type,
    Some node_id, Some priority, Some (Some port) =>
      Some (DeviceInfo.new name hostname username password device_type
                           node_id priority port)
  | _, _, _, _, _, _, _, _ => None
  end.

(** [is_apic], [is_switch] *)
Definition is_apic (d : DeviceInfo.t) : bool :=
  String.eqb (DeviceInfo.device_type d) "apic".

Definition is_switch (d : DeviceInfo.t) : bool :=
  String.eqb (DeviceInfo.device_type d) "leaf"
  || String.eqb (DeviceInfo.device_type d) "spine".

End Methods.
End DeviceInfoMethods.


(* ================================================================== *)
(** * Properties *)
(* ================================================================== *)

(** ** Facts about the string primitives *)

Module PyStrFacts.
Import PyStr.

Lemma lstrip_chars_all_space l :
  forallb is_space l = true -> lstrip_chars l = [].
Proof.
  induction l as [|c l IH]; simpl; [reflexivity|].
  intros H. apply andb_true_iff in H as [Hc Hl]. rewrite Hc. auto.
Qed.

Lemma lstrip_chars_nil_inv l :
  lstrip_chars l = [] -> forallb is_space l = true.
Proof.
  induction l as [|c l IH]; simpl; [reflexivity|].
  destruct (is_space c) eqn:Hc; simpl; [exact IH | discriminate].
Qed.

Lemma lstrip_chars_suffix l :
  exists pre, l = pre ++ lstrip_chars l /\ forallb is_space pre = true.
Proof.
  induction l as [|c l (pre & Hl & Hpre)]; simpl.
  - exists []. split; reflexivity.
  - destruct (is_space c) eqn:Hc.
    + exists (c :: pre). simpl. rewrite Hc, Hpre. split; [f_equal; exact Hl | reflexivity].
    + exists []. split; reflexivity.
Qed.

Lemma forallb_rev {A} (f : A -> bool) l :
  forallb f (rev l) = forallb f l.
Proof.
  induction l as [|a l IH]; simpl; [reflexivity|].
  rewrite forallb_app, IH. simpl. rewrite andb_true_r. apply andb_comm.
Qed.

Lemma strip_chars_nil_inv l :
  strip_chars l = [] -> forallb is_space l = true.
Proof.
  unfold strip_chars, rstrip_chars. intros H.
  assert (Hr : lstrip_chars (rev (lstrip_chars l)) = []).
  { destruct (lstrip_chars (rev (lstrip_chars l))); [reflexivity|].
    simpl in H. destruct (rev l0); discriminate. }
  apply lstrip_chars_nil_inv in Hr. rewrite forallb_rev in Hr.
  destruct (lstrip_chars_suffix l) as (pre & Hl & Hpre).
  rewrite Hl, forallb_app, Hpre, Hr. reflexivity.
Qed.

Lemma split_ws_all_space l :
  forallb is_space l = true -> split_ws [] l = [].
Proof.
  induction l as [|c l IH]; simpl; [reflexivity|].
  intros H. apply andb_true_iff in H as [Hc Hl]. rewrite Hc. auto.
Qed.

Lemma of_chars_nil_inv l : of_chars l = EmptyString -> l = [].
Proof. destruct l; [reflexivity | discriminate]. Qed.

(** A line with at least one field is not blank. *)
Lemma split_nonempty_strip s :
  split s <> [] -> strip s <> EmptyString.
Proof.
  unfold split, strip. intros Hs He. apply Hs.
  apply of_chars_nil_inv, strip_chars_nil_inv, split_ws_all_space in He.
  rewrite He. reflexivity.
Qed.

End PyStrFacts.

(** ** Facts about dictionaries *)

Module DictFacts.
Import Dict.
Section Facts.
Context {V : Type}.
Implicit Types (d : Dict.t V) (v : V).

Lemma get_set_eq k v d : get k (set k v d) = Some v.
Proof.
  induction d as [|[k' v'] d IH]; simpl.
  - rewrite String.eqb_refl. reflexivity.
  - destruct (String.eqb k k') eqn:E; simpl; rewrite E; auto.
Qed.

Lemma get_set_neq k k' v d : k <> k' -> get k' (set k v d) = get k' d.
Proof.
  intros Hne. induction d as [|[k0 v0] d IH]; simpl.
  - destruct (String.eqb_spec k' k); [congruence | reflexivity].
  - destruct (String.eqb_spec k k0); simpl.
    + subst k0. destruct (String.eqb_spec k' k); [congruence | reflexivity].
    + rewrite IH. reflexivity.
Qed.

Lemma mem_in_keys k d : mem k d = true <-> In k (keys d).
Proof.
  unfold mem. induction d as [|[k' v'] d IH]; simpl.
  - split; [discriminate | tauto].
  - destruct (String.eqb_spec k k').
    + subst. split; auto.
    + rewrite IH. split; [auto | intros [E | E]; [congruence | exact E]].
Qed.

Lemma mem_false_not_in k d : mem k d = false <-> ~ In k (keys d).
Proof.
  rewrite <- mem_in_keys. destruct (mem k d); split; congruence.
Qed.

Lemma keys_set_new k v d : ~ In k (keys d) -> keys (set k v d) = keys d ++ [k].
Proof.
  unfold keys.
  induction d as [|[k' v'] d IH]; simpl; intros Hn; [reflexivity|].
  destruct (String.eqb_spec k k') as [E | E].
  - exfalso. apply Hn. left. symmetry. exact E.
  - simpl. rewrite IH; [reflexivity|]. intros Hin. apply Hn. right. exact Hin.
Qed.

Lemma keys_set_old k v d : In k (keys d) -> keys (set k v d) = keys d.
Proof.
  unfold keys.
  induction d as [|[k' v'] d IH]; simpl; [tauto|]. intros Hin.
  destruct (String.eqb_spec k k'); [reflexivity|]. simpl. rewrite IH; [reflexivity|].
  destruct Hin; [congruence | assumption].
Qed.

Lemma keys_set_all entries : forall d,
  NoDup (keys entries) ->
  (forall k, In k (keys entries) -> ~ In k (keys d)) ->
  keys (set_all entries d) = keys d ++ keys entries.
Proof.
  unfold set_all.
  induction entries as [|[k v] es IH]; simpl; intros d Hnd Hfresh.
  - rewrite app_nil_r. reflexivity.
  - inversion Hnd as [|? ? Hk Hes]; subst.
    rewrite IH; [| assumption |].
    + rewrite keys_set_new by (apply Hfresh; auto).
      rewrite <- app_assoc. reflexivity.
    + intros k' Hk'. rewrite keys_set_new by (apply Hfresh; auto).
      rewrite in_app_iff. simpl. intros [Hd | [E | []]].
      * apply (Hfresh k'); auto.
      * subst. contradiction.
Qed.



Lemma get_in k v d : get k d = Some v -> In (k, v) d.
Proof.
  induction d as [|[k' v'] d IH]; simpl; [discriminate|].
  destruct (String.eqb_spec k k') as [-> | Hne].
  - intros E. inversion E; subst. left. reflexivity.
  - intros E. right. apply IH. exact E.
Qed.

Lemma in_keys_get k d : In k (keys d) -> exists v, get k d = Some v.
Proof.
  intros Hin. apply mem_in_keys in Hin. unfold mem in Hin.
  destruct (get k d) as [v|]; [exists v; reflexivity | discriminate].
Qed.

End Facts.
End DictFacts.

(** ** Facts about the stable sort *)

Module StableSortFacts.
Import StableSort.


Section Facts.
Context {A : Type}.
Variable le : A -> A -> bool.

Lemma insert_perm x l : Permutation (x :: l) (insert le x l).
Proof.
  induction l as [|y l IH]; simpl; [reflexivity|].
  destruct (le x y); [reflexivity|].
  rewrite perm_swap. apply perm_skip. exact IH.
Qed.

Lemma sort_perm l : Permutation l (sort le l).
Proof.
  induction l as [|x l IH]; simpl; [constructor|].
  rewrite <- insert_perm. apply perm_skip. exact IH.
Qed.

Hypothesis le_total : forall x y, le x y = true \/ le y x = true.

Lemma insert_sorted x l :
  Sorted (fun a b => le a b = true) l ->
  Sorted (fun a b => le a b = true) (insert le x l).
Proof.
  induction l as [|y l IH]; simpl; intros Hs.
  - repeat constructor.
  - destruct (le x y) eqn:E.
    + constructor; [exact Hs | constructor; exact E].
    + inversion Hs as [|? ? Hs' Hhd]; subst.
      constructor; [apply IH; exact Hs'|].
      destruct l as [|z l]; simpl.
      * constructor. destruct (le_total x y); congruence.
      * destruct (le x z).
        -- constructor. destruct (le_total x y); congruence.
        -- inversion Hhd; subst. constructor. assumption.
Qed.

Lemma sort_sorted l : Sorted (fun a b => le a b = true) (sort le l).
Proof.
  induction l as [|x l IH]; simpl; [constructor | apply insert_sorted; exact IH].
Qed.

End Facts.
End StableSortFacts.

(** A model of the interface: fixed-point numbers with six
    decimals, held as a count of millionths.  It is exact on durations and
    on the integers, which is all the examples below need. *)
Module FixedPoint.

Lemma differs_self (x : Z) : negb (x =? x)%Z = false.
Proof. rewrite Z.eqb_refl. reflexivity. Qed.

Definition instance : Py.Runtime :=
  {| Py.float := Z;
     Py.float_is_zero := fun x => (x =? 0)%Z;
     Py.float_of_int := fun n => Some (n * 1000000)%Z;
     Py.float_absdiff_pos := fun x y => negb (x =? y)%Z;
     Py.total_seconds := fun us => us;
     Py.isoformat := fun us => PyStr.str_of_Z us;
     Py.strftime := fun _ us => PyStr.str_of_Z us;
     Py.float_absdiff_self := differs_self |}.

End FixedPoint.


(* ================================================================== *)
(** ** The interface parser of the leaf collector *)
(* ================================================================== *)

Module LeafParserFacts.
Import PyStr LeafParsers.

(** The test on the stripped line is implied by the test on the number of
    fields. *)
Lemma parse_interface_line_fields line :
  parse_interface_line line =
  match split line with
  | p0 :: p1 :: p2 :: p3 :: _ => Some (MkInterface p0 p1 p2 p3)
  | _ => None
  end.
Proof.
  unfold parse_interface_line.
  destruct (String.eqb_spec (strip line) "") as [E | E]; simpl; [|reflexivity].
  destruct (split line) as [|p0 ps] eqn:Hs; [reflexivity|].
  exfalso. apply (PyStrFacts.split_nonempty_strip line); [rewrite Hs; discriminate | exact E].
Qed.

(** A line is parsed when it has at least four fields. *)
Definition has_four_fields (line : string) : bool :=
  (4 <=? List.length (split line))%nat.

(** The status column of a line: its second field. *)
Definition status_field (line : string) : string := nth 1 (split line) "".

Lemma parse_interface_line_some line :
  has_four_fields line = true ->
  exists i, parse_interface_line line = Some i /\ if_status i = status_field line.
Proof.
  unfold has_four_fields, status_field. rewrite parse_interface_line_fields.
  destruct (split line) as [|p0 [|p1 [|p2 [|p3 ps]]]]; simpl; try discriminate.
  intros _. eexists. split; reflexivity.
Qed.

Lemma parse_interface_line_none line :
  has_four_fields line = false -> parse_interface_line line = None.
Proof.
  unfold has_four_fields. rewrite parse_interface_line_fields.
  destruct (split line) as [|p0 [|p1 [|p2 [|p3 ps]]]]; simpl; try reflexivity.
  discriminate.
Qed.

Lemma filter_map_parse_length lines :
  List.length (filter_map parse_interface_line lines)
  = List.length (filter has_four_fields lines).
Proof.
  induction lines as [|line lines IH]; simpl; [reflexivity|].
  destruct (has_four_fields line) eqn:E.
  - destruct (parse_interface_line_some line E) as (i & -> & _). simpl. congruence.
  - rewrite (parse_interface_line_none line E). exact IH.
Qed.

Lemma filter_map_parse_connected lines :
  List.length (filter is_connected (filter_map parse_interface_line lines))
  = List.length
      (filter (fun line => has_four_fields line
                           && contains "connected" (lower (status_field line)))
              lines).
Proof.
  induction lines as [|line lines IH]; simpl; [reflexivity|].
  destruct (has_four_fields line) eqn:E; simpl.
  - destruct (parse_interface_line_some line E) as (i & -> & Hi). simpl.
    unfold is_connected at 1. rewrite Hi.
    destruct (contains "connected" (lower (status_field line))); simpl; congruence.
  - rewrite (parse_interface_line_none line E). exact IH.
Qed.

Lemma filter_filter {A} (f g : A -> bool) l :
  filter f (filter g l) = filter (fun x => g x && f x) l.
Proof.
  induction l as [|a l IH]; simpl; [reflexivity|].
  destruct (g a); simpl; [destruct (f a)|]; rewrite IH; reflexivity.
Qed.

Lemma filter_length_le {A} (f : A -> bool) l :
  (List.length (filter f l) <= List.length l)%nat.
Proof.
  induction l as [|a l IH]; simpl; [lia|]. destruct (f a); simpl; lia.
Qed.

(** C10.  For every text that [show interface status] may return, the
    result of [parse_interface_status] satisfies
    [0 <= up_interfaces <= total_interfaces]; [total_interfaces] is the
    number of lines that start neither with "Port" nor with "----" and
    split into at least four fields, and [up_interfaces] is the number of
    those lines whose status field contains "connected", whatever the
    case of its letters. *)
Theorem parse_interface_status_counts (output : string) :
  let r := parse_interface_status output in
  (0 <= up_interfaces r <= total_interfaces r)%Z
  /\ total_interfaces r
     = Z.of_nat (List.length
         (filter (fun line => is_data_line line && has_four_fields line)
                 (lines_of output)))
  /\ up_interfaces r
     = Z.of_nat (List.length
         (filter (fun line => is_data_line line && has_four_fields line
                              && contains "connected" (lower (status_field line)))
                 (lines_of output))).
Proof.
  unfold parse_interface_status; simpl.
  split; [|split].
  - split; [lia|]. apply inj_le, filter_length_le.
  - rewrite filter_map_parse_length, filter_filter. reflexivity.
  - rewrite filter_map_parse_connected, filter_filter. f_equal. f_equal.
    apply filter_ext. intros line. rewrite andb_assoc. reflexivity.
Qed.

End LeafParserFacts.

(* ================================================================== *)
(** ** The collectors *)
(* ================================================================== *)

Module CollectorFacts.

Definition with_errors (errs : list string) (self : BaseCollector.t) : BaseCollector.t :=
  BaseCollector.MkCollector (BaseCollector.name self)
    (BaseCollector.collection_time self) errs.

Lemma contains_refl_app s t : PyStr.contains s (s ++ t)%string = true.
Proof.
  assert (P : String.prefix s (s ++ t)%string = true).
  { induction s as [|c s IH]; simpl; [destruct t; reflexivity|].
    destruct (ascii_dec c c); [exact IH | congruence]. }
  destruct s, t; simpl in *; try rewrite P; reflexivity.
Qed.

Lemma contains_app_r p s t :
  PyStr.contains s t = true -> PyStr.contains s (p ++ t)%string = true.
Proof.
  induction p as [|c p IH]; simpl; intros Hc; [exact Hc|].
  rewrite IH by exact Hc. apply orb_true_r.
Qed.

Lemma contains_self s : PyStr.contains s s = true.
Proof.
  assert (P : String.prefix s s = true).
  { induction s as [|c s IH]; simpl; [reflexivity|].
    destruct (ascii_dec c c); [exact IH | congruence]. }
  destruct s; simpl in *; try rewrite P; reflexivity.
Qed.

(** A message built around a name contains the name. *)
Lemma contains_infix p s t : PyStr.contains s (p ++ s ++ t)%string = true.
Proof. apply contains_app_r, contains_refl_app. Qed.

Lemma flat_map_nil {A B} (f : A -> list B) l :
  (forall a, In a l -> f a = []) -> flat_map f l = [].
Proof.
  induction l as [|a l IH]; simpl; intros Hf; [reflexivity|].
  rewrite Hf by auto. apply IH. auto.
Qed.

End CollectorFacts.

Module FabricFacts.
Section Facts.
Context `{RT : Py.Runtime}.
Import Py BaseCollector FabricCollector CollectorFacts.

(** A metric fails when its fetch raises, returns nothing, or returns a
    response that carries no records. *)
Definition metric_fails (fetch : fetcher) (config : endpoint_config) : bool :=
  match fetch_records fetch config with
  | Ok (Some _) => false
  | _ => true
  end.

(** What one turn of the loop appends to the errors. *)
Definition metric_errors (fetch : fetcher) (item : string * endpoint_config)
  : list string :=
  match fetch_records fetch (snd item) with
  | Ok (Some _) => []
  | Ok None => [("No data returned for " ++ fst item)%string]
  | Raise e => [("Failed to collect " ++ fst item ++ ": " ++ str_exn e)%string]
  end.

(** What one turn of the loop stores. *)
Definition metric_entry (fetch : fetcher) (item : string * endpoint_config)
  : string * fabric_entry :=
  let config := snd item in
  (fst item,
   match fetch_records fetch config with
   | Ok (Some (count, imdata)) =>
       MkEntry (endpoint config) (description config) count imdata None
   | Ok None => MkEntry (endpoint config) (description config) 0 (VList []) None
   | Raise e =>
       MkEntry (endpoint config) (description config) 0 (VList [])
               (Some (str_exn e))
   end).

Lemma collect_metric_eq fetch self fabric_data item :
  collect_metric fetch (self, fabric_data) item
  = (with_errors (errors self ++ metric_errors fetch item) self,
     Dict.set (fst (metric_entry fetch item)) (snd (metric_entry fetch item))
              fabric_data).
Proof.
  destruct item as [data_type config], self as [n t errs].
  unfold collect_metric, metric_errors, metric_entry, with_errors, add_error; simpl.
  destruct (fetch_records fetch config) as [[[count imdata]|]|e]; simpl;
    rewrite ?app_nil_r; reflexivity.
Qed.

(** The loop never stops early: every entry of the table contributes its
    errors and its data, in order. *)
Lemma collect_loop_eq fetch table : forall self fabric_data,
  fold_left (collect_metric fetch) table (self, fabric_data)
  = (with_errors (errors self ++ flat_map (metric_errors fetch) table) self,
     Dict.set_all (map (metric_entry fetch) table) fabric_data).
Proof.
  induction table as [|item table IH]; intros self fabric_data;
    cbn [fold_left flat_map map].
  - rewrite app_nil_r. destruct self; reflexivity.
  - rewrite collect_metric_eq, IH. unfold with_errors; simpl.
    rewrite <- app_assoc. reflexivity.
Qed.

Lemma keys_metric_entries fetch table :
  Dict.keys (map (metric_entry fetch) table) = Dict.keys table.
Proof.
  unfold Dict.keys. rewrite map_map. reflexivity.
Qed.

Lemma fabric_metric_errors_ok fetch item :
  metric_fails fetch (snd item) = false -> metric_errors fetch item = [].
Proof.
  unfold metric_fails, metric_errors.
  destruct (fetch_records fetch (snd item)) as [[?|]|?]; try discriminate.
  reflexivity.
Qed.

Lemma fabric_metric_errors_fail fetch item :
  metric_fails fetch (snd item) = true ->
  exists message,
    metric_errors fetch item = [message]
    /\ PyStr.contains (fst item) message = true.
Proof.
  unfold metric_fails, metric_errors.
  destruct (fetch_records fetch (snd item)) as [[?|]|e]; try discriminate; intros _.
  - eexists. split; [reflexivity | apply contains_app_r, contains_self].
  - eexists. split; [reflexivity | apply contains_infix].
Qed.

(** The validation rules of the fabric collector are satisfied. *)
Definition validation_ok (data : Dict.t fabric_entry) : Prop :=
  exists e, Dict.get "topology" data = Some e /\ (3 <= fe_count e)%Z.

Lemma validate_fabric_data_appends data self :
  Dict.mem "faults" data = true ->
  exists validation_errors,
    validate_fabric_data data self
    = Ok (with_errors (errors self ++ validation_errors) self)
    /\ (validation_ok data -> validation_errors = []).
Proof.
  intros Hfaults. unfold Dict.mem in Hfaults. destruct self as [n t errs].
  destruct (Dict.get "faults" data) as [faults|] eqn:Ef; [clear Hfaults | discriminate].
  unfold validate_fabric_data, validate_collection, missing_or_empty, validation_ok.
  rewrite Ef. simpl.
  destruct (Dict.get "topology" data) as [topology|]; simpl;
    destruct (Dict.get "links" data) as [links|]; simpl.
  all: repeat match goal with
       | |- context [if ?b then _ else _] => destruct b eqn:?
       end; simpl.
  all: unfold add_error, with_errors; simpl; rewrite <- ?app_assoc; simpl.
  all: first [ exists []; split; [rewrite app_nil_r; reflexivity|]
             | eexists; split; [reflexivity|] ].
  all: intros (e & He & Hcount); try discriminate; inversion He; subst.
  all: try reflexivity; lia.
Qed.

(** Whenever the validation returns, it has only appended errors. *)
Lemma validate_fabric_data_shape data self self' :
  validate_fabric_data data self = Ok self' ->
  exists validation_errors,
    self' = with_errors (errors self ++ validation_errors) self.
Proof.
  destruct self as [n t errs].
  unfold validate_fabric_data, validate_collection, missing_or_empty.
  simpl.
  destruct (Dict.get "topology" data) as [topology|]; simpl;
    destruct (Dict.get "links" data) as [links|]; simpl;
    destruct (Dict.get "faults" data) as [faults|]; simpl.
  all: repeat match goal with
       | |- context [if ?b then _ else _] => destruct b eqn:?
       end; simpl.
  all: unfold add_error, with_errors, raise; simpl; rewrite <- ?app_assoc; simpl.
  all: intros E; inversion E; subst.
  all: first [ exists []; rewrite app_nil_r; reflexivity
             | eexists; reflexivity ].
Qed.

(** The data after the loop: one entry for each entry of the table. *)
Definition collected (fetch : fetcher) (table : Dict.t endpoint_config)
  : Dict.t fabric_entry :=
  Dict.set_all (map (metric_entry fetch) table) [].

Lemma fabric_collected_keys fetch table :
  NoDup (Dict.keys table) -> Dict.keys (collected fetch table) = Dict.keys table.
Proof.
  intros Hnd. unfold collected.
  rewrite DictFacts.keys_set_all; rewrite ?keys_metric_entries; auto.
Qed.


(** [collect], unfolded: the errors of the loop come first, those of the
    validation rules after them. *)
Lemma fabric_collect_eq table fetch t_start t_end self :
  NoDup (Dict.keys table) -> In "faults" (Dict.keys table) ->
  exists validation_errors,
    collect table fetch t_start t_end self
    = Ok (MkResult (name self) t_start t_end (total_seconds (t_end - t_start))
                   (flat_map (metric_errors fetch) table ++ validation_errors)
                   (collected fetch table))
    /\ (validation_ok (collected fetch table) -> validation_errors = []).
Proof.
  intros Hnd Hfaults. unfold collect. rewrite collect_loop_eq.
  fold (collected fetch table).
  assert (Hmem : Dict.mem "faults" (collected fetch table) = true).
  { apply DictFacts.mem_in_keys. rewrite fabric_collected_keys; assumption. }
  destruct (validate_fabric_data_appends (collected fetch table)
              (with_errors (errors (start_collection t_start self)
                            ++ flat_map (metric_errors fetch) table)
                           (start_collection t_start self)) Hmem)
    as (validation_errors & Hv & Hok).
  exists validation_errors. split; [|exact Hok].
  rewrite Hv. reflexivity.
Qed.


End Facts.
End FabricFacts.

Module LeafFacts.
Section Facts.
Context `{RT : Py.Runtime}.
Import Py BaseCollector LeafParsers LeafCollector CollectorFacts.

(** What a session answers, as [execute_commands] records it. *)
Definition output_of (nxos_client : NXOSClient) (command : string) : string :=
  match nxos_client command with
  | Some output => output
  | None => EmptyString
  end.

(** A metric fails when its command fails or prints nothing. *)
Definition metric_fails (nxos_client : NXOSClient) (config : command_config) : bool :=
  String.eqb (output_of nxos_client (command config)) "".

(** What one turn of the loop appends to the errors. *)
Definition metric_errors (device_info : DeviceInfo.t) (nxos_client : NXOSClient)
    (item : string * command_config) : list string :=
  if metric_fails nxos_client (snd item) then
    [("No output for " ++ fst item ++ " command on "
      ++ DeviceInfo.name device_info)%string]
  else [].

(** What one turn of the loop stores. *)
Definition metric_item (nxos_client : NXOSClient) (item : string * command_config)
  : string * leaf_item :=
  let config := snd item in
  let output := output_of nxos_client (command config) in
  (fst item,
   if metric_fails nxos_client config then
     MetricItem (MkEntry (command config) (description config) None None
                         (Some "No command output"))
   else
     MetricItem (MkEntry (command config) (description config) (Some output)
                         (Some (process_command_output (fst item) output)) None)).

Lemma execute_commands_get nxos_client commands c :
  In c commands ->
  Dict.get c (execute_commands nxos_client commands) = Some (output_of nxos_client c).
Proof.
  unfold execute_commands.
  induction commands as [|c' commands IH] using rev_ind; [intros []|].
  rewrite fold_left_app. simpl. intros Hin.
  assert (Hset : forall results,
            match nxos_client c' with
            | Some output => Dict.set c' output results
            | None => Dict.set c' "" results
            end = Dict.set c' (output_of nxos_client c') results).
  { intros results. unfold output_of. destruct (nxos_client c'); reflexivity. }
  rewrite Hset. destruct (string_dec c' c) as [-> | Hne].
  - apply DictFacts.get_set_eq.
  - rewrite DictFacts.get_set_neq by exact Hne. apply IH.
    apply in_app_or in Hin. destruct Hin as [Hin | [E | []]]; [exact Hin | congruence].
Qed.

Lemma process_metric_eq device_info nxos_client results self leaf_data item :
  Dict.get (command (snd item)) results
  = Some (output_of nxos_client (command (snd item))) ->
  process_metric device_info results (self, leaf_data) item
  = (with_errors (errors self ++ metric_errors device_info nxos_client item) self,
     Dict.set (fst (metric_item nxos_client item))
              (snd (metric_item nxos_client item)) leaf_data).
Proof.
  destruct item as [data_type config], self as [n t errs]. simpl. intros Hget.
  unfold process_metric, metric_errors, metric_item, metric_fails, with_errors,
    add_error; simpl.
  rewrite Hget.
  destruct (String.eqb (output_of nxos_client (command config)) ""); simpl;
    rewrite ?app_nil_r; reflexivity.
Qed.

(** The loop never stops early. *)
Lemma process_loop_eq device_info nxos_client results table :
  forall self leaf_data,
  (forall item, In item table ->
     Dict.get (command (snd item)) results
     = Some (output_of nxos_client (command (snd item)))) ->
  fold_left (process_metric device_info results) table (self, leaf_data)
  = (with_errors (errors self
                  ++ flat_map (metric_errors device_info nxos_client) table) self,
     Dict.set_all (map (metric_item nxos_client) table) leaf_data).
Proof.
  induction table as [|item table IH]; intros self leaf_data Hres;
    cbn [fold_left flat_map map].
  - rewrite app_nil_r. destruct self; reflexivity.
  - rewrite (process_metric_eq device_info nxos_client) by (apply Hres; left; reflexivity).
    rewrite IH by (intros; apply Hres; right; assumption).
    unfold with_errors; simpl. rewrite <- app_assoc. reflexivity.
Qed.




(** The validation rules of the leaf collector are satisfied. *)
Definition validation_ok (data : Dict.t leaf_item) : Prop :=
  (exists e interface_data,
      Dict.get "interfaces" data = Some (MetricItem e)
      /\ le_error e = None
      /\ le_processed_data e = Some interface_data
      /\ get_total_interfaces interface_data <> 0%Z)
  /\ (exists e, Dict.get "fabric_interfaces" data = Some (MetricItem e)
                /\ le_error e = None).

Lemma validate_leaf_data_appends device_info data self :
  exists validation_errors,
    validate_leaf_data device_info data self
    = with_errors (errors self ++ validation_errors) self
    /\ (validation_ok data -> validation_errors = []).
Proof.
  destruct self as [n t errs].
  unfold validate_leaf_data, validate_collection, validation_ok, item_processed,
    item_has_error.
  destruct (Dict.get "interfaces" data) as [[? ? ? ?|interfaces]|]; simpl;
    destruct (Dict.get "fabric_interfaces" data) as [[? ? ? ?|fabric]|]; simpl.
  all: repeat match goal with
       | |- context [match le_error ?e with _ => _ end] => destruct (le_error e) eqn:?
       | |- context [match le_processed_data ?e with _ => _ end] =>
           destruct (le_processed_data e) eqn:?
       | |- context [if ?b then _ else _] => destruct b eqn:?
       end; simpl.
  all: unfold add_error, with_errors; simpl; rewrite <- ?app_assoc; simpl.
  all: first [ exists []; split; [rewrite app_nil_r; reflexivity|]
             | eexists; split; [reflexivity|] ].
  all: intros [(e0 & idata & He & Herr & Hp & Htotal) (e1 & He1 & Herr1)].
  all: try discriminate; try reflexivity.
  all: inversion He; inversion He1; subst; try congruence.
  all: match goal with
       | Hq : le_processed_data ?e = Some ?x, Hr : le_processed_data ?e = Some ?y |- _ =>
           rewrite Hq in Hr; inversion Hr; subst
       end.
  all: match goal with
       | Hz : (_ =? 0)%Z = true |- _ => apply Z.eqb_eq in Hz; contradiction
       end.
Qed.

(** The data after the loop: the device, then one entry for each entry of
    the table. *)
Definition collected (device_info : DeviceInfo.t) (nxos_client : NXOSClient)
    (table : Dict.t command_config) : Dict.t leaf_item :=
  Dict.set_all (map (metric_item nxos_client) table)
    [("device_info",
      DeviceItem (DeviceInfo.name device_info) (DeviceInfo.hostname device_info)
                 (DeviceInfo.node_id device_info)
                 (DeviceInfo.device_type device_info))].




(** [collect] on a device that answers, unfolded. *)
Lemma leaf_collect_eq table connect_to_device device_info nxos_client t_start t_end self :
  connect_to_device device_info = Some nxos_client ->
  exists validation_errors,
    collect table connect_to_device device_info t_start t_end self
    = Ok (MkResult (name self) t_start t_end (total_seconds (t_end - t_start))
            (flat_map (metric_errors device_info nxos_client) table
             ++ validation_errors)
            (collected device_info nxos_client table))
    /\ (validation_ok (collected device_info nxos_client table) ->
        validation_errors = []).
Proof.
  intros Hconn. unfold collect. rewrite Hconn.
  rewrite (process_loop_eq device_info nxos_client).
  - fold (collected device_info nxos_client table).
    destruct (validate_leaf_data_appends device_info
                (collected device_info nxos_client table)
                (with_errors (errors (start_collection t_start self)
                   ++ flat_map (metric_errors device_info nxos_client) table)
                   (start_collection t_start self)))
      as (validation_errors & Hv & Hok).
    exists validation_errors. split; [|exact Hok].
    rewrite Hv. reflexivity.
  - intros item Hin. apply execute_commands_get.
    apply (in_map (fun kv => command (snd kv))) in Hin. exact Hin.
Qed.

(** [collect] on a device that cannot be reached. *)
Lemma collect_unreachable table connect_to_device device_info t_start t_end self :
  connect_to_device device_info = None ->
  collect table connect_to_device device_info t_start t_end self
  = Ok (MkResult (name self) t_start t_end (total_seconds (t_end - t_start))
          [("Failed to connect to leaf " ++ DeviceInfo.name device_info)%string]
          []).
Proof. intros Hconn. unfold collect. rewrite Hconn. reflexivity. Qed.

End Facts.
End LeafFacts.

(** ** Partial failures and timing of a collection *)

Module CollectorProperties.
Section Properties.
Context `{RT : Py.Runtime}.
Import Py BaseCollector.


(** C8.  The duration reported in a collection result is the number of
    seconds between the start and the end time reported with it: this
    holds of every result [end_collection] builds, hence of every result
    of the fabric collector, and the leaf collector always returns such a
    result. *)
Theorem duration_is_end_minus_start :
  (forall (D : Type) (now : Z) (payload : D) (self : BaseCollector.t) r,
     end_collection now payload self = Ok r ->
     collection_time self = Some (start_time r)
     /\ end_time r = now
     /\ duration_seconds r = total_seconds (end_time r - start_time r))
  /\
  (forall table fetch t_start t_end self r,
     FabricCollector.collect table fetch t_start t_end self = Ok r ->
     start_time r = t_start /\ end_time r = t_end
     /\ duration_seconds r = total_seconds (end_time r - start_time r))
  /\
  (forall table connect_to_device device_info t_start t_end self,
     exists r,
       LeafCollector.collect table connect_to_device device_info t_start t_end self
       = Ok r
       /\ start_time r = t_start /\ end_time r = t_end
       /\ duration_seconds r = total_seconds (end_time r - start_time r)).
Proof.
  split; [|split].
  - intros D now payload self r. unfold end_collection.
    destruct (collection_time self) as [started|]; [|discriminate].
    intros E. inversion E; subst. simpl. auto.
  - intros table fetch t_start t_end self r Hr.
    unfold FabricCollector.collect in Hr.
    pose proof (FabricFacts.collect_loop_eq fetch table
                  (start_collection t_start self) []) as Hloop.
    unfold Dict.t in Hloop, Hr. rewrite Hloop in Hr. clear Hloop.
    destruct (FabricCollector.validate_fabric_data _ _) as [self'|e] eqn:Hv;
      [|discriminate].
    apply FabricFacts.validate_fabric_data_shape in Hv as (verrs & ->).
    inversion Hr; subst. simpl. auto.
  - intros table connect device t_start t_end self.
    destruct (connect device) as [nxos|] eqn:Hconn.
    + destruct (LeafFacts.leaf_collect_eq table connect device nxos t_start t_end self Hconn)
        as (verrs & Hr & _).
      eexists. split; [exact Hr|]. simpl. auto.
    + eexists. split; [apply LeafFacts.collect_unreachable; exact Hconn|].
      simpl. auto.
Qed.

End Properties.
End CollectorProperties.

(** *** Concrete runs of the collectors *)

Module CollectorExamples.
Import Py BaseCollector.
#[local] Existing Instance FixedPoint.instance.

(** A response with [n] records. *)
Definition records (n : nat) : value :=
  VDict [("imdata", VList (repeat (VDict []) n))].

(** The first five entries of the endpoint table of the fabric
    collector. *)
Definition five_endpoints : Dict.t FabricCollector.endpoint_config :=
  firstn 5 FabricCollector.FABRIC_ENDPOINTS.

(** A controller that never answers the query for [endpoint] and answers
    every other query with three records. *)
Definition fails_on (endpoint : string) : FabricCollector.fetcher :=
  fun e _ => if String.eqb e endpoint then Ok VNone else Ok (records 3).





(** A run of the fabric collector over its own table: the duration is
    what lies between the two readings of the clock. *)
Lemma fabric_duration_example :
  exists r,
    FabricCollector.collect FabricCollector.FABRIC_ENDPOINTS
      (fails_on "/api/class/fabricLink.json") 1000000 3500000
      (BaseCollector.new "FabricCollector") = Ok r
    /\ start_time r = 1000000%Z /\ end_time r = 3500000%Z
    /\ duration_seconds r = 2500000%Z.
Proof.
  destruct (FabricCollector.collect FabricCollector.FABRIC_ENDPOINTS
              (fails_on "/api/class/fabricLink.json") 1000000 3500000
              (BaseCollector.new "FabricCollector")) as [r|e] eqn:Hr;
    [|vm_compute in Hr; discriminate].
  exists r. split; [reflexivity|].
  destruct CollectorProperties.duration_is_end_minus_start as (_ & Hfabric & _).
  destruct (Hfabric _ _ _ _ _ r Hr) as (Hs & He & Hd).
  split; [exact Hs|]. split; [exact He|]. rewrite Hd, Hs, He. reflexivity.
Defined.

End CollectorExamples.

(* ================================================================== *)
(** ** The connection manager *)
(* ================================================================== *)

Module ClientFacts.
Section Facts.
Context `{RT : Py.Runtime}.
Import Py AciClient.


(** The session [connect_to_fabric] keeps for a device whose login yields
    [token]. *)
Definition session_of (fc : FabricClient) (d : DeviceInfo.t) (token : string)
  : APICClient :=
  MkAPICClient (DeviceInfo.hostname d) (fc_username fc) (fc_password fc)
               ("https://" ++ DeviceInfo.hostname d) (Some token) true.



End Facts.
End ClientFacts.

Module ClientProperties.
Section Properties.
Context `{RT : Py.Runtime}.
Import Py AciClient ClientFacts.


(** C9.  [get_fabric_data] returns [None] when the client has no primary
    session, when the primary session is not authenticated, and when the
    request fails (no answer, an error status, a body that is not JSON);
    otherwise it returns the parsed body.  In the first cases it logs one
    error record and nothing else: the message in the error list of the
    collection is the one the calling collector adds. *)
Theorem get_fabric_data_outcomes :
  forall net fc endpoint params,
    (primary_apic fc = None ->
     exists message,
       get_fabric_data net fc endpoint params = (VNone, [(ERROR, message)]))
    /\ (forall apic, primary_apic fc = Some apic -> is_authenticated apic = false ->
        exists message,
          get_fabric_data net fc endpoint params = (VNone, [(ERROR, message)]))
    /\ (forall apic, primary_apic fc = Some apic -> is_authenticated apic = true ->
        match http_get net (base_url apic ++ endpoint) params with
        | Response status (Some json) =>
            if is_error_status status then
              exists message,
                get_fabric_data net fc endpoint params = (VNone, [(ERROR, message)])
            else
              exists message,
                get_fabric_data net fc endpoint params = (json, [(DEBUG, message)])
        | _ =>
            exists message,
              get_fabric_data net fc endpoint params = (VNone, [(ERROR, message)])
        end)
    /\ (forall self fabric_data data_type config,
        fst (get_fabric_data net fc (FabricCollector.endpoint config)
                             (FabricCollector.params config)) = VNone ->
        FabricCollector.collect_metric
          (fun e p => Ok (fst (get_fabric_data net fc e p)))
          (self, fabric_data) (data_type, config)
        = (BaseCollector.add_error ("No data returned for " ++ data_type) self,
           Dict.set data_type
             (FabricCollector.MkEntry (FabricCollector.endpoint config)
                (FabricCollector.description config) 0 (VList []) None)
             fabric_data)).
Proof.
  intros net fc endpoint params.
  split; [|split; [|split]].
  - unfold get_fabric_data. intros ->. eexists. reflexivity.
  - unfold get_fabric_data. intros apic -> Hauth. unfold get_data.
    rewrite Hauth. simpl. eexists. reflexivity.
  - unfold get_fabric_data. intros apic -> Hauth. unfold get_data.
    rewrite Hauth. simpl.
    destruct (http_get net (base_url apic ++ endpoint) params) as [msg|status [json|]].
    + eexists. reflexivity.
    + destruct (is_error_status status); eexists; reflexivity.
    + destruct (is_error_status status); eexists; reflexivity.
  - intros self fabric_data data_type config Hnone.
    unfold FabricCollector.collect_metric, FabricCollector.fetch_records.
    cbn [bind]. rewrite Hnone. reflexivity.
Qed.

End Properties.
End ClientProperties.

(** *** Concrete runs of the connection manager *)

Module ClientExamples.
Import Py AciClient ClientFacts.
#[local] Existing Instance FixedPoint.instance.

Definition controller (hostname : string) (priority : Z) : DeviceInfo.t :=
  DeviceInfo.Make hostname hostname "" "" "apic" None (Some priority) 443.

(** A network on which only [reachable] accepts a login, and answers every
    query with two records. *)
Definition only (reachable : string) : network :=
  MkNetwork
    (fun hostname _ _ => if String.eqb hostname reachable then Some "token" else None)
    (fun _ _ => Response 200 (Some (VDict [("imdata", VList [VDict []; VDict []])]))).



(** Before it has connected, a client returns [None] and logs one error;
    once connected, it returns the body of the answer. *)
Lemma fetch_before_and_after_connect :
  let net := only "apic1" in
  let fc := new_FabricClient [controller "apic1" 1] "admin" "secret" in
  (exists message,
     get_fabric_data net fc "/api/class/fabricNode.json" None
     = (VNone, [(ERROR, message)]))
  /\ (exists fc' tried message,
        connect_to_fabric net fc = (true, fc', tried)
        /\ get_fabric_data net fc' "/api/class/fabricNode.json" None
           = (VDict [("imdata", VList [VDict []; VDict []])], [(DEBUG, message)])).
Proof.
  intros net fc. split.
  - destruct (ClientProperties.get_fabric_data_outcomes net fc
                "/api/class/fabricNode.json" None) as (Hnone & _).
    apply Hnone. reflexivity.
  - destruct (connect_to_fabric net fc) as [[ok fc'] tried] eqn:Hc.
    vm_compute in Hc. inversion Hc; subst ok fc' tried. clear Hc.
    eexists. eexists.
    destruct (ClientProperties.get_fabric_data_outcomes net
                (MkFabricClient [controller "apic1" 1] "admin" "secret"
                   (Some (session_of fc (controller "apic1" 1) "token")))
                "/api/class/fabricNode.json" None) as (_ & _ & Hanswer & _).
    specialize (Hanswer (session_of fc (controller "apic1" 1) "token")
                        eq_refl eq_refl).
    simpl in Hanswer. destruct Hanswer as (message & Hanswer).
    exists message. split; [reflexivity | exact Hanswer].
Defined.

End ClientExamples.

(* ================================================================== *)
(** ** The snapshot store *)
(* ================================================================== *)

Module SnapshotFacts.
Section Facts.
Context `{RT : Py.Runtime}.
Import Py SnapshotManager.

(** A collection result as [end_collection] builds it and [json.load]
    reads it back: a dictionary that is not empty and whose errors are a
    list. *)
Definition is_collection_result (v : value) : Prop :=
  exists d errors,
    v = VDict d /\ d <> [] /\ dict_get "errors" d = Some (VList errors).

(** The number of errors of a collection result. *)
Definition error_count (v : value) : Z :=
  match v with
  | VDict d =>
      match dict_get "errors" d with
      | Some (VList errors) => Z.of_nat (List.length errors)
      | _ => 0%Z
      end
  | _ => 0%Z
  end.

(** The errors of all the collections of a map. *)
Definition sum_error_counts (collections : dict) : Z :=
  fold_right (fun item acc => (error_count (snd item) + acc)%Z) 0%Z collections.

Lemma summarize_collection_result lines total collection_type v :
  is_collection_result v ->
  exists status,
    summarize_collection (lines, total) (collection_type, v)
    = Ok (lines ++ [(collection_type, status)], (total + error_count v)%Z).
Proof.
  intros (d & errors & -> & Hd & Herr). unfold summarize_collection.
  assert (Ht : truthy (VDict d) = true) by (destruct d; [congruence | reflexivity]).
  rewrite Ht. unfold py_get, error_count. rewrite Herr. simpl.
  eexists. reflexivity.
Qed.

Lemma summarize_collections_results collections :
  forall lines total,
  Forall (fun item => is_collection_result (snd item)) collections ->
  exists lines',
    summarize_collections (lines, total) collections
    = Ok (lines', (total + sum_error_counts collections)%Z).
Proof.
  induction collections as [|[collection_type v] collections IH];
    intros lines total Hall; cbn [summarize_collections].
  - exists lines. unfold sum_error_counts. simpl. rewrite Z.add_0_r. reflexivity.
  - inversion Hall as [|? ? Hv Hrest]; subst. simpl in Hv.
    destruct (summarize_collection_result lines total collection_type v Hv)
      as (status & Hs).
    rewrite Hs. cbn [bind].
    destruct (IH (lines ++ [(collection_type, status)])
                 (total + error_count v)%Z Hrest) as (lines' & Hl).
    exists lines'. rewrite Hl. f_equal. f_equal.
    change (sum_error_counts ((collection_type, v) :: collections))
      with (error_count v + sum_error_counts collections)%Z.
    lia.
Qed.

Lemma py_len_nonneg v n : py_len v = Ok n -> (0 <= n)%Z.
Proof.
  destruct v; simpl; intros E; inversion E; subst; try discriminate; lia.
Qed.

(** The loop only ever adds to the total. *)
Lemma summarize_collections_grows collections :
  forall lines total lines' total',
  summarize_collections (lines, total) collections = Ok (lines', total') ->
  (total <= total')%Z.
Proof.
  induction collections as [|[collection_type v] collections IH];
    intros lines total lines' total'; cbn [summarize_collections].
  - intros E. inversion E; subst. lia.
  - unfold summarize_collection at 1.
    destruct (truthy v).
    + destruct (py_get v "errors" (VList [])) as [errors|e]; [|discriminate].
      cbn [bind]. destruct (py_len errors) as [n|e] eqn:Hlen; [|discriminate].
      cbn [bind]. intros Hrest. apply IH in Hrest.
      apply py_len_nonneg in Hlen. lia.
    + cbn [bind]. intros Hrest. apply IH in Hrest. lia.
Qed.

(** The status is a function of the total alone. *)
Lemma status_by_total collections summary :
  create_overall_summary collections = Ok summary ->
  (status summary = HEALTHY <-> total_errors summary = 0%Z)
  /\ (status summary = WARNING <-> (1 <= total_errors summary <= 3)%Z)
  /\ (status summary = CRITICAL <-> (4 <= total_errors summary)%Z).
Proof.
  unfold create_overall_summary.
  destruct (summarize_collections ([], 0%Z) collections) as [[lines total]|e] eqn:Hs;
    [|discriminate].
  apply summarize_collections_grows in Hs.
  cbn [bind]. intros E. inversion E; subst; clear E. simpl.
  destruct (total =? 0)%Z eqn:E0; [apply Z.eqb_eq in E0 | apply Z.eqb_neq in E0].
  - repeat split; intros; try discriminate; try lia.
  - destruct (total <=? 3)%Z eqn:E3; [apply Z.leb_le in E3 | apply Z.leb_gt in E3];
      repeat split; intros; try discriminate; try lia; try reflexivity.
Qed.

(** *** Comparison *)

(** The integer a count stands for, when it is one. *)
Definition int_value (v : value) : option Z :=
  match v with
  | VInt z => Some z
  | VBool b => Some (int_of_bool b)
  | _ => None
  end.

(** A field of [processed_data] that [extract_count] accepts. *)
Definition is_total_field (field : string * value) : bool :=
  PyStr.contains "total" (PyStr.lower (fst field)) && is_int (snd field).

Lemma first_total_found pre k v post :
  is_total_field (k, v) = true ->
  forallb (fun field => negb (is_total_field field)) pre = true ->
  first_total (pre ++ (k, v) :: post) = v.
Proof.
  intros Hkv. induction pre as [|[k' v'] pre IH]; simpl; intros Hpre.
  - unfold is_total_field in Hkv. simpl in Hkv. rewrite Hkv. reflexivity.
  - apply andb_true_iff in Hpre as [Hk' Hpre]. unfold is_total_field in Hk'.
    simpl in Hk'. apply negb_true_iff in Hk'. rewrite Hk'. apply IH. exact Hpre.
Qed.

Lemma first_total_none processed :
  forallb (fun field => negb (is_total_field field)) processed = true ->
  first_total processed = VNone.
Proof.
  induction processed as [|[k v] processed IH]; simpl; intros Hp; [reflexivity|].
  apply andb_true_iff in Hp as [Hk Hp]. unfold is_total_field in Hk.
  simpl in Hk. apply negb_true_iff in Hk. rewrite Hk. apply IH. exact Hp.
Qed.

Lemma absdiff_pos_ints c b x y :
  int_value b = Some x -> int_value c = Some y ->
  absdiff_pos c b = Ok (negb (x =? y)%Z).
Proof.
  assert (Hd : forall p q : Z, (0 <? Z.abs (q - p))%Z = negb (p =? q)%Z).
  { intros p q. destruct (Z.eqb_spec p q) as [-> | Hne]; simpl.
    - rewrite Z.sub_diag. reflexivity.
    - apply Z.ltb_lt. lia. }
  destruct b, c; simpl; intros Hb Hc; inversion Hb; inversion Hc; subst;
    rewrite Hd; reflexivity.
Qed.

Lemma int_value_not_none v x : int_value v = Some x -> is_none v = false.
Proof. destruct v; simpl; intros E; try discriminate; reflexivity. Qed.

(** A value subtracted from itself never exceeds 0. *)
Lemma absdiff_pos_self v differs : absdiff_pos v v = Ok differs -> differs = false.
Proof.
  destruct v; simpl; intros E; inversion E; subst; try discriminate.
  - rewrite Z.sub_diag. reflexivity.
  - rewrite Z.sub_diag. reflexivity.
  - apply float_absdiff_self.
Qed.

(** The counts the comparison can subtract. *)
Definition is_number (v : value) : bool :=
  match v with VInt _ | VBool _ | VFloat _ => true | _ => false end.

Lemma absdiff_pos_self_number v :
  is_number v = true -> absdiff_pos v v = Ok false.
Proof.
  destruct v; simpl; intros E; try discriminate; f_equal.
  - rewrite Z.sub_diag. reflexivity.
  - rewrite Z.sub_diag. reflexivity.
  - apply float_absdiff_self.
Qed.

(** One turn of the first loop, for a key that both collections have. *)
Lemma compare_baseline_key_step baseline_data current_data key rest changes
      baseline_item current_item :
  dict_get key baseline_data = Some baseline_item ->
  dict_get key current_data = Some current_item ->
  let baseline_count := extract_count baseline_item in
  let current_count := extract_count current_item in
  (is_none baseline_count || is_none current_count = true ->
   compare_baseline_keys (VDict baseline_data) (VDict current_data)
     (key :: rest) changes
   = compare_baseline_keys (VDict baseline_data) (VDict current_data) rest changes)
  /\ (forall x y,
        int_value baseline_count = Some x -> int_value current_count = Some y ->
        compare_baseline_keys (VDict baseline_data) (VDict current_data)
          (key :: rest) changes
        = compare_baseline_keys (VDict baseline_data) (VDict current_data) rest
            (if (x =? y)%Z then changes
             else changes ++ [CountChanged key baseline_count current_count])).
Proof.
  intros Hb Hc baseline_count current_count.
  assert (Hstep : compare_baseline_keys (VDict baseline_data) (VDict current_data)
                    (key :: rest) changes
                  = if negb (is_none baseline_count) && negb (is_none current_count)
                    then bind (absdiff_pos current_count baseline_count)
                           (fun differs =>
                              if differs
                              then compare_baseline_keys (VDict baseline_data)
                                     (VDict current_data) rest
                                     (changes ++ [CountChanged key baseline_count
                                                               current_count])
                              else compare_baseline_keys (VDict baseline_data)
                                     (VDict current_data) rest changes)
                    else compare_baseline_keys (VDict baseline_data)
                           (VDict current_data) rest changes).
  { cbn [compare_baseline_keys py_in py_getitem bind].
    unfold dict_mem, Dict.mem, dict_get in *. rewrite Hb, Hc.
    cbn [negb bind]. reflexivity. }
  split.
  - intros Hnone. rewrite Hstep.
    destruct (is_none baseline_count), (is_none current_count);
      simpl in *; try discriminate; reflexivity.
  - intros x y Hx Hy. rewrite Hstep.
    rewrite (int_value_not_none _ _ Hx), (int_value_not_none _ _ Hy).
    rewrite (absdiff_pos_ints _ _ x y Hx Hy). cbn [negb andb bind].
    destruct (x =? y)%Z; reflexivity.
Qed.

(** Against itself, the first loop adds nothing. *)
Lemma compare_baseline_keys_self data keys :
  forall changes changes',
  (forall k, In k keys -> In k (dict_keys data)) ->
  compare_baseline_keys (VDict data) (VDict data) keys changes = Ok changes' ->
  changes' = changes.
Proof.
  induction keys as [|key keys IH]; intros changes changes' Hkeys;
    cbn [compare_baseline_keys].
  - intros E. inversion E. reflexivity.
  - destruct (DictFacts.in_keys_get key data (Hkeys key (or_introl eq_refl)))
      as (item & Hitem).
    cbn [py_in py_getitem bind]. unfold dict_mem, Dict.mem, dict_get.
    rewrite Hitem. cbn [negb bind].
    assert (Hrest : forall k, In k keys -> In k (dict_keys data))
      by (intros k Hk; apply Hkeys; right; exact Hk).
    destruct (negb (is_none (extract_count item))); cbn [andb]; [|apply IH; exact Hrest].
    destruct (absdiff_pos (extract_count item) (extract_count item))
      as [differs|e] eqn:Hd; [|discriminate].
    apply absdiff_pos_self in Hd. subst differs. cbn [bind].
    apply IH. exact Hrest.
Qed.

(** Against itself, the second loop adds nothing. *)
Lemma compare_current_keys_self data keys :
  forall changes,
  (forall k, In k keys -> In k (dict_keys data)) ->
  compare_current_keys (VDict data) keys changes = Ok changes.
Proof.
  induction keys as [|key keys IH]; intros changes Hkeys;
    cbn [compare_current_keys]; [reflexivity|].
  cbn [py_in bind].
  assert (Hmem : dict_mem key data = true)
    by (apply DictFacts.mem_in_keys, Hkeys; left; reflexivity).
  rewrite Hmem. cbn [negb]. apply IH. intros k Hk. apply Hkeys. right. exact Hk.
Qed.

(** A collection compared with itself shows no change, whenever the
    comparison returns. *)
Lemma compare_collections_self collection changes :
  compare_collections collection collection = Ok changes -> changes = [].
Proof.
  unfold compare_collections.
  destruct (py_get collection "errors" (VList [])) as [errors|e]; [|discriminate].
  cbn [bind]. destruct (py_len errors) as [n|e]; [|discriminate].
  cbn [bind]. rewrite Z.ltb_irrefl.
  destruct (py_get collection "data" (VDict [])) as [data|e]; [|discriminate].
  cbn [bind]. destruct data as [| | | | | |data]; try discriminate.
  cbn [py_keys bind].
  destruct (compare_baseline_keys (VDict data) (VDict data) (dict_keys data) [])
    as [changes0|e] eqn:Hb; [|discriminate].
  apply compare_baseline_keys_self in Hb; [|auto]. subst changes0.
  cbn [bind]. rewrite compare_current_keys_self by auto.
  intros E. inversion E. reflexivity.
Qed.

(** [len] accepts the value. *)
Definition is_sized (v : value) : bool :=
  match v with VStr _ | VList _ | VDict _ => true | _ => false end.

(** The count of a metric entry is missing or a number. *)
Definition has_comparable_count (item : value) : bool :=
  is_none (extract_count item) || is_number (extract_count item).

(** The shape of a collection that [compare_collections] works on: a
    dictionary whose errors, if any, have a length, and whose data, if
    any, is a dictionary of entries with comparable counts. *)
Definition well_formed (collection : value) : bool :=
  match collection with
  | VDict d =>
      match dict_get "errors" d with
      | Some errors => is_sized errors
      | None => true
      end
      && match dict_get "data" d with
         | Some (VDict data) => forallb (fun kv => has_comparable_count (snd kv)) data
         | Some _ => false
         | None => true
         end
  | _ => false
  end.

Lemma compare_baseline_keys_self_ok data keys :
  forall changes,
  (forall k, In k keys -> In k (dict_keys data)) ->
  forallb (fun kv => has_comparable_count (snd kv)) data = true ->
  compare_baseline_keys (VDict data) (VDict data) keys changes = Ok changes.
Proof.
  intros changes Hkeys Hall. revert changes.
  induction keys as [|key keys IH]; intros changes;
    cbn [compare_baseline_keys]; [reflexivity|].
  destruct (DictFacts.in_keys_get key data (Hkeys key (or_introl eq_refl)))
    as (item & Hitem).
  cbn [py_in py_getitem bind]. unfold dict_mem, Dict.mem, dict_get.
  rewrite Hitem. cbn [negb bind].
  assert (Hrest : forall k, In k keys -> In k (dict_keys data))
    by (intros k Hk; apply Hkeys; right; exact Hk).
  assert (Hitem' : has_comparable_count item = true).
  { apply DictFacts.get_in in Hitem.
    apply (proj1 (forallb_forall _ _) Hall (key, item) Hitem). }
  unfold has_comparable_count in Hitem'.
  destruct (is_none (extract_count item)); cbn [negb andb]; [apply IH; exact Hrest|].
  simpl in Hitem'. rewrite (absdiff_pos_self_number _ Hitem'). cbn [bind].
  apply IH. exact Hrest.
Qed.

Lemma py_len_sized v : is_sized v = true -> exists n, py_len v = Ok n.
Proof. destruct v; simpl; intros E; try discriminate; eexists; reflexivity. Qed.

(** A well-formed collection compared with itself: the comparison returns,
    and returns no change. *)
Lemma compare_collections_self_ok collection :
  well_formed collection = true ->
  compare_collections collection collection = Ok [].
Proof.
  destruct collection as [| | | | | |d]; simpl; try discriminate.
  intros Hwf. apply andb_true_iff in Hwf as [Herrors Hdata].
  unfold compare_collections. cbn [py_get bind].
  assert (Hlen : exists n,
            py_len (match dict_get "errors" d with
                    | Some x => x
                    | None => VList []
                    end) = Ok n).
  { destruct (dict_get "errors" d); [apply py_len_sized; exact Herrors|].
    eexists; reflexivity. }
  destruct Hlen as (n & ->). cbn [bind]. rewrite Z.ltb_irrefl.
  destruct (dict_get "data" d) as [[| | | | | |data]|]; try discriminate.
  - cbn [py_keys bind].
    rewrite compare_baseline_keys_self_ok by auto. cbn [bind].
    apply compare_current_keys_self. auto.
  - reflexivity.
Qed.

(** *** The report of a snapshot against itself *)

(** A section that reports no change. *)
Definition is_unchanged (section : section_report) : Prop :=
  section = NoDataInEither \/ section = NoSignificantChanges.

Lemma compare_collection_type_self snapshot_data collection_type section :
  compare_collection_type snapshot_data snapshot_data collection_type = Ok section ->
  is_unchanged section.
Proof.
  unfold compare_collection_type, is_unchanged.
  destruct (truthy _); cbn [negb andb].
  - destruct (compare_collections _ _) as [changes|e] eqn:Hc; [|discriminate].
    apply compare_collections_self in Hc. subst changes. cbn [bind].
    intros E. inversion E. right. reflexivity.
  - intros E. inversion E. left. reflexivity.
Qed.

Lemma compare_all_self snapshot_data collection_types :
  forall report,
  compare_all snapshot_data snapshot_data collection_types = Ok report ->
  map fst report = collection_types
  /\ Forall (fun entry => is_unchanged (snd entry)) report.
Proof.
  induction collection_types as [|collection_type rest IH]; intros report;
    cbn [compare_all].
  - intros E. inversion E. split; constructor.
  - destruct (compare_collection_type snapshot_data snapshot_data collection_type)
      as [section|e] eqn:Hs; [|discriminate].
    cbn [bind].
    destruct (compare_all snapshot_data snapshot_data rest) as [sections|e];
      [|discriminate].
    cbn [bind]. intros E. inversion E; subst.
    destruct (IH sections eq_refl) as (Hkeys & Hall).
    split; [simpl; f_equal; exact Hkeys|].
    constructor; [|exact Hall].
    apply (compare_collection_type_self snapshot_data collection_type). exact Hs.
Qed.

(** Every collection of the snapshot is empty, missing or well formed. *)
Definition loadable (snapshot_data : dict) : Prop :=
  forall collection_type collection,
    dict_get collection_type snapshot_data = Some collection ->
    truthy collection = false \/ well_formed collection = true.

Lemma compare_all_self_ok snapshot_data collection_types :
  loadable snapshot_data ->
  exists report,
    compare_all snapshot_data snapshot_data collection_types = Ok report.
Proof.
  intros Hload.
  induction collection_types as [|collection_type rest (sections & IH)];
    cbn [compare_all]; [eexists; reflexivity|].
  assert (Hs : exists section,
            compare_collection_type snapshot_data snapshot_data collection_type
            = Ok section).
  { unfold compare_collection_type.
    destruct (dict_get collection_type snapshot_data) as [collection|] eqn:Hget.
    - destruct (Hload _ _ Hget) as [Hfalsy | Hwf].
      + rewrite Hfalsy. eexists. reflexivity.
      + destruct (truthy collection); cbn [negb andb]; [|eexists; reflexivity].
        rewrite (compare_collections_self_ok _ Hwf). eexists. reflexivity.
    - eexists. reflexivity. }
  destruct Hs as (section & ->). rewrite IH. eexists. reflexivity.
Qed.

(** *** Listing *)




(** *** The results of the collectors are well formed *)

Lemma first_total_comparable processed :
  is_none (first_total processed) || is_number (first_total processed) = true.
Proof.
  induction processed as [|[k v] processed IH]; simpl; [reflexivity|].
  destruct (PyStr.contains "total" (PyStr.lower k)); simpl; [|exact IH].
  destruct v; simpl; try exact IH; reflexivity.
Qed.

Lemma fabric_entry_comparable e :
  has_comparable_count (fabric_entry_to_value e) = true.
Proof. reflexivity. Qed.

Lemma leaf_item_comparable i :
  has_comparable_count (leaf_item_to_value i) = true.
Proof.
  destruct i as [? ? ? ?|[command description raw processed error]];
    [reflexivity|].
  unfold has_comparable_count, leaf_item_to_value, extract_count. simpl.
  destruct raw, processed as [p|], error; simpl; try reflexivity;
    destruct p; reflexivity.
Qed.

Lemma result_well_formed {D} (data_to_value : D -> value) r :
  (exists data, data_to_value (BaseCollector.data r) = VDict data
                /\ forallb (fun kv => has_comparable_count (snd kv)) data = true) ->
  well_formed (result_to_value data_to_value r) = true.
Proof.
  intros (data & Hdata & Hall). unfold well_formed, result_to_value. simpl.
  rewrite Hdata. exact Hall.
Qed.

Lemma fabric_result_well_formed r :
  well_formed (fabric_result_to_value r) = true
  /\ is_collection_result (fabric_result_to_value r).
Proof.
  split.
  - unfold fabric_result_to_value.
    apply result_well_formed. eexists. split; [reflexivity|].
    apply forallb_forall. intros [k v] Hin. apply in_map_iff in Hin as ([k' e] & E & _).
    inversion E; subst. apply fabric_entry_comparable.
  - eexists. eexists. split; [reflexivity|]. split; [discriminate | reflexivity].
Qed.

Lemma leaf_result_well_formed r :
  well_formed (leaf_result_to_value r) = true
  /\ is_collection_result (leaf_result_to_value r).
Proof.
  split.
  - unfold leaf_result_to_value.
    apply result_well_formed. eexists. split; [reflexivity|].
    apply forallb_forall. intros [k v] Hin. apply in_map_iff in Hin as ([k' i] & E & _).
    inversion E; subst. apply leaf_item_comparable.
  - eexists. eexists. split; [reflexivity|]. split; [discriminate | reflexivity].
Qed.

End Facts.
End SnapshotFacts.

Module SnapshotProperties.
Section Properties.
Context `{RT : Py.Runtime}.
Import Py SnapshotManager SnapshotFacts.

(** C2.  For every map of collection results, [create_overall_summary]
    computes the total of their error counts and the status follows from
    that total alone: 0 is healthy, 1 to 3 is warning, 4 or more is
    critical. *)
Theorem rollup_classification :
  forall collections,
    Forall (fun item => is_collection_result (snd item)) collections ->
    exists summary,
      create_overall_summary collections = Ok summary
      /\ total_errors summary = sum_error_counts collections
      /\ (status summary = HEALTHY <-> total_errors summary = 0%Z)
      /\ (status summary = WARNING <-> (1 <= total_errors summary <= 3)%Z)
      /\ (status summary = CRITICAL <-> (4 <= total_errors summary)%Z).
Proof.
  intros collections Hall.
  destruct (summarize_collections_results collections [] 0%Z Hall) as (lines & Hs).
  assert (Hsum : exists summary,
            create_overall_summary collections = Ok summary
            /\ total_errors summary = sum_error_counts collections).
  { unfold create_overall_summary. rewrite Hs. cbn [bind].
    eexists. split; [reflexivity|]. simpl. lia. }
  destruct Hsum as (summary & Hsummary & Htotal).
  exists summary. split; [exact Hsummary|]. split; [exact Htotal|].
  apply (status_by_total collections). exact Hsummary.
Qed.


(** C4, as the comparison implements it.  The count of a metric entry is
    its ['count'] field when it has one; otherwise it is the first field
    of its [processed_data] whose name contains "total", whatever the case
    of its letters, and whose value is an integer; otherwise there is
    none.  For a key that both collections have, the comparison reports a
    count delta when both counts exist and differ, and reports nothing for
    that key when a count is missing or the counts are equal. *)
Theorem count_delta_rule :
  (forall entry count,
     dict_get "count" entry = Some count -> extract_count (VDict entry) = count)
  /\
  (forall entry processed,
     dict_get "count" entry = None ->
     dict_get "processed_data" entry = Some (VDict processed) ->
     (forall pre k v post,
        processed = pre ++ (k, v) :: post ->
        is_total_field (k, v) = true ->
        forallb (fun field => negb (is_total_field field)) pre = true ->
        extract_count (VDict entry) = v)
     /\ (forallb (fun field => negb (is_total_field field)) processed = true ->
         extract_count (VDict entry) = VNone))
  /\
  (forall baseline_data current_data key rest changes baseline_item current_item,
     dict_get key baseline_data = Some baseline_item ->
     dict_get key current_data = Some current_item ->
     let baseline_count := extract_count baseline_item in
     let current_count := extract_count current_item in
     (is_none baseline_count || is_none current_count = true ->
      compare_baseline_keys (VDict baseline_data) (VDict current_data)
        (key :: rest) changes
      = compare_baseline_keys (VDict baseline_data) (VDict current_data) rest changes)
     /\ (forall x y,
           int_value baseline_count = Some x -> int_value current_count = Some y ->
           compare_baseline_keys (VDict baseline_data) (VDict current_data)
             (key :: rest) changes
           = compare_baseline_keys (VDict baseline_data) (VDict current_data) rest
               (if (x =? y)%Z then changes
                else changes ++ [CountChanged key baseline_count current_count]))).
Proof.
  split; [|split].
  - intros entry count Hc. simpl. rewrite Hc. reflexivity.
  - intros entry processed Hc Hp. split.
    + intros pre k v post -> Hkv Hpre. simpl. rewrite Hc, Hp.
      apply first_total_found; assumption.
    + intros Hnone. simpl. rewrite Hc, Hp. apply first_total_none. exact Hnone.
  - intros. apply compare_baseline_key_step; assumption.
Qed.

(** C5.  A collection compared with itself shows no change: whenever
    [compare_collections] returns, it returns the empty list, and it does
    return on every well-formed collection, the results of the collectors
    among them.  Hence the report of a snapshot against itself has, for
    every collection key, either no data on both sides or no significant
    change. *)
Theorem self_comparison_is_empty :
  (forall collection changes,
     compare_collections collection collection = Ok changes -> changes = [])
  /\ (forall collection,
        well_formed collection = true ->
        compare_collections collection collection = Ok [])
  /\ (forall fabric_result leaf_result,
        well_formed (fabric_result_to_value fabric_result) = true
        /\ well_formed (leaf_result_to_value leaf_result) = true)
  /\ (forall files report,
        create_comparison_report files files = Ok report ->
        map fst report
        = all_collections (load_snapshot_data files) (load_snapshot_data files)
        /\ Forall (fun entry => is_unchanged (snd entry)) report)
  /\ (forall files,
        loadable (load_snapshot_data files) ->
        exists report, create_comparison_report files files = Ok report).
Proof.
  split; [|split; [|split; [|split]]].
  - apply compare_collections_self.
  - apply compare_collections_self_ok.
  - intros fabric_result leaf_result.
    split; [apply fabric_result_well_formed | apply leaf_result_well_formed].
  - intros files report. apply compare_all_self.
  - intros files. apply compare_all_self_ok.
Qed.

End Properties.
End SnapshotProperties.

(** *** Concrete snapshots *)

Module SnapshotExamples.
Import Py SnapshotManager SnapshotFacts.
#[local] Existing Instance FixedPoint.instance.

(** A collection result with the given errors and data. *)
Definition collection (errors : list string) (data : dict) : value :=
  VDict [("collector", VStr "FabricCollector");
         ("start_time", VStr "2024-01-06T14:30:22");
         ("end_time", VStr "2024-01-06T14:30:25");
         ("duration_seconds", VFloat 3000000%Z);
         ("errors", VList (map VStr errors));
         ("data", VDict data)].

(** An entry of the fabric collector with [n] records. *)
Definition fabric_entry (n : Z) : value :=
  VDict [("endpoint", VStr "/api/class/fabricNode.json");
         ("description", VStr "Fabric nodes and their status");
         ("count", VInt n);
         ("data", VList [])].

(** An entry of the controller collector with [n] records, [critical] of
    them critical faults. *)
Definition faults_entry (n critical : Z) : value :=
  VDict [("endpoint", VStr "/api/class/faultInst.json");
         ("description", VStr "System faults");
         ("count", VInt n);
         ("data", VList []);
         ("processed_data", VDict [("total_critical_faults", VInt critical)])].

(** An entry of the leaf collector with [n] interfaces, [up] of them up. *)
Definition interfaces_entry (n up : Z) : value :=
  VDict [("command", VStr "show interface status");
         ("description", VStr "Interface status and configuration");
         ("raw_output", VStr "...");
         ("processed_data",
          VDict [("total_interfaces", VInt n); ("up_interfaces", VInt up);
                 ("interfaces", VList [])])].

(** Three errors are a warning, four are critical, none is healthy. *)
Lemma rollup_boundaries :
  (exists summary,
     create_overall_summary
       [("fabric", collection ["e1"; "e2"] []); ("leaf_leaf1", collection ["e3"] [])]
     = Ok summary
     /\ total_errors summary = 3%Z /\ status summary = WARNING)
  /\ (exists summary,
        create_overall_summary
          [("fabric", collection ["e1"; "e2"] []);
           ("leaf_leaf1", collection ["e3"; "e4"] [])]
        = Ok summary
        /\ total_errors summary = 4%Z /\ status summary = CRITICAL)
  /\ (exists summary,
        create_overall_summary
          [("fabric", collection [] []); ("leaf_leaf1", collection [] [])]
        = Ok summary
        /\ total_errors summary = 0%Z /\ status summary = HEALTHY).
Proof.
  assert (Hresult : forall errors data, is_collection_result (collection errors data)).
  { intros errors data. eexists. eexists.
    split; [reflexivity|]. split; [discriminate | reflexivity]. }
  split; [|split].
  - destruct (SnapshotProperties.rollup_classification
                [("fabric", collection ["e1"; "e2"] []);
                 ("leaf_leaf1", collection ["e3"] [])])
      as (summary & Hs & Htotal & _ & Hwarning & _).
    { repeat constructor; apply Hresult. }
    exists summary. split; [exact Hs|]. split; [exact Htotal|].
    apply Hwarning. rewrite Htotal. vm_compute. split; discriminate.
  - destruct (SnapshotProperties.rollup_classification
                [("fabric", collection ["e1"; "e2"] []);
                 ("leaf_leaf1", collection ["e3"; "e4"] [])])
      as (summary & Hs & Htotal & _ & _ & Hcritical).
    { repeat constructor; apply Hresult. }
    exists summary. split; [exact Hs|]. split; [exact Htotal|].
    apply Hcritical. rewrite Htotal. vm_compute. discriminate.
  - destruct (SnapshotProperties.rollup_classification
                [("fabric", collection [] []); ("leaf_leaf1", collection [] [])])
      as (summary & Hs & Htotal & Hhealthy & _).
    { repeat constructor; apply Hresult. }
    exists summary. split; [exact Hs|]. split; [exact Htotal|].
    apply Hhealthy. rewrite Htotal. reflexivity.
Defined.

(** C4, as stated, fails on entries that carry a ['count']: a change of
    the record count is reported although no field is named "total", and
    a change of a "total" field is not reported when the record count is
    the same. *)
Lemma count_field_takes_precedence :
  create_comparison_report
    [("fabric_data.json", Some (collection [] [("topology", fabric_entry 4)]))]
    [("fabric_data.json", Some (collection [] [("topology", fabric_entry 3)]))]
  = Ok [("fabric", Changes [CountChanged "topology" (VInt 4) (VInt 3)])]
  /\ create_comparison_report
       [("apic_data.json", Some (collection [] [("system_faults", faults_entry 5 1)]))]
       [("apic_data.json", Some (collection [] [("system_faults", faults_entry 5 3)]))]
     = Ok [("apic", NoSignificantChanges)].
Proof. split; vm_compute; reflexivity. Qed.

(** The interface total of a leaf drops from 48 to 47: the delta is
    reported. *)
Lemma interface_total_delta :
  compare_baseline_keys
    (VDict [("interfaces", interfaces_entry 48 40)])
    (VDict [("interfaces", interfaces_entry 47 40)])
    ["interfaces"] []
  = Ok [CountChanged "interfaces" (VInt 48) (VInt 47)].
Proof.
  destruct SnapshotProperties.count_delta_rule as (_ & _ & Hstep).
  destruct (Hstep [("interfaces", interfaces_entry 48 40)]
                  [("interfaces", interfaces_entry 47 40)]
                  "interfaces" [] [] (interfaces_entry 48 40) (interfaces_entry 47 40)
                  eq_refl eq_refl) as (_ & Hints).
  rewrite (Hints 48%Z 47%Z eq_refl eq_refl). reflexivity.
Defined.

(** A snapshot with a fabric and a leaf collection, compared with
    itself. *)
Lemma snapshot_against_itself :
  let files :=
    [("fabric_data.json", Some (collection ["e1"] [("topology", fabric_entry 4)]));
     ("leaf_leaf1_data.json", Some (collection [] [("interfaces", interfaces_entry 48 40)]));
     ("leaf_leaf2_data.json", None);
     ("snapshot_summary.txt", None)] in
  create_comparison_report files files
  = Ok [("fabric", NoSignificantChanges);
        ("leaf_leaf1", NoSignificantChanges);
        ("leaf_leaf2", NoDataInEither)]
  /\ compare_collections (collection ["e1"] [("topology", fabric_entry 4)])
                         (collection ["e1"] [("topology", fabric_entry 4)])
     = Ok [].
Proof.
  destruct SnapshotProperties.self_comparison_is_empty as (_ & Hself & _).
  split; [vm_compute; reflexivity|].
  apply Hself. vm_compute. reflexivity.
Defined.


End SnapshotExamples.

(* ================================================================== *)
(** ** The flat-text inventory *)
(* ================================================================== *)

Module InventoryFacts.
Import PyStr Utils InventoryParser.

Lemma split_ws_fields_nonempty l :
  forall cur, Forall (fun field => field <> []) (split_ws cur l).
Proof.
  induction l as [|c l IH]; intros cur; simpl.
  - destruct cur; constructor; [|constructor].
    intros E. apply (f_equal (@List.length ascii)) in E.
    rewrite length_rev in E. discriminate.
  - destruct (is_space c); [|apply IH].
    destruct cur; [apply IH|]. constructor; [|apply IH].
    intros E. apply (f_equal (@List.length ascii)) in E.
    rewrite length_rev in E. discriminate.
Qed.

(** The fields of a line are not empty. *)
Lemma split_fields_nonempty s field :
  In field (split s) -> field <> EmptyString.
Proof.
  unfold split. intros Hin. apply in_map_iff in Hin as (l & <- & Hl).
  pose proof (split_ws_fields_nonempty (chars s) []) as Hall.
  rewrite Forall_forall in Hall. specialize (Hall l Hl).
  destruct l; [congruence | discriminate].
Qed.

(** The parameters of a host line: the fields after the host name. *)
Definition params_of (host : host_entry) : Dict.t string :=
  parse_params (tl (split (line host))).

End InventoryFacts.

Module InventoryProperties.
Import PyStr Utils InventoryParser InventoryFacts.

(** The inventory text of the specification. *)
Definition one_leaf : string :=
  "[leaves_pod_1]"
  ++ String LF "leaf1 ansible_host=10.0.0.1 node_id=201 priority=1".

(** C7.  The inventory text with the section [leaves_pod_1] and the host
    line of [leaf1] parses to exactly one device: a leaf with node
    identifier 201, priority 1 and host name "leaf1".  For every host line
    under a section, the device takes its name from the first field and
    its role from the section name; [node_id=] and [priority=] are read
    as integers when present, the node identifier is absent and the
    priority is 1 when they are not (or are not integers). *)
Theorem flat_text_inventory :
  parse_ini_file one_leaf
  = MkInventory []
      [DeviceInfo.Make "leaf1" "leaf1" "" "" "leaf" (Some 201%Z) (Some 1%Z) 22]
      [] [] "ACI Fabric" "unknown" 1
  /\
  (forall host first_field rest section_name,
     split (line host) = first_field :: rest ->
     section host = Some section_name ->
     exists device,
       parse_ini_host host = Some device
       /\ DeviceInfo.name device = first_field
       /\ DeviceInfo.hostname device = first_field
       /\ DeviceInfo.device_type device = device_type_of_section section_name
       /\ (forall text n,
             Dict.get "node_id" (params_of host) = Some text ->
             py_int text = Some n -> DeviceInfo.node_id device = Some n)
       /\ (forall text,
             Dict.get "node_id" (params_of host) = Some text ->
             py_int text = None -> DeviceInfo.node_id device = None)
       /\ (Dict.get "node_id" (params_of host) = None ->
           DeviceInfo.node_id device = None)
       /\ (forall text p,
             Dict.get "priority" (params_of host) = Some text ->
             py_int text = Some p -> DeviceInfo.priority device = Some p)
       /\ (forall text,
             Dict.get "priority" (params_of host) = Some text ->
             py_int text = None -> DeviceInfo.priority device = Some 1%Z)
       /\ (Dict.get "priority" (params_of host) = None ->
           DeviceInfo.priority device = Some 1%Z)).
Proof.
  split; [vm_compute; reflexivity|].
  intros host first_field rest section_name Hsplit Hsection.
  assert (Hname : first_field <> EmptyString).
  { apply (split_fields_nonempty (line host)). rewrite Hsplit. left. reflexivity. }
  unfold parse_ini_host, params_of. rewrite Hsplit, Hsection. simpl tl.
  unfold DeviceInfo.new.
  destruct (String.eqb_spec first_field "") as [E | _]; [contradiction|].
  eexists. split; [reflexivity|]. simpl.
  repeat split; try reflexivity.
  - intros text n -> ->. reflexivity.
  - intros text -> ->. reflexivity.
  - intros ->. reflexivity.
  - intros text p -> ->. reflexivity.
  - intros text -> ->. reflexivity.
  - intros ->. reflexivity.
Qed.

End InventoryProperties.

Module InventoryExamples.
Import PyStr Utils InventoryParser InventoryFacts.

(** The host line of the specification, under its section: the integers
    of [node_id=] and [priority=] are read. *)
Lemma leaf1_host_line :
  let host := MkHost "leaf1" (Some "leaves_pod_1")
                "leaf1 ansible_host=10.0.0.1 node_id=201 priority=1" in
  exists device,
    parse_ini_host host = Some device
    /\ DeviceInfo.name device = "leaf1"
    /\ DeviceInfo.device_type device = "leaf"
    /\ DeviceInfo.node_id device = Some 201%Z
    /\ DeviceInfo.priority device = Some 1%Z.
Proof.
  intros host.
  destruct InventoryProperties.flat_text_inventory as (_ & Hhost).
  destruct (Hhost host "leaf1"
              ["ansible_host=10.0.0.1"; "node_id=201"; "priority=1"]
              "leaves_pod_1" eq_refl eq_refl)
    as (device & Hparse & Hname & _ & Htype & Hnode & _ & _ & Hpriority & _).
  exists device. split; [exact Hparse|]. split; [exact Hname|].
  split; [exact Htype|]. split.
  - apply (Hnode "201"); reflexivity.
  - apply (Hpriority "1"); reflexivity.
Defined.

End InventoryExamples.

(* ================================================================== *)
(** * Further properties of the embedded code *)
(* ================================================================== *)

(** ** Invariants of the collectors *)

Module CollectorInvariantFacts.
Section Facts.
Context `{RT : Py.Runtime}.
Import Py BaseCollector CollectorFacts.

(** An entry found after storing a table comes from the table or was
    there before. *)
Lemma get_set_all_origin {V} (entries : Dict.t V) :
  forall (d : Dict.t V) k v,
  Dict.get k (Dict.set_all entries d) = Some v ->
  In (k, v) entries \/ Dict.get k d = Some v.
Proof.
  unfold Dict.set_all.
  induction entries as [|[k0 v0] entries IH]; intros d k v; simpl; [auto|].
  intros Hget. destruct (IH _ _ _ Hget) as [Hin | Hd]; [auto|].
  destruct (string_dec k0 k) as [-> | Hne].
  - rewrite DictFacts.get_set_eq in Hd. inversion Hd; subst. auto.
  - rewrite DictFacts.get_set_neq in Hd by exact Hne. auto.
Qed.

(** Storing never removes a key. *)
Lemma mem_set_all_kept {V} (entries : Dict.t V) :
  forall (d : Dict.t V) k,
  Dict.mem k d = true -> Dict.mem k (Dict.set_all entries d) = true.
Proof.
  unfold Dict.set_all.
  induction entries as [|[k0 v0] entries IH]; intros d k Hmem; simpl; [exact Hmem|].
  apply IH. unfold Dict.mem in *. simpl.
  destruct (string_dec k0 k) as [-> | Hne].
  - rewrite DictFacts.get_set_eq. reflexivity.
  - rewrite DictFacts.get_set_neq by exact Hne. exact Hmem.
Qed.

Lemma flat_map_nil_inv {A B} (f : A -> list B) l :
  flat_map f l = [] -> forall a, In a l -> f a = [].
Proof.
  induction l as [|x l IH]; simpl; intros Hnil a Hin; [destruct Hin|].
  apply app_eq_nil in Hnil as [Hx Hl].
  destruct Hin as [<- | Hin]; [exact Hx | apply IH; assumption].
Qed.

(** The validation of the fabric collector adds nothing exactly when its
    rules are satisfied. *)
Lemma validate_fabric_data_silent data self self' :
  FabricCollector.validate_fabric_data data self = Ok self' ->
  exists validation_errors,
    self' = with_errors (errors self ++ validation_errors) self
    /\ (validation_errors = [] <-> FabricFacts.validation_ok data)
    /\ (List.length validation_errors <= 2)%nat.
Proof.
  destruct self as [n t errs].
  unfold FabricCollector.validate_fabric_data, FabricCollector.validate_collection,
    FabricCollector.missing_or_empty, FabricFacts.validation_ok.
  simpl.
  destruct (Dict.get "topology" data) as [topology|]; simpl;
    destruct (Dict.get "links" data) as [links|]; simpl;
    destruct (Dict.get "faults" data) as [faults|]; simpl.
  all: repeat match goal with
       | |- context [if ?b then _ else _] => destruct b eqn:?
       end; simpl.
  all: unfold add_error, with_errors, raise; simpl; rewrite <- ?app_assoc; simpl.
  all: intros E; inversion E; subst.
  all: first [ exists []; split; [rewrite app_nil_r; reflexivity|]
             | eexists; split; [reflexivity|] ].
  all: split; [|simpl; lia].
  all: split; [intros Hnil; try discriminate | intros (e & He & Hcount)].
  all: try discriminate; try reflexivity.
  all: try (inversion He; subst; lia).
  all: try (eexists; split; [reflexivity | lia]).
Qed.

(** The rules of [validate_leaf_data], read off the data: both critical
    collections are there without an error, and the interfaces that were
    parsed are not zero. *)
Definition leaf_rules_hold (data : Dict.t LeafCollector.leaf_item) : Prop :=
  match Dict.get "interfaces" data with
  | Some i =>
      LeafCollector.item_has_error i = false
      /\ (forall p, LeafCollector.item_processed i = Some p ->
                    LeafParsers.get_total_interfaces p <> 0%Z)
  | None => False
  end
  /\ match Dict.get "fabric_interfaces" data with
     | Some i => LeafCollector.item_has_error i = false
     | None => False
     end.

(** The validation of the leaf collector adds nothing exactly when its
    rules hold, and never more than three messages. *)
Lemma validate_leaf_data_silent device_info data self :
  exists validation_errors,
    LeafCollector.validate_leaf_data device_info data self
    = with_errors (errors self ++ validation_errors) self
    /\ (validation_errors = [] <-> leaf_rules_hold data)
    /\ (List.length validation_errors <= 3)%nat.
Proof.
  destruct self as [n t errs].
  unfold LeafCollector.validate_leaf_data, LeafCollector.validate_collection,
    leaf_rules_hold.
  destruct (Dict.get "interfaces" data) as [i|];
    destruct (Dict.get "fabric_interfaces" data) as [f|].
  all: repeat match goal with
       | |- context [LeafCollector.item_has_error ?x] =>
           destruct (LeafCollector.item_has_error x) eqn:?
       | |- context [LeafCollector.item_processed ?x] =>
           destruct (LeafCollector.item_processed x) eqn:?
       | |- context [if ?b then _ else _] => destruct b eqn:?
       end; simpl.
  all: unfold add_error, with_errors; simpl; rewrite <- ?app_assoc; simpl.
  all: first [ exists []; split; [rewrite app_nil_r; reflexivity|]
             | eexists; split; [reflexivity|] ].
  all: split; [|simpl; lia].
  all: split; [intros Hnil; try discriminate | intros [Hi Hf]].
  all: try tauto; try discriminate; try reflexivity.
  all: try (destruct Hi as [Hi1 Hi2]; try discriminate).
  all: try (exfalso; apply (Hi2 _ eq_refl);
            match goal with
            | Hz : (_ =? 0)%Z = true |- _ => apply Z.eqb_eq in Hz; exact Hz
            end).
  all: try (split; [split; [reflexivity|] | reflexivity]).
  all: try (intros q Hq; inversion Hq; subst;
            match goal with
            | Hz : (_ =? 0)%Z = false |- _ => apply Z.eqb_neq in Hz; exact Hz
            end).
  all: try (intros q Hq; discriminate).
Qed.

End Facts.
End CollectorInvariantFacts.

Module CollectorInvariants.
Section Invariants.
Context `{RT : Py.Runtime}.
Import Py BaseCollector CollectorFacts CollectorInvariantFacts.

(** Every result of the fabric collector, unfolded. *)
Lemma fabric_collect_result table fetch t_start t_end self r :
  FabricCollector.collect table fetch t_start t_end self = Ok r ->
  exists validation_errors,
    r = MkResult (name self) t_start t_end (total_seconds (t_end - t_start))
          (flat_map (FabricFacts.metric_errors fetch) table ++ validation_errors)
          (FabricFacts.collected fetch table)
    /\ (validation_errors = []
        <-> FabricFacts.validation_ok (FabricFacts.collected fetch table))
    /\ (List.length validation_errors <= 2)%nat.
Proof.
  intros Hr. unfold FabricCollector.collect in Hr.
  pose proof (FabricFacts.collect_loop_eq fetch table
                (start_collection t_start self) []) as Hloop.
  unfold Dict.t in Hloop, Hr. rewrite Hloop in Hr. clear Hloop.
  destruct (FabricCollector.validate_fabric_data _ _) as [self'|e] eqn:Hv;
    [|discriminate].
  apply validate_fabric_data_silent in Hv as (verrs & -> & Hiff & Hlen).
  exists verrs. split; [|split; assumption].
  inversion Hr; subst. reflexivity.
Qed.

(** X1.  Over its own endpoint table the fabric collector never raises,
    whatever the client returns or raises: it returns a result with one
    entry for each of the eight endpoints, in the order of the table. *)
Theorem fabric_collect_never_raises :
  forall fetch t_start t_end self,
  exists r,
    FabricCollector.collect FabricCollector.FABRIC_ENDPOINTS fetch t_start t_end self
    = Ok r
    /\ collector r = name self
    /\ Dict.keys (data r)
       = ["topology"; "links"; "faults"; "health"; "discovery"; "isis"; "ospf"; "bgp"].
Proof.
  intros fetch t_start t_end self.
  assert (Hnd : NoDup (Dict.keys FabricCollector.FABRIC_ENDPOINTS)).
  { repeat (constructor; [simpl; intuition discriminate|]). constructor. }
  destruct (FabricFacts.fabric_collect_eq FabricCollector.FABRIC_ENDPOINTS fetch
              t_start t_end self Hnd) as (verrs & Hr & _); [simpl; tauto|].
  eexists. split; [exact Hr|]. split; [reflexivity|]. cbn [data].
  rewrite FabricFacts.fabric_collected_keys by exact Hnd. reflexivity.
Qed.

(** X2.  In every result of the fabric collector the count of an entry is
    the length of the records stored with it, and an entry that carries an
    error has no records. *)
Theorem fabric_entry_count_matches_data :
  forall table fetch t_start t_end self r k e,
    FabricCollector.collect table fetch t_start t_end self = Ok r ->
    Dict.get k (data r) = Some e ->
    py_len (FabricCollector.fe_data e) = Ok (FabricCollector.fe_count e)
    /\ (FabricCollector.fe_error e <> None ->
        FabricCollector.fe_count e = 0%Z
        /\ FabricCollector.fe_data e = VList []).
Proof.
  intros table fetch t_start t_end self r k e Hr Hget.
  apply fabric_collect_result in Hr as (verrs & -> & _). simpl in Hget.
  unfold FabricFacts.collected in Hget.
  apply get_set_all_origin in Hget as [Hin | Hnil]; [|discriminate].
  apply in_map_iff in Hin as ([k' config] & E & _).
  unfold FabricFacts.metric_entry in E. simpl in E. inversion E; subst; clear E.
  unfold FabricCollector.fetch_records.
  destruct (fetch (FabricCollector.endpoint config) (FabricCollector.params config))
    as [response|exn]; cbn [bind]; [|split; [reflexivity | auto]].
  destruct (truthy response); [|split; [reflexivity | simpl; congruence]].
  destruct (py_in "imdata" response) as [[|]|exn]; cbn [bind];
    try (split; [reflexivity | simpl; congruence || auto]).
  destruct (py_getitem response "imdata") as [imdata|exn]; cbn [bind];
    [|split; [reflexivity | auto]].
  destruct (py_len imdata) as [count|exn] eqn:Hlen; cbn [bind];
    [|split; [reflexivity | auto]].
  simpl. split; [exact Hlen | congruence].
Qed.

(** X3.  A result of the fabric collector has no error exactly when every
    metric of the table was fetched with its records and the topology has at
    least three nodes. *)
Theorem fabric_no_errors_iff :
  forall table fetch t_start t_end self r,
    FabricCollector.collect table fetch t_start t_end self = Ok r ->
    (result_errors r = []
     <-> (forall k c, In (k, c) table -> FabricFacts.metric_fails fetch c = false)
         /\ FabricFacts.validation_ok (data r)).
Proof.
  intros table fetch t_start t_end self r Hr.
  apply fabric_collect_result in Hr as (verrs & -> & Hiff & _). simpl.
  split.
  - intros Hnil. apply app_eq_nil in Hnil as [Hloop Hv].
    split; [|apply Hiff; exact Hv].
    intros k c Hin.
    destruct (FabricFacts.metric_fails fetch c) eqn:Hfail; [|reflexivity].
    destruct (FabricFacts.fabric_metric_errors_fail fetch (k, c) Hfail)
      as (message & Hm & _).
    rewrite (flat_map_nil_inv _ _ Hloop (k, c) Hin) in Hm. discriminate.
  - intros [Hall Hok]. apply Hiff in Hok. subst verrs. rewrite app_nil_r.
    apply flat_map_nil. intros [k c] Hin.
    apply FabricFacts.fabric_metric_errors_ok. simpl. apply (Hall k c Hin).
Qed.

(** X4.  The number of errors of a fabric result is the number of metrics
    that failed, plus at most two messages of the validation rules. *)
Theorem fabric_error_count_bounds :
  forall table fetch t_start t_end self r,
    FabricCollector.collect table fetch t_start t_end self = Ok r ->
    let failed :=
      List.length (filter (fun item => FabricFacts.metric_fails fetch (snd item)) table) in
    (failed <= List.length (result_errors r) <= failed + 2)%nat.
Proof.
  intros table fetch t_start t_end self r Hr.
  apply fabric_collect_result in Hr as (verrs & -> & _ & Hlen). simpl.
  rewrite length_app.
  assert (Hloop : List.length (flat_map (FabricFacts.metric_errors fetch) table)
                  = List.length (filter (fun item =>
                        FabricFacts.metric_fails fetch (snd item)) table)).
  { clear. induction table as [|item table IH]; simpl; [reflexivity|].
    rewrite length_app, IH.
    destruct (FabricFacts.metric_fails fetch (snd item)) eqn:Hfail.
    - destruct (FabricFacts.fabric_metric_errors_fail fetch item Hfail) as (m & -> & _).
      reflexivity.
    - rewrite (FabricFacts.fabric_metric_errors_ok fetch item Hfail). reflexivity. }
  rewrite Hloop. lia.
Qed.

End Invariants.
End CollectorInvariants.

Module LeafInvariants.
Section Invariants.
Context `{RT : Py.Runtime}.
Import Py BaseCollector CollectorFacts CollectorInvariantFacts LeafCollector.

(** Every result of the leaf collector on a device that answers,
    unfolded. *)
Lemma leaf_collect_result table connect_to_device device_info nxos_client
      t_start t_end self :
  connect_to_device device_info = Some nxos_client ->
  exists validation_errors,
    collect table connect_to_device device_info t_start t_end self
    = Ok (MkResult (name self) t_start t_end (total_seconds (t_end - t_start))
            (flat_map (LeafFacts.metric_errors device_info nxos_client) table
             ++ validation_errors)
            (LeafFacts.collected device_info nxos_client table))
    /\ (validation_errors = []
        <-> leaf_rules_hold (LeafFacts.collected device_info nxos_client table))
    /\ (List.length validation_errors <= 3)%nat.
Proof.
  intros Hconn. unfold collect. rewrite Hconn.
  rewrite (LeafFacts.process_loop_eq device_info nxos_client).
  - fold (LeafFacts.collected device_info nxos_client table).
    destruct (validate_leaf_data_silent device_info
                (LeafFacts.collected device_info nxos_client table)
                (with_errors (errors (start_collection t_start self)
                   ++ flat_map (LeafFacts.metric_errors device_info nxos_client) table)
                   (start_collection t_start self)))
      as (validation_errors & Hv & Hiff & Hlen).
    exists validation_errors. split; [|split; assumption].
    rewrite Hv. reflexivity.
  - intros item Hin. apply LeafFacts.execute_commands_get.
    apply (in_map (fun kv => command (snd kv))) in Hin. exact Hin.
Qed.



(** X6.  A leaf that cannot be reached yields a result without any data and
    with the connection failure as its only error; a leaf that can be
    reached always has its ['device_info'] in the data. *)
Theorem leaf_unreachable_iff :
  forall table connect_to_device device_info t_start t_end self,
  exists r,
    collect table connect_to_device device_info t_start t_end self = Ok r
    /\ (connect_to_device device_info = None ->
        data r = []
        /\ result_errors r
           = [("Failed to connect to leaf " ++ DeviceInfo.name device_info)%string])
    /\ (connect_to_device device_info <> None ->
        Dict.mem "device_info" (data r) = true)
    /\ (data r = [] <-> connect_to_device device_info = None).
Proof.
  intros table connect device t_start t_end self.
  destruct (connect device) as [nxos|] eqn:Hconn.
  - destruct (leaf_collect_result table connect device nxos t_start t_end self Hconn)
      as (verrs & Hr & _).
    eexists. split; [exact Hr|]. cbn [data].
    assert (Hmem : Dict.mem "device_info" (LeafFacts.collected device nxos table) = true).
    { unfold LeafFacts.collected. apply mem_set_all_kept. reflexivity. }
    split; [discriminate|]. split; [intros _; exact Hmem|].
    split; [|discriminate]. intros Hnil. rewrite Hnil in Hmem. discriminate.
  - eexists. split; [apply LeafFacts.collect_unreachable; exact Hconn|].
    cbn [data result_errors]. split; [auto|]. split; [congruence|].
    split; reflexivity.
Qed.

End Invariants.
End LeafInvariants.

(** ** Invariants of the text parsers of the leaf collector *)

Module ParserInvariants.
Import PyStr LeafParsers.

Lemma split_char_nonempty sep l : forall cur, split_char sep cur l <> [].
Proof.
  induction l as [|c l IH]; intros cur; simpl; [discriminate|].
  destruct (Ascii.eqb c sep); [discriminate | apply IH].
Qed.

(** A text always has at least one line. *)
Lemma lines_of_nonempty output : (1 <= len (lines_of output))%Z.
Proof.
  unfold len, lines_of, split_on. rewrite length_map.
  pose proof (split_char_nonempty LF (chars (strip output)) []) as Hne.
  destruct (split_char LF [] (chars (strip output))); [congruence | simpl; lia].
Qed.

Lemma count_if_bounds {A} (f : A -> bool) l : (0 <= count_if f l <= len l)%Z.
Proof.
  unfold count_if, len. split; [lia|].
  apply inj_le, LeafParserFacts.filter_length_le.
Qed.

Lemma digit_value_nonneg c : (0 <= digit_value c)%Z.
Proof. unfold digit_value. apply Nat2Z.is_nonneg. Qed.

Lemma int_of_digits_nonneg ds : (0 <= int_of_digits ds)%Z.
Proof.
  unfold int_of_digits.
  assert (Hfold : forall acc, (0 <= acc)%Z ->
            (0 <= fold_left (fun a c => 10 * a + digit_value c) ds acc)%Z).
  { induction ds as [|c ds IH]; intros acc Hacc; cbn [fold_left]; [exact Hacc|].
    apply IH. pose proof (digit_value_nonneg c). lia. }
  apply Hfold. lia.
Qed.

(** A line that [parse_endpoint_summary] stops at. *)
Definition mentions_total (line : string) : bool :=
  contains "Total" line && contains "endpoint" (lower line).

Lemma endpoint_total_nonneg lines : (0 <= endpoint_total lines)%Z.
Proof.
  induction lines as [|line lines IH]; simpl; [lia|].
  destruct (contains "Total" line && contains "endpoint" (lower line)); [|exact IH].
  destruct (rev (findall_digits (String.length line) (chars line)));
    [lia | apply int_of_digits_nonneg].
Qed.

(** X7.  Whatever the command printed, the numbers a parser reports are
    consistent: a count is never negative and never exceeds the number of
    entries or lines it was taken from, and there is at least one line. *)
Theorem processed_counts_are_consistent :
  forall data_type raw_output,
    match process_command_output data_type raw_output with
    | PInterfaces r =>
        total_interfaces r = len (interfaces r)
        /\ (0 <= up_interfaces r <= total_interfaces r)%Z
    | PPortChannels total up port_channels =>
        total = len port_channels /\ (0 <= up <= total)%Z
    | PMacTable n raw | PArpTable n raw | PVlans n raw =>
        (0 <= n <= raw)%Z /\ (1 <= raw)%Z
    | PVpc _ _ => True
    | PFabricInterfaces n fabric_interfaces =>
        n = len fabric_interfaces /\ (n <= len (lines_of raw_output))%Z
    | PEndpoints n raw => (0 <= n)%Z /\ (1 <= raw)%Z
    | PBridgeDomains n raw =>
        (0 <= n <= raw)%Z /\ (1 <= raw)%Z /\ (5 <= raw -> n = raw - 5)%Z
    | PDefault n sample_lines =>
        (1 <= n)%Z /\ len sample_lines = Z.min 5 n
    end.
Proof.
  intros data_type raw_output. unfold process_command_output.
  pose proof (lines_of_nonempty raw_output) as Hlines.
  repeat match goal with
         | |- context [if String.eqb data_type ?s then _ else _] =>
             destruct (String.eqb data_type s)
         end.
  - unfold parse_interface_status. simpl. split; [reflexivity|].
    apply (count_if_bounds is_connected).
  - unfold parse_port_channel_summary. split; [reflexivity|]. apply count_if_bounds.
  - unfold parse_mac_table. split; [apply count_if_bounds | exact Hlines].
  - unfold parse_arp_table. split; [apply count_if_bounds | exact Hlines].
  - unfold parse_vlan_brief. split; [apply count_if_bounds | exact Hlines].
  - unfold parse_vpc_brief. exact I.
  - unfold parse_fabric_interfaces. split; [reflexivity|].
    unfold len. rewrite length_map. apply inj_le, LeafParserFacts.filter_length_le.
  - unfold parse_endpoint_summary. split; [apply endpoint_total_nonneg | exact Hlines].
  - unfold parse_bd_summary. lia.
  - split; [exact Hlines|]. unfold len in *. rewrite length_firstn. lia.
Qed.

(** X8.  Every port channel that is reported has the status "up" or "down",
    "up" exactly when its line carries the flag (SU), and its line carries
    "Po" and one of the flags (SU) and (SD). *)
Theorem port_channel_entries :
  forall line pc,
    parse_port_channel_line line = Some pc ->
    contains "Po" line = true
    /\ (contains "(SU)" line = true \/ contains "(SD)" line = true)
    /\ (pc_status pc = "up" <-> contains "(SU)" line = true)
    /\ (pc_status pc = "down" <-> contains "(SU)" line = false)
    /\ exists rest, split line = pc_interface pc :: pc_protocol pc :: rest.
Proof.
  intros line pc. unfold parse_port_channel_line.
  destruct (contains "Po" line); simpl; [|discriminate].
  destruct (contains "(SU)" line) eqn:Hsu; simpl.
  - destruct (split line) as [|p0 [|p1 rest]]; try discriminate.
    intros E. inversion E; subst; simpl.
    repeat split; auto; try discriminate. exists rest. reflexivity.
  - destruct (contains "(SD)" line); simpl; [|discriminate].
    destruct (split line) as [|p0 [|p1 rest]]; try discriminate.
    intros E. inversion E; subst; simpl.
    repeat split; auto; try discriminate. exists rest. reflexivity.
Qed.

(** X9.  Only the first line that mentions a total of endpoints counts: the
    lines after it are not read, and if it carries no number the total is 0. *)
Theorem endpoint_total_first_line :
  forall pre line post,
    forallb (fun l => negb (mentions_total l)) pre = true ->
    mentions_total line = true ->
    endpoint_total (pre ++ line :: post) = endpoint_total [line]
    /\ (findall_digits (String.length line) (chars line) = [] ->
        endpoint_total (pre ++ line :: post) = 0%Z).
Proof.
  intros pre line post Hpre Hline.
  assert (Heq : endpoint_total (pre ++ line :: post) = endpoint_total [line]).
  { induction pre as [|l pre IH]; simpl.
    - unfold mentions_total in Hline. rewrite Hline. reflexivity.
    - simpl in Hpre. apply andb_true_iff in Hpre as [Hl Hpre].
      apply negb_true_iff in Hl. unfold mentions_total in Hl. rewrite Hl.
      apply IH. exact Hpre. }
  split; [exact Heq|]. intros Hnone. rewrite Heq. simpl.
  unfold mentions_total in Hline. rewrite Hline, Hnone. reflexivity.
Qed.

End ParserInvariants.

(** ** Order of the controllers and of the snapshots *)

Module OrderingFacts.
Import StableSort.

Section Stability.
Context {A : Type}.
Variable le : A -> A -> bool.
Variable p : A -> bool.
(** [x] moves only behind elements that [p] does not select with it. *)
Hypothesis class_kept : forall x y, le x y = false -> p x = true -> p y = false.

Lemma insert_stable x l : filter p (insert le x l) = filter p (x :: l).
Proof.
  induction l as [|y l IH]; [reflexivity|].
  cbn [insert]. destruct (le x y) eqn:Hle; [reflexivity|].
  cbn [filter] in *. rewrite IH.
  destruct (p x) eqn:Hpx; [|reflexivity].
  rewrite (class_kept x y Hle Hpx). reflexivity.
Qed.

Lemma sort_stable l : filter p (sort le l) = filter p l.
Proof.
  induction l as [|x l IH]; [reflexivity|].
  cbn [sort]. rewrite insert_stable. cbn [filter]. rewrite IH. reflexivity.
Qed.

End Stability.

Section Head.
Context {A : Type}.
Variable le : A -> A -> bool.
Hypothesis le_trans : forall x y z, le x y = true -> le y z = true -> le x z = true.
Hypothesis le_refl : forall x, le x x = true.


End Head.
End OrderingFacts.

Module OrderingInvariants.
Section Invariants.
Context `{RT : Py.Runtime}.
Import Py OrderingFacts.

(** X10.  The controllers that share an effective priority are tried in the
    order of the inventory: the sort of [FabricClient] is stable. *)
Theorem controllers_keep_inventory_order :
  forall devices username password k,
    filter (fun d => (AciClient.priority_key d =? k)%Z)
           (AciClient.apic_devices (AciClient.new_FabricClient devices username password))
    = filter (fun d => (AciClient.priority_key d =? k)%Z) devices.
Proof.
  intros devices username password k. cbn [AciClient.new_FabricClient AciClient.apic_devices].
  apply sort_stable. intros x y Hle Hx.
  unfold AciClient.priority_le in Hle. lia.
Qed.

(** X11.  The snapshots with the same modification time are listed in the
    order of the directory. *)
Theorem snapshots_keep_directory_order :
  forall snapshots_dir fs t,
    filter (fun s => (SnapshotManager.created s =? t)%Z)
           (SnapshotManager.list_snapshots snapshots_dir fs)
    = map (SnapshotManager.snapshot_info_of snapshots_dir)
          (filter (fun e => SnapshotManager.is_dir e
                            && (SnapshotManager.st_mtime e =? t)%Z) fs).
Proof.
  intros snapshots_dir fs t. unfold SnapshotManager.list_snapshots.
  rewrite sort_stable.
  - induction fs as [|e fs IH]; [reflexivity|]. cbn [filter].
    destruct (SnapshotManager.is_dir e); cbn [andb map filter]; [|exact IH].
    cbn [SnapshotManager.snapshot_info_of SnapshotManager.created].
    destruct (SnapshotManager.st_mtime e =? t)%Z; cbn [map]; rewrite IH; reflexivity.
  - intros x y Hle Hx. unfold SnapshotManager.newer_or_equal in Hle. lia.
Qed.


End Invariants.
End OrderingInvariants.

(** ** Sessions of the switches *)

Module SessionInvariants.
Section Invariants.
Context `{RT : Py.Runtime}.
Import Py DeviceSessions.

(** Every session the fabric client holds is open. *)
Definition sessions_open (fabric : Fabric) : Prop :=
  forall name c, Dict.get name (device_clients fabric) = Some c ->
                 is_connected c = true /\ has_ssh_client c = true.

(** X13.  A session is opened once for each device name: when
    [connect_to_device] returns a session, the next call for a device of
    that name returns the same session without connecting again and without
    changing the fabric client, the sessions of the other names are kept,
    and every session held is still open. *)
Theorem sessions_are_cached :
  forall sw fabric device c fabric',
    sessions_open fabric ->
    connect_to_device sw fabric device = (Some c, fabric') ->
    (forall sw' device',
        DeviceInfo.name device' = DeviceInfo.name device ->
        connect_to_device sw' fabric' device' = (Some c, fabric'))
    /\ (forall name, name <> DeviceInfo.name device ->
          Dict.get name (device_clients fabric') = Dict.get name (device_clients fabric))
    /\ sessions_open fabric'
    /\ client fabric' = client fabric.
Proof.
  intros sw fabric device c fabric' Hopen Hconn.
  unfold connect_to_device in Hconn.
  destruct (Dict.get (DeviceInfo.name device) (device_clients fabric)) as [cached|] eqn:Hget.
  - inversion Hconn; subst; clear Hconn. repeat split; try assumption; try reflexivity.
    + intros sw' device' Hname. unfold connect_to_device. rewrite Hname, Hget. reflexivity.
    + apply (Hopen _ _ H).
    + apply (Hopen _ _ H).
  - unfold nxos_connect, new_NXOSClient in Hconn. cbn [nx_hostname nx_username nx_password] in Hconn.
    destruct (ssh_connect sw _ _ _); [|discriminate].
    inversion Hconn; subst; clear Hconn. cbn [device_clients client].
    split; [|split; [|split; [|reflexivity]]].
    + intros sw' device' Hname. unfold connect_to_device. cbn [device_clients].
      rewrite Hname, DictFacts.get_set_eq. reflexivity.
    + intros name Hne. apply DictFacts.get_set_neq. congruence.
    + intros name c Hc. cbn [device_clients] in Hc.
      destruct (string_dec (DeviceInfo.name device) name) as [<- | Hne].
      * rewrite DictFacts.get_set_eq in Hc. inversion Hc; subst. split; reflexivity.
      * rewrite DictFacts.get_set_neq in Hc by exact Hne. apply (Hopen _ _ Hc).
Qed.

(** X14.  A refused connection is not remembered: [connect_to_device]
    returns [None] exactly when no session of that name is held and the
    switch refuses the connection, and it leaves the fabric client as it
    was. *)
Theorem refused_connection_is_not_cached :
  forall sw fabric device,
    fst (connect_to_device sw fabric device) = None
    <-> Dict.get (DeviceInfo.name device) (device_clients fabric) = None
        /\ ssh_connect sw (DeviceInfo.hostname device)
                       (AciClient.fc_username (client fabric))
                       (AciClient.fc_password (client fabric)) = false
        /\ snd (connect_to_device sw fabric device) = fabric.
Proof.
  intros sw fabric device. unfold connect_to_device, nxos_connect, new_NXOSClient.
  cbn [nx_hostname nx_username nx_password].
  destruct (Dict.get (DeviceInfo.name device) (device_clients fabric)); cbn [fst snd].
  - split; [discriminate | intros [E _]; discriminate].
  - destruct (ssh_connect sw _ _ _); cbn [fst snd].
    + split; [discriminate | intros (_ & E & _); discriminate].
    + split; auto.
Qed.

(** X15.  After [disconnect_all] nothing answers any more: the fabric client
    holds no controller and no session, a fetch returns [None], the
    controller client it held is logged out, and every session it held
    returns [None] for every command. *)
Theorem disconnect_all_closes_everything :
  forall sw net fabric,
    sessions_open fabric ->
    let after := disconnect_all fabric in
    device_clients (fabric_after after) = []
    /\ (forall endpoint params,
          fst (AciClient.get_fabric_data net (client (fabric_after after)) endpoint params)
          = VNone)
    /\ (forall apic endpoint params,
          apic_after after = Some apic ->
          fst (AciClient.get_data net apic endpoint params) = VNone)
    /\ (forall name c command,
          Dict.get name (clients_after after) = Some c ->
          execute_command sw c command = None)
    /\ Dict.keys (clients_after after) = Dict.keys (device_clients fabric).
Proof.
  intros sw net fabric Hopen after. subst after. unfold disconnect_all.
  cbn [fabric_after apic_after clients_after device_clients client].
  split; [reflexivity|]. split; [reflexivity|]. split; [|split].
  - intros apic endpoint params Hapic.
    destruct (AciClient.primary_apic (client fabric)) as [a|]; [|discriminate].
    simpl in Hapic. inversion Hapic; subst; clear Hapic.
    unfold logout, AciClient.get_data.
    destruct (AciClient.is_authenticated a) eqn:Hauth; cbn [AciClient.is_authenticated];
      [reflexivity | rewrite Hauth; reflexivity].
  - intros name c command Hget.
    assert (Hc : exists c0, Dict.get name (device_clients fabric) = Some c0
                            /\ c = nxos_disconnect c0).
    { revert Hget. generalize (device_clients fabric).
      induction t as [|[k v] t IH]; simpl; [discriminate|].
      destruct (String.eqb name k).
      - intros E. inversion E. eauto.
      - exact IH. }
    destruct Hc as (c0 & Hc0 & ->).
    destruct (Hopen _ _ Hc0) as [_ Hssh].
    unfold nxos_disconnect, execute_command. rewrite Hssh. reflexivity.
  - unfold Dict.keys. rewrite map_map. reflexivity.
Qed.

(** X16.  A switch that refuses the connection yields, through the leaf
    collector, a result without data whose only error is the connection
    failure. *)
Theorem refused_leaf_is_reported :
  forall sw fabric device t_start t_end self,
    Dict.get (DeviceInfo.name device) (device_clients fabric) = None ->
    ssh_connect sw (DeviceInfo.hostname device)
                (AciClient.fc_username (client fabric))
                (AciClient.fc_password (client fabric)) = false ->
    exists r,
      LeafCollector.collect LeafCollector.LEAF_COMMANDS
        (connect_for_collector sw fabric) device t_start t_end self = Ok r
      /\ BaseCollector.data r = []
      /\ BaseCollector.result_errors r
         = [("Failed to connect to leaf " ++ DeviceInfo.name device)%string].
Proof.
  intros sw fabric device t_start t_end self Hget Hssh.
  assert (Hconn : connect_for_collector sw fabric device = None).
  { unfold connect_for_collector, connect_to_device, nxos_connect, new_NXOSClient.
    cbn [nx_hostname nx_username nx_password]. rewrite Hget, Hssh. reflexivity. }
  eexists. split; [apply LeafFacts.collect_unreachable; exact Hconn|].
  split; reflexivity.
Qed.



End Invariants.
End SessionInvariants.

(** ** The snapshot store *)

Module SnapshotStoreFacts.
Section Facts.
Context `{RT : Py.Runtime}.
Import Py SnapshotManager SnapshotWriter.













(** *** What [load_snapshot_data] reads *)

Definition loaded (content : option value) : value :=
  match content with Some v => v | None => VNone end.

(** A file that is loaded under the key [k]. *)
Definition is_data_file_of (k : string) (file : string * option value) : bool :=
  endswith "_data.json" (fst file) && String.eqb (collection_type_of (fst file)) k.

Definition load_step (snapshot_data : dict) (file : string * option value) : dict :=
  let '(file_name, content) := file in
  if endswith "_data.json" file_name then
    dict_set (collection_type_of file_name)
             (match content with Some v => v | None => VNone end) snapshot_data
  else snapshot_data.

Lemma load_snapshot_data_snoc files file :
  load_snapshot_data (files ++ [file]) = load_step (load_snapshot_data files) file.
Proof. unfold load_snapshot_data. rewrite fold_left_app. reflexivity. Qed.

(** The value under a key is the content of the last file of that key. *)
Lemma load_snapshot_data_get k files :
  dict_get k (load_snapshot_data files)
  = match rev (filter (is_data_file_of k) files) with
    | [] => None
    | file :: _ => Some (loaded (snd file))
    end.
Proof.
  induction files as [|[file_name content] files IH] using rev_ind; [reflexivity|].
  rewrite load_snapshot_data_snoc, filter_app, rev_app_distr.
  unfold load_step, is_data_file_of at 1. cbn [filter fst snd].
  destruct (endswith "_data.json" file_name); cbn [andb].
  - destruct (String.eqb_spec (collection_type_of file_name) k) as [<- | Hne].
    + cbn [rev app]. apply DictFacts.get_set_eq.
    + cbn [rev app]. unfold dict_get, dict_set.
      rewrite DictFacts.get_set_neq by exact Hne. exact IH.
  - exact IH.
Qed.



End Facts.
End SnapshotStoreFacts.

Module SnapshotStoreInvariants.
Section Invariants.
Context `{RT : Py.Runtime}.
Import Py SnapshotManager SnapshotWriter SnapshotStoreFacts.


(** X19.  [load_snapshot_data] has a key for exactly the collection types of
    the files named [*_data.json]; other files are not read. When several
    files have the same collection type, the last one is kept, and a file
    that cannot be read or parsed gives [None]. *)
Theorem load_snapshot_data_keys :
  forall files k,
    (In k (dict_keys (load_snapshot_data files))
     <-> exists file_name content,
           In (file_name, content) files
           /\ endswith "_data.json" file_name = true
           /\ collection_type_of file_name = k)
    /\ (forall pre file_name content post,
          files = pre ++ (file_name, content) :: post ->
          endswith "_data.json" file_name = true ->
          collection_type_of file_name = k ->
          (forall n c, In (n, c) post -> endswith "_data.json" n = true ->
                       collection_type_of n <> k) ->
          dict_get k (load_snapshot_data files)
          = Some (match content with Some v => v | None => VNone end)).
Proof.
  intros files k. pose proof (load_snapshot_data_get k files) as Hget.
  split.
  - split.
    + intros Hin. apply DictFacts.in_keys_get in Hin as (v & Hv).
      unfold dict_get in Hget. rewrite Hv in Hget.
      destruct (rev (filter (is_data_file_of k) files)) as [|[n c] l] eqn:Hrev;
        [discriminate|].
      assert (Hf : In (n, c) (filter (is_data_file_of k) files)).
      { apply in_rev. rewrite Hrev. left. reflexivity. }
      apply filter_In in Hf as [Hf Hk]. unfold is_data_file_of in Hk. cbn [fst] in Hk.
      apply andb_true_iff in Hk as [He Hk]. apply String.eqb_eq in Hk.
      exists n, c. auto.
    + intros (n & c & Hin & He & Hk).
      assert (Hf : In (n, c) (rev (filter (is_data_file_of k) files))).
      { apply in_rev. rewrite rev_involutive. apply filter_In. split; [exact Hin|].
        unfold is_data_file_of. cbn [fst]. rewrite He, Hk, String.eqb_refl. reflexivity. }
      destruct (rev (filter (is_data_file_of k) files)) as [|f l]; [destruct Hf|].
      apply DictFacts.mem_in_keys. unfold Dict.mem. unfold dict_get in Hget.
      rewrite Hget. reflexivity.
  - intros pre n c post -> He Hk Hpost. rewrite Hget.
    rewrite filter_app. cbn [filter]. unfold is_data_file_of at 2. cbn [fst].
    rewrite He, Hk, String.eqb_refl. cbn [andb].
    assert (Hnone : filter (is_data_file_of k) post = []).
    { clear -Hpost. induction post as [|[n c] post IH]; [reflexivity|]. cbn [filter].
      unfold is_data_file_of at 1. cbn [fst].
      destruct (endswith "_data.json" n) eqn:He; cbn [andb].
      - destruct (String.eqb_spec (collection_type_of n) k) as [E | _].
        + exfalso. apply (Hpost n c (or_introl eq_refl) He E).
        + apply IH. intros n' c' Hin. apply (Hpost n' c'). right. exact Hin.
      - apply IH. intros n' c' Hin. apply (Hpost n' c'). right. exact Hin. }
    rewrite Hnone, rev_app_distr. reflexivity.
Qed.


End Invariants.
End SnapshotStoreInvariants.

(** ** What a comparison lists *)

Module ComparisonFacts.
Section Facts.
Context `{RT : Py.Runtime}.
Import Py SnapshotManager SnapshotFacts.

(** The line about the number of errors. *)
Definition error_changes (baseline_errors current_errors : Z) : list change :=
  if (baseline_errors <? current_errors)%Z then
    [ErrorsIncreased baseline_errors current_errors]
  else if (current_errors <? baseline_errors)%Z then
    [ErrorsDecreased baseline_errors current_errors]
  else [].

(** The lines about one key of the baseline. *)
Definition key_changes (baseline_data current_data : dict) (key : string)
  : list change :=
  match dict_get key current_data with
  | None => [MissingData key]
  | Some current_item =>
      match dict_get key baseline_data with
      | Some baseline_item =>
          match int_value (extract_count baseline_item),
                int_value (extract_count current_item) with
          | Some x, Some y =>
              if (x =? y)%Z then []
              else [CountChanged key (extract_count baseline_item)
                                 (extract_count current_item)]
          | _, _ => []
          end
      | None => []
      end
  end.

(** The keys that only the current data has. *)
Definition new_keys (baseline_data current_data : dict) : list string :=
  filter (fun key => negb (dict_mem key baseline_data)) (dict_keys current_data).

(** Every count of the entries is missing or an integer. *)
Definition counts_are_ints (data : dict) : Prop :=
  forall key item,
    dict_get key data = Some item ->
    is_none (extract_count item) = true \/ is_int (extract_count item) = true.

Lemma is_int_value v : is_int v = true -> exists x, int_value v = Some x.
Proof. destruct v; simpl; intros E; try discriminate; eexists; reflexivity. Qed.

Lemma is_none_value v : is_none v = true -> int_value v = None.
Proof. destruct v; simpl; intros E; try discriminate; reflexivity. Qed.

Lemma compare_baseline_keys_eq baseline_data current_data keys :
  counts_are_ints baseline_data -> counts_are_ints current_data ->
  forall changes,
  (forall key, In key keys -> In key (dict_keys baseline_data)) ->
  compare_baseline_keys (VDict baseline_data) (VDict current_data) keys changes
  = Ok (changes ++ flat_map (key_changes baseline_data current_data) keys).
Proof.
  intros Hb Hc.
  induction keys as [|key keys IH]; intros changes Hkeys; cbn [flat_map].
  - rewrite app_nil_r. reflexivity.
  - assert (Hrest : forall k, In k keys -> In k (dict_keys baseline_data)).
    { intros k Hin. apply Hkeys. right. exact Hin. }
    destruct (DictFacts.in_keys_get key baseline_data (Hkeys key (or_introl eq_refl)))
      as (baseline_item & Hbi).
    unfold key_changes at 1. unfold dict_get in *.
    destruct (Dict.get key current_data) as [current_item|] eqn:Hci.
    + rewrite Hbi.
      destruct (compare_baseline_key_step baseline_data current_data key keys changes
                  baseline_item current_item Hbi Hci) as [Hnone Hints].
      destruct (Hb key baseline_item Hbi) as [Nb | Ib];
        [rewrite (is_none_value _ Nb), Hnone by (rewrite Nb; reflexivity);
         apply IH, Hrest|].
      destruct (Hc key current_item Hci) as [Nc | Ic].
      * rewrite (is_none_value _ Nc), Hnone by (rewrite Nc; apply orb_true_r).
        destruct (int_value (extract_count baseline_item)); apply IH, Hrest.
      * destruct (is_int_value _ Ib) as (x & Hx), (is_int_value _ Ic) as (y & Hy).
        rewrite Hx, Hy, (Hints x y Hx Hy).
        destruct (x =? y)%Z; [apply IH, Hrest|].
        rewrite (IH _ Hrest), <- app_assoc. reflexivity.
    + cbn [compare_baseline_keys py_in bind]. unfold dict_mem, Dict.mem.
      rewrite Hci. cbn [negb]. rewrite (IH _ Hrest), <- app_assoc. reflexivity.
Qed.

Lemma compare_current_keys_eq baseline_data keys :
  forall changes,
  compare_current_keys (VDict baseline_data) keys changes
  = Ok (changes
        ++ map NewData (filter (fun key => negb (dict_mem key baseline_data)) keys)).
Proof.
  induction keys as [|key keys IH]; intros changes;
    cbn [compare_current_keys py_in bind filter].
  - rewrite app_nil_r. reflexivity.
  - destruct (dict_mem key baseline_data); cbn [negb map]; rewrite IH;
      [reflexivity | rewrite <- app_assoc; reflexivity].
Qed.

(** [compare_collections] on two collections of the usual shape. *)
Lemma compare_collections_eq baseline current baseline_errors current_errors
      baseline_data current_data :
  dict_get "errors" baseline = Some (VList baseline_errors) ->
  dict_get "errors" current = Some (VList current_errors) ->
  dict_get "data" baseline = Some (VDict baseline_data) ->
  dict_get "data" current = Some (VDict current_data) ->
  counts_are_ints baseline_data -> counts_are_ints current_data ->
  compare_collections (VDict baseline) (VDict current)
  = Ok (error_changes (Z.of_nat (List.length baseline_errors))
                      (Z.of_nat (List.length current_errors))
        ++ flat_map (key_changes baseline_data current_data) (dict_keys baseline_data)
        ++ map NewData (new_keys baseline_data current_data)).
Proof.
  intros Heb Hec Hdb Hdc Hb Hc. unfold compare_collections.
  cbn [py_get bind]. rewrite Heb, Hec, Hdb, Hdc. cbn [py_len py_keys bind].
  rewrite (compare_baseline_keys_eq baseline_data current_data _ Hb Hc) by auto.
  cbn [bind]. rewrite compare_current_keys_eq, <- app_assoc. reflexivity.
Qed.

Lemma error_changes_nil b c : error_changes b c = [] <-> b = c.
Proof.
  unfold error_changes.
  destruct (Z.ltb_spec b c); [split; [discriminate | lia]|].
  destruct (Z.ltb_spec c b); [split; [discriminate | lia]|].
  split; [lia | reflexivity].
Qed.

Lemma map_nil_inv {A B} (f : A -> B) l : map f l = [] -> l = [].
Proof. destruct l; [reflexivity | discriminate]. Qed.

Lemma filter_nil_iff {A} (f : A -> bool) l :
  filter f l = [] <-> forall x, In x l -> f x = false.
Proof.
  induction l as [|a l IH]; simpl; [tauto|].
  destruct (f a) eqn:E.
  - split; [discriminate|]. intros H. rewrite (H a (or_introl eq_refl)) in E. discriminate.
  - rewrite IH. split.
    + intros H x [<- | Hin]; auto.
    + intros H x Hin. apply H. right. exact Hin.
Qed.

Lemma flat_map_nil_iff {A B} (f : A -> list B) l :
  flat_map f l = [] <-> forall x, In x l -> f x = [].
Proof.
  induction l as [|a l IH]; simpl; [tauto|]. split.
  - intros H. apply app_eq_nil in H as [Ha Hl]. intros x [<- | Hin]; [exact Ha|].
    apply IH; assumption.
  - intros H. rewrite (H a (or_introl eq_refl)). apply IH.
    intros x Hin. apply H. right. exact Hin.
Qed.

(** The dictionary an encoder makes of the data of a collector. *)
Lemma get_encoded {V} (f : V -> value) (d : Dict.t V) k :
  dict_get k (map (fun kv => (fst kv, f (snd kv))) d) = option_map f (Dict.get k d).
Proof.
  unfold dict_get. induction d as [|[k' v] d IH]; simpl; [reflexivity|].
  destruct (String.eqb k k'); [reflexivity | exact IH].
Qed.

Lemma keys_encoded {V} (f : V -> value) (d : Dict.t V) :
  dict_keys (map (fun kv => (fst kv, f (snd kv))) d) = Dict.keys d.
Proof. unfold dict_keys, Dict.keys. rewrite map_map. reflexivity. Qed.

End Facts.
End ComparisonFacts.

Module ComparisonInvariants.
Section Invariants.
Context `{RT : Py.Runtime}.
Import Py SnapshotManager SnapshotFacts ComparisonFacts.

Lemma compare_collections_nil_iff :
  forall baseline current baseline_errors current_errors baseline_data current_data,
    dict_get "errors" baseline = Some (VList baseline_errors) ->
    dict_get "errors" current = Some (VList current_errors) ->
    dict_get "data" baseline = Some (VDict baseline_data) ->
    dict_get "data" current = Some (VDict current_data) ->
    counts_are_ints baseline_data -> counts_are_ints current_data ->
    (compare_collections (VDict baseline) (VDict current) = Ok []
     <-> List.length baseline_errors = List.length current_errors
         /\ (forall key, In key (dict_keys baseline_data)
                         <-> In key (dict_keys current_data))
         /\ (forall key baseline_item current_item x y,
               dict_get key baseline_data = Some baseline_item ->
               dict_get key current_data = Some current_item ->
               int_value (extract_count baseline_item) = Some x ->
               int_value (extract_count current_item) = Some y ->
               x = y)).
Proof.
  intros baseline current baseline_errors current_errors baseline_data current_data
         Heb Hec Hdb Hdc Hb Hc.
  rewrite (compare_collections_eq _ _ _ _ _ _ Heb Hec Hdb Hdc Hb Hc).
  split.
  - intros E. inversion E as [Hnil]; clear E.
    apply app_eq_nil in Hnil as [Herr Hnil]. apply app_eq_nil in Hnil as [Hkeys Hnew].
    apply error_changes_nil in Herr. apply map_nil_inv in Hnew.
    unfold new_keys in Hnew.
    pose proof (proj1 (filter_nil_iff _ _) Hnew) as Hnew'.
    pose proof (proj1 (flat_map_nil_iff _ _) Hkeys) as Hkeys'.
    split; [lia|]. split.
    + intros key. split.
      * intros Hin. specialize (Hkeys' key Hin). unfold key_changes in Hkeys'.
        apply DictFacts.mem_in_keys. unfold Dict.mem. unfold dict_get in Hkeys'.
        destruct (Dict.get key current_data); [reflexivity | discriminate].
      * intros Hin. specialize (Hnew' key Hin). apply negb_false_iff in Hnew'.
        apply DictFacts.mem_in_keys. exact Hnew'.
    + intros key baseline_item current_item x y Hbi Hci Hx Hy.
      assert (Hin : In key (dict_keys baseline_data)).
      { apply DictFacts.mem_in_keys. unfold Dict.mem. unfold dict_get in Hbi.
        rewrite Hbi. reflexivity. }
      specialize (Hkeys' key Hin). unfold key_changes in Hkeys'.
      rewrite Hci, Hbi, Hx, Hy in Hkeys'.
      destruct (Z.eqb_spec x y); [assumption | discriminate].
  - intros (Hlen & Hsame & Hcounts). f_equal.
    assert (Herr : error_changes (Z.of_nat (List.length baseline_errors))
                                 (Z.of_nat (List.length current_errors)) = []).
    { apply error_changes_nil. lia. }
    assert (Hkeys : flat_map (key_changes baseline_data current_data)
                             (dict_keys baseline_data) = []).
    { apply flat_map_nil_iff. intros key Hin. unfold key_changes.
      destruct (DictFacts.in_keys_get key current_data (proj1 (Hsame key) Hin))
        as (current_item & Hci).
      destruct (DictFacts.in_keys_get key baseline_data Hin) as (baseline_item & Hbi).
      unfold dict_get in *. rewrite Hci, Hbi.
      destruct (int_value (extract_count baseline_item)) as [x|] eqn:Hx; [|reflexivity].
      destruct (int_value (extract_count current_item)) as [y|] eqn:Hy; [|reflexivity].
      rewrite (Hcounts key baseline_item current_item x y Hbi Hci Hx Hy), Z.eqb_refl.
      reflexivity. }
    assert (Hnew : new_keys baseline_data current_data = []).
    { apply filter_nil_iff. intros key Hin. apply negb_false_iff.
      apply DictFacts.mem_in_keys, Hsame, Hin. }
    rewrite Herr, Hkeys, Hnew. reflexivity.
Qed.

(** X21.  A comparison finds no change exactly when the two collections have
    the same number of errors, the same keys, and the same count wherever
    both entries of a key have one: what the entries hold beyond their
    counts is not compared. *)
Theorem no_change_iff :
  forall baseline current baseline_errors current_errors baseline_data current_data,
    dict_get "errors" baseline = Some (VList baseline_errors) ->
    dict_get "errors" current = Some (VList current_errors) ->
    dict_get "data" baseline = Some (VDict baseline_data) ->
    dict_get "data" current = Some (VDict current_data) ->
    counts_are_ints baseline_data -> counts_are_ints current_data ->
    (compare_collections (VDict baseline) (VDict current) = Ok []
     <-> List.length baseline_errors = List.length current_errors
         /\ (forall key, In key (dict_keys baseline_data)
                         <-> In key (dict_keys current_data))
         /\ (forall key baseline_item current_item x y,
               dict_get key baseline_data = Some baseline_item ->
               dict_get key current_data = Some current_item ->
               int_value (extract_count baseline_item) = Some x ->
               int_value (extract_count current_item) = Some y ->
               x = y)).
Proof. exact compare_collections_nil_iff. Qed.

(** X22.  Two saved results of the fabric collector always compare, and show
    no change exactly when they have the same number of errors, the same
    metrics and, for each metric, the same count. *)
Theorem fabric_results_compare :
  forall baseline current,
  exists changes,
    compare_collections (fabric_result_to_value baseline)
                        (fabric_result_to_value current) = Ok changes
    /\ (changes = []
        <-> List.length (BaseCollector.result_errors baseline)
            = List.length (BaseCollector.result_errors current)
            /\ (forall key, In key (Dict.keys (BaseCollector.data baseline))
                            <-> In key (Dict.keys (BaseCollector.data current)))
            /\ (forall key b c,
                  Dict.get key (BaseCollector.data baseline) = Some b ->
                  Dict.get key (BaseCollector.data current) = Some c ->
                  FabricCollector.fe_count b = FabricCollector.fe_count c)).
Proof.
  intros baseline current.
  set (encode := fun data : Dict.t FabricCollector.fabric_entry =>
                   map (fun kv => (fst kv, fabric_entry_to_value (snd kv))) data).
  assert (Hints : forall data, counts_are_ints (encode data)).
  { intros data key item Hget. subst encode. cbn beta in Hget.
    rewrite get_encoded in Hget.
    destruct (Dict.get key data) as [e|]; [|discriminate].
    inversion Hget; subst. right. reflexivity. }
  assert (Hshape : forall r : BaseCollector.CollectionResult
                                (Dict.t FabricCollector.fabric_entry),
            exists d, fabric_result_to_value r = VDict d
                      /\ dict_get "errors" d
                         = Some (VList (map VStr (BaseCollector.result_errors r)))
                      /\ dict_get "data" d
                         = Some (VDict (encode (BaseCollector.data r)))).
  { intros r. eexists. split; [reflexivity|]. split; reflexivity. }
  destruct (Hshape baseline) as (b & Eb & Heb & Hdb).
  destruct (Hshape current) as (c & Ec & Hec & Hdc).
  rewrite Eb, Ec.
  pose proof (compare_collections_nil_iff b c _ _ _ _ Heb Hec Hdb Hdc
                (Hints _) (Hints _)) as Hiff.
  pose proof (compare_collections_eq b c _ _ _ _ Heb Hec Hdb Hdc
                (Hints _) (Hints _)) as Heq.
  eexists. split; [exact Heq|].
  rewrite Heq in Hiff.
  match goal with
  | |- ?l = [] <-> _ =>
      assert (Hl : l = [] <-> Ok l = Ok (@nil change))
        by (split; [intros E; rewrite E; reflexivity
                   | intros E; injection E as E; exact E])
  end.
  rewrite Hl, Hiff. clear Hl Hiff Heq. rewrite !length_map.
  subst encode. cbn beta. rewrite !keys_encoded.
  split.
  - intros (Hlen & Hkeys & Hcounts). split; [exact Hlen|]. split; [exact Hkeys|].
    intros key eb ec Hb Hc.
    apply (Hcounts key (fabric_entry_to_value eb) (fabric_entry_to_value ec));
      try (rewrite get_encoded; rewrite ?Hb, ?Hc; reflexivity); reflexivity.
  - intros (Hlen & Hkeys & Hcounts). split; [exact Hlen|]. split; [exact Hkeys|].
    intros key bi ci x y Hb Hc Hx Hy.
    rewrite get_encoded in Hb, Hc.
    destruct (Dict.get key (BaseCollector.data baseline)) as [eb|] eqn:Eeb; [|discriminate].
    destruct (Dict.get key (BaseCollector.data current)) as [ec|] eqn:Eec; [|discriminate].
    inversion Hb; subst bi. inversion Hc; subst ci.
    cbn in Hx, Hy. inversion Hx; inversion Hy; subst.
    apply (Hcounts key eb ec Eeb Eec).
Qed.

(** X23.  The sections of a comparison report are the collection types of
    the two snapshots, each once, in alphabetical order. *)
Theorem report_sections_sorted :
  forall baseline current report,
    create_comparison_report baseline current = Ok report ->
    Sorted (fun a b => String.leb a b = true) (map fst report)
    /\ NoDup (map fst report)
    /\ forall collection_type,
         In collection_type (map fst report)
         <-> In collection_type (dict_keys (load_snapshot_data baseline))
             \/ In collection_type (dict_keys (load_snapshot_data current)).
Proof.
  intros baseline current report Hreport.
  unfold create_comparison_report in Hreport.
  assert (Hkeys : forall types sections,
            compare_all (load_snapshot_data baseline) (load_snapshot_data current) types
            = Ok sections -> map fst sections = types).
  { induction types as [|t types IH]; intros sections; cbn [compare_all].
    - intros E. inversion E. reflexivity.
    - destruct (compare_collection_type _ _ t) as [s|e]; [|discriminate].
      cbn [bind]. destruct (compare_all _ _ types) as [ss|e]; [|discriminate].
      cbn [bind]. intros E. inversion E; subst. cbn [map fst]. f_equal.
      apply IH. reflexivity. }
  rewrite (Hkeys _ _ Hreport). unfold all_collections.
  set (keys := nodup string_dec _).
  pose proof (StableSortFacts.sort_perm String.leb keys) as Hperm.
  split; [|split].
  - apply StableSortFacts.sort_sorted. intros a b. apply String.leb_total.
  - apply (Permutation_NoDup Hperm). subst keys. apply NoDup_nodup.
  - intros collection_type. split.
    + intros Hin. apply (Permutation_in _ (Permutation_sym Hperm)) in Hin.
      subst keys. apply nodup_In in Hin. apply in_app_or in Hin. exact Hin.
    + intros Hin. apply (Permutation_in _ Hperm). subst keys.
      apply nodup_In. apply in_or_app. exact Hin.
Qed.

End Invariants.
End ComparisonInvariants.

(** ** The rollup over collections that failed *)

Module RollupInvariants.
Section Invariants.
Context `{RT : Py.Runtime}.
Import Py SnapshotManager SnapshotFacts.

(** The line of one collection. *)
Definition line_status (v : value) : collection_status :=
  if truthy v then
    if (error_count v =? 0)%Z then Completed else CompletedWithErrors (error_count v)
  else Failed.

(** What one collection adds to the total. *)
Definition errors_counted (v : value) : Z :=
  if truthy v then error_count v else 1%Z.

Lemma summarize_collections_lines collections :
  forall lines total,
  Forall (fun item => is_collection_result (snd item) \/ truthy (snd item) = false)
         collections ->
  summarize_collections (lines, total) collections
  = Ok (lines ++ map (fun item => (fst item, line_status (snd item))) collections,
        (total + fold_right (fun item acc => errors_counted (snd item) + acc) 0
                            collections)%Z).
Proof.
  induction collections as [|[collection_type v] collections IH];
    intros lines total Hall; cbn [summarize_collections map fold_right].
  - rewrite app_nil_r, Z.add_0_r. reflexivity.
  - inversion Hall as [|? ? Hv Hrest]; subst. cbn [snd fst] in *.
    assert (Hstep : summarize_collection (lines, total) (collection_type, v)
                    = Ok (lines ++ [(collection_type, line_status v)],
                          (total + errors_counted v)%Z)).
    { unfold line_status, errors_counted. destruct Hv as [(d & errors & -> & Hd & Herr) | Hv].
      - unfold summarize_collection.
        assert (Ht : truthy (VDict d) = true) by (destruct d; [congruence | reflexivity]).
        rewrite Ht. unfold py_get, error_count. rewrite Herr. reflexivity.
      - unfold summarize_collection. rewrite Hv. reflexivity. }
    rewrite Hstep. cbn [bind]. rewrite (IH _ _ Hrest), <- app_assoc.
    cbn [app]. f_equal. f_equal. lia.
Qed.

Lemma error_count_nonneg v : (0 <= error_count v)%Z.
Proof.
  unfold error_count. destruct v; try lia.
  destruct (dict_get "errors" d) as [[]|]; lia.
Qed.

Lemma rollup_summary :
  forall collections,
    Forall (fun item => is_collection_result (snd item) \/ truthy (snd item) = false)
           collections ->
    exists summary,
      create_overall_summary collections = Ok summary
      /\ collections_completed summary
         = map (fun item => (fst item, line_status (snd item))) collections
      /\ total_errors summary
         = fold_right (fun item acc => (errors_counted (snd item) + acc)%Z) 0%Z
                      collections
      /\ (status summary = HEALTHY
          <-> forall collection_type v,
                In (collection_type, v) collections ->
                line_status v = Completed).
Proof.
  intros collections Hall. unfold create_overall_summary.
  rewrite (summarize_collections_lines collections [] 0%Z Hall). cbn [bind app].
  eexists. split; [reflexivity|]. cbn [collections_completed total_errors status].
  split; [reflexivity|]. split; [apply Z.add_0_l|].
  rewrite Z.add_0_l.
  assert (Hzero : fold_right (fun item acc => (errors_counted (snd item) + acc)%Z) 0%Z
                             collections = 0%Z
                  <-> forall collection_type v,
                        In (collection_type, v) collections -> line_status v = Completed).
  { clear Hall. induction collections as [|[k v] collections IH]; cbn [fold_right snd].
    - split; [intros _ ? ? [] | reflexivity].
    - assert (Hnonneg : (0 <= fold_right (fun item acc => errors_counted (snd item) + acc)
                                      0 collections)%Z).
      { clear. induction collections as [|[k v] collections IH]; cbn [fold_right snd]; [lia|].
        pose proof (error_count_nonneg v). unfold errors_counted at 1.
        destruct (truthy v); lia. }
      pose proof (error_count_nonneg v) as Hv.
      unfold errors_counted at 1, line_status. split.
      + intros Hsum k' v' [E | Hin].
        * inversion E; subst k' v'. destruct (truthy v); [|lia].
          destruct (Z.eqb_spec (error_count v) 0); [reflexivity | lia].
        * apply (proj1 IH) with (collection_type := k'); [|exact Hin].
          destruct (truthy v); lia.
      + intros Hcompleted.
        pose proof (Hcompleted k v (or_introl eq_refl)) as Hk.
        assert (Hrest : fold_right (fun item acc => (errors_counted (snd item) + acc)%Z)
                                   0%Z collections = 0%Z).
        { apply IH. intros k' v' Hin. apply (Hcompleted k' v'). right. exact Hin. }
        rewrite Hrest. destruct (truthy v); [|discriminate].
        destruct (Z.eqb_spec (error_count v) 0); [lia | discriminate]. }
  rewrite <- Hzero.
  destruct (Z.eqb_spec (fold_right (fun item acc => (errors_counted (snd item) + acc)%Z)
                                   0%Z collections) 0) as [E | Hne].
  - split; [intros _; exact E | reflexivity].
  - split; [|contradiction].
    destruct (_ <=? 3)%Z; discriminate.
Qed.

(** X24.  A collection without data counts as one error: the summary has one
    line for each collection, in their order, saying "Failed" for a
    collection without data, and the total is the number of errors of the
    collections with data plus the number of collections without. Hence the
    fabric is reported healthy only if every collection has data and no
    error. *)
Theorem rollup_counts_failed_collections :
  forall collections,
    Forall (fun item => is_collection_result (snd item) \/ truthy (snd item) = false)
           collections ->
    exists summary,
      create_overall_summary collections = Ok summary
      /\ collections_completed summary
         = map (fun item => (fst item, line_status (snd item))) collections
      /\ total_errors summary
         = fold_right (fun item acc => (errors_counted (snd item) + acc)%Z) 0%Z
                      collections
      /\ (status summary = HEALTHY
          <-> forall collection_type v,
                In (collection_type, v) collections ->
                line_status v = Completed).
Proof. exact rollup_summary. Qed.

(** A result of a collector, as the tool saves it. *)
Inductive saved_result : Type :=
| FabricResult (r : BaseCollector.CollectionResult (Dict.t FabricCollector.fabric_entry))
| LeafResult (r : BaseCollector.CollectionResult (Dict.t LeafCollector.leaf_item)).

Definition saved_to_value (s : saved_result) : value :=
  match s with
  | FabricResult r => fabric_result_to_value r
  | LeafResult r => leaf_result_to_value r
  end.

Definition saved_errors (s : saved_result) : list string :=
  match s with
  | FabricResult r => BaseCollector.result_errors r
  | LeafResult r => BaseCollector.result_errors r
  end.

(** X25.  The rollup over the saved results of the collectors always
    returns: its total is the number of error messages of all the results,
    and a result says "Completed" exactly when it has no error message. *)
Theorem rollup_of_collector_results :
  forall results : list (string * saved_result),
  exists summary,
    create_overall_summary (map (fun item => (fst item, saved_to_value (snd item))) results)
    = Ok summary
    /\ total_errors summary
       = Z.of_nat (List.length (flat_map (fun item => saved_errors (snd item)) results))
    /\ collections_completed summary
       = map (fun item =>
                (fst item,
                 match saved_errors (snd item) with
                 | [] => Completed
                 | errors => CompletedWithErrors (Z.of_nat (List.length errors))
                 end)) results
    /\ (status summary = HEALTHY
        <-> forall name s, In (name, s) results -> saved_errors s = []).
Proof.
  intros results.
  assert (Hresult : forall s, is_collection_result (saved_to_value s)
                              /\ truthy (saved_to_value s) = true
                              /\ error_count (saved_to_value s)
                                 = Z.of_nat (List.length (saved_errors s))).
  { intros [r | r]; (split; [|split; [reflexivity|]]).
    - apply fabric_result_well_formed.
    - cbn. rewrite length_map. reflexivity.
    - apply leaf_result_well_formed.
    - cbn. rewrite length_map. reflexivity. }
  assert (Hline : forall s, line_status (saved_to_value s)
                            = match saved_errors s with
                              | [] => Completed
                              | errors => CompletedWithErrors (Z.of_nat (List.length errors))
                              end).
  { intros s. destruct (Hresult s) as (_ & Ht & Hc). unfold line_status.
    rewrite Ht, Hc. destruct (saved_errors s); reflexivity. }
  destruct (rollup_summary
              (map (fun item => (fst item, saved_to_value (snd item))) results))
    as (summary & Hs & Hlines & Htotal & Hstatus).
  { apply Forall_forall. intros [k v] Hin. apply in_map_iff in Hin as ([k' s] & E & _).
    inversion E; subst. left. apply Hresult. }
  exists summary. split; [exact Hs|]. split; [|split].
  - rewrite Htotal. clear -Hresult. induction results as [|[k s] results IH]; [reflexivity|].
    cbn [map fold_right flat_map fst snd]. rewrite IH, length_app.
    unfold errors_counted.
    destruct (Hresult s) as (_ & Ht & Hc). rewrite Ht, Hc. lia.
  - rewrite Hlines, map_map. apply map_ext. intros [k s]. cbn [fst snd].
    rewrite Hline. reflexivity.
  - rewrite Hstatus. split.
    + intros Hall name s Hin.
      specialize (Hall name (saved_to_value s)).
      rewrite Hline in Hall.
      destruct (saved_errors s); [reflexivity|].
      assert (Hc : CompletedWithErrors (Z.of_nat (List.length (s0 :: l))) = Completed).
      { apply Hall. apply in_map_iff. exists (name, s). split; [reflexivity | exact Hin]. }
      discriminate.
    + intros Hall k v Hin. apply in_map_iff in Hin as ([k' s] & E & Hin).
      inversion E; subst. rewrite Hline, (Hall _ s Hin). reflexivity.
Qed.

End Invariants.
End RollupInvariants.

(** ** The inventory *)

Module InventoryInvariantFacts.
Import PyStr Utils InventoryParser InventoryFacts.

(** What [read_inventory_file] keeps true of the hosts it has read. *)
Definition host_recorded (sections : list string) (h : host_entry) : Prop :=
  contains "=" (line h) = true
  /\ startswith "#" (line h) = false
  /\ startswith "[" (line h) = false
  /\ (exists rest, split (line h) = host_name h :: rest)
  /\ (forall s, section h = Some s -> In s sections).

Definition state_ok (st : state) : Prop :=
  (forall h, In h (hosts (fst st)) -> host_recorded (sections (fst st)) h)
  /\ (forall s, snd st = Some s -> In s (sections (fst st))).

Lemma host_recorded_more sections added h :
  host_recorded sections h -> host_recorded (sections ++ added) h.
Proof.
  intros (H1 & H2 & H3 & H4 & H5). repeat split; try assumption.
  intros s Hs. apply in_or_app. left. apply H5, Hs.
Qed.

Lemma read_line_ok st raw_line : state_ok st -> state_ok (read_line st raw_line).
Proof.
  destruct st as [inventory current_section]. intros [Hhosts Hcur].
  cbn [fst snd] in *. unfold read_line.
  set (l := of_chars (strip_chars raw_line)).
  destruct (startswith "#" l) eqn:Hhash.
  - destruct (contains "Generated:" l); [split; assumption|].
    destruct (contains "Management Network:" l); split; assumption.
  - destruct (startswith "[" l && contains "]" l) eqn:Hsec.
    + split; cbn [fst snd hosts sections].
      * intros h Hin. apply host_recorded_more, Hhosts, Hin.
      * intros s E. inversion E; subst. apply in_or_app. right. left. reflexivity.
    + destruct (negb (l =? "")%string && negb (startswith "[" l) && contains "=" l)
        eqn:Hhost; [|split; assumption].
      destruct (split l) as [|name rest] eqn:Hsplit; [split; assumption|].
      apply andb_true_iff in Hhost as [Hhost Heq].
      apply andb_true_iff in Hhost as [_ Hbr]. apply negb_true_iff in Hbr.
      split; cbn [fst snd hosts sections]; [|assumption].
      intros h Hin. apply in_app_or in Hin as [Hin | [<- | []]]; [apply Hhosts, Hin|].
      unfold host_recorded. cbn [line host_name section].
      repeat split; try assumption. exists rest. exact Hsplit.
Qed.

Lemma read_lines_ok lines : forall st, state_ok st -> state_ok (fold_left read_line lines st).
Proof.
  induction lines as [|l lines IH]; intros st Hst; [exact Hst|].
  cbn [fold_left]. apply IH, read_line_ok, Hst.
Qed.

Lemma read_inventory_file_ok content h :
  In h (hosts (read_inventory_file content)) ->
  host_recorded (sections (read_inventory_file content)) h.
Proof.
  unfold read_inventory_file.
  pose proof (read_lines_ok (readlines [] (chars content))
                (MkInventoryData [] [] [], None)) as Hok.
  destruct Hok as [Hhosts _]; [|apply Hhosts].
  split; [intros h' [] | discriminate].
Qed.

(** The role lists, host by host. *)
Definition has_section (h : host_entry) : bool :=
  match section h with Some _ => true | None => false end.

Definition lists_ok (acc : list DeviceInfo.t * list DeviceInfo.t
                           * list DeviceInfo.t * list DeviceInfo.t) : Prop :=
  let '(apics, leaves, spines, others) := acc in
  let made (device_type : string) (port : Z) (d : DeviceInfo.t) :=
    DeviceInfo.device_type d = device_type /\ DeviceInfo.port d = port
    /\ DeviceInfo.name d <> ""%string
    /\ DeviceInfo.hostname d = DeviceInfo.name d
    /\ DeviceInfo.username d = ""%string /\ DeviceInfo.password d = ""%string in
  Forall (made "apic"%string 443%Z) apics /\ Forall (made "leaf"%string 22%Z) leaves
  /\ Forall (made "spine"%string 22%Z) spines /\ Forall (made "other"%string 22%Z) others.

Definition count4 (acc : list DeviceInfo.t * list DeviceInfo.t
                         * list DeviceInfo.t * list DeviceInfo.t) : nat :=
  let '(apics, leaves, spines, others) := acc in
  List.length apics + List.length leaves + List.length spines + List.length others.

Lemma parse_ini_host_made host device section_name :
  parse_ini_host host = Some device -> section host = Some section_name ->
  DeviceInfo.device_type device = device_type_of_section section_name
  /\ DeviceInfo.port device
     = (if String.eqb (device_type_of_section section_name) "apic" then 443 else 22)%Z
  /\ DeviceInfo.name device <> ""%string
  /\ DeviceInfo.hostname device = DeviceInfo.name device
  /\ DeviceInfo.username device = ""%string /\ DeviceInfo.password device = ""%string.
Proof.
  unfold parse_ini_host. intros Hparse Hsection. rewrite Hsection in Hparse.
  destruct (split (line host)) as [|hostname rest]; [discriminate|].
  unfold DeviceInfo.new in Hparse.
  destruct (String.eqb_spec hostname "") as [E | Hne]; [discriminate|].
  inversion Hparse; subst; clear Hparse. cbn.
  rewrite andb_true_r. repeat split; try reflexivity. exact Hne.
Qed.

Lemma add_host_ok acc host :
  lists_ok acc -> lists_ok (add_host acc host).
Proof.
  destruct acc as [[[apics leaves] spines] others]. unfold add_host.
  destruct (parse_ini_host host) as [device|] eqn:Hparse; [|auto].
  destruct (section host) as [section_name|] eqn:Hsection; [|auto].
  destruct (parse_ini_host_made host device section_name Hparse Hsection)
    as (Htype & Hport & Hrest).
  unfold device_type_of_section in Htype, Hport.
  intros (Ha & Hl & Hs & Ho).
  destruct (contains "apic" (lower section_name)).
  { repeat split; try assumption. apply Forall_app. split; [assumption|].
    constructor; [|constructor]. repeat split; tauto. }
  destruct (contains "leaf" (lower section_name) || contains "leaves" (lower section_name)).
  { repeat split; try assumption. apply Forall_app. split; [assumption|].
    constructor; [|constructor]. repeat split; tauto. }
  destruct (contains "spine" (lower section_name)).
  { repeat split; try assumption. apply Forall_app. split; [assumption|].
    constructor; [|constructor]. repeat split; tauto. }
  repeat split; try assumption. apply Forall_app. split; [assumption|].
  constructor; [|constructor]. repeat split; tauto.
Qed.

Lemma add_hosts_ok hosts : forall acc, lists_ok acc -> lists_ok (fold_left add_host hosts acc).
Proof.
  induction hosts as [|h hosts IH]; intros acc Hacc; [exact Hacc|].
  cbn [fold_left]. apply IH, add_host_ok, Hacc.
Qed.

Lemma add_host_count acc host :
  (exists rest, split (line host) = host_name host :: rest) ->
  count4 (add_host acc host) = count4 acc + (if has_section host then 1 else 0).
Proof.
  intros (rest & Hsplit).
  destruct acc as [[[apics leaves] spines] others]. unfold add_host, has_section.
  destruct (section host) as [section_name|] eqn:Hsection.
  - assert (Hparse : exists device, parse_ini_host host = Some device).
    { unfold parse_ini_host. rewrite Hsplit, Hsection. unfold DeviceInfo.new.
      destruct (String.eqb_spec (host_name host) "") as [E | _]; [|eexists; reflexivity].
      exfalso. apply (split_fields_nonempty (line host) (host_name host));
        [rewrite Hsplit; left; reflexivity | exact E]. }
    destruct Hparse as (device & ->).
    destruct (contains "apic" (lower section_name));
      [cbn [count4]; rewrite length_app; simpl; lia|].
    destruct (contains "leaf" (lower section_name) || contains "leaves" (lower section_name));
      [cbn [count4]; rewrite length_app; simpl; lia|].
    destruct (contains "spine" (lower section_name));
      cbn [count4]; rewrite length_app; simpl; lia.
  - destruct (parse_ini_host host); cbn [count4]; lia.
Qed.

Lemma add_hosts_count hosts :
  forall acc,
  (forall h, In h hosts -> exists rest, split (line h) = host_name h :: rest) ->
  count4 (fold_left add_host hosts acc)
  = count4 acc + List.length (filter has_section hosts).
Proof.
  induction hosts as [|h hosts IH]; intros acc Hall; cbn [fold_left filter].
  - simpl. lia.
  - rewrite IH by (intros h' Hin; apply Hall; right; exact Hin).
    rewrite add_host_count by (apply Hall; left; reflexivity).
    destruct (has_section h); simpl; lia.
Qed.

Lemma parse_ini_file_lists content :
  exists apics leaves spines others,
    fold_left add_host (hosts (read_inventory_file content)) ([], [], [], [])
    = (apics, leaves, spines, others)
    /\ apic_devices (parse_ini_file content) = apics
    /\ leaf_devices (parse_ini_file content) = leaves
    /\ spine_devices (parse_ini_file content) = spines
    /\ other_devices (parse_ini_file content) = others
    /\ total_devices (parse_ini_file content)
       = Z.of_nat (count4 (apics, leaves, spines, others)).
Proof.
  unfold parse_ini_file.
  destruct (fold_left add_host _ _) as [[[apics leaves] spines] others].
  exists apics, leaves, spines, others. repeat split; reflexivity.
Qed.

End InventoryInvariantFacts.

Module InventoryInvariants.
Section Invariants.
Context `{RT : Py.Runtime}.
Import PyStr Utils InventoryParser InventoryFacts InventoryInvariantFacts.
Import InventoryValidation DeviceInfoMethods.

(** X26.  Every host that [read_inventory_file] records comes from a line
    with an [=] that is neither a comment nor a section header; its name is
    the first field of the line, and its section, if it has one, is one of
    the sections read. *)
Theorem hosts_are_assignment_lines :
  forall content h,
    In h (hosts (read_inventory_file content)) ->
    contains "=" (line h) = true
    /\ startswith "#" (line h) = false
    /\ startswith "[" (line h) = false
    /\ (exists rest, split (line h) = host_name h :: rest)
    /\ (forall s, section h = Some s -> In s (sections (read_inventory_file content))).
Proof. intros content h Hin. apply (read_inventory_file_ok content h Hin). Qed.

(** X27.  Every host under a section becomes a device, and the hosts before
    the first section are dropped: the number of devices is the number of
    hosts that have a section. *)
Theorem hosts_without_section_are_dropped :
  forall content,
    total_devices (parse_ini_file content)
    = Z.of_nat (List.length (filter has_section (hosts (read_inventory_file content)))).
Proof.
  intros content.
  destruct (parse_ini_file_lists content)
    as (apics & leaves & spines & others & Hfold & _ & _ & _ & _ & ->).
  rewrite <- Hfold, add_hosts_count; [reflexivity|].
  intros h Hin. apply (read_inventory_file_ok content h Hin).
Qed.

(** X28.  The collection targets of a text inventory: the devices collected
    as "fabric" and "apic" are controllers with port 443, those collected as
    "leaf" and "spine" are switches of that type with port 22; every device
    has a name, its host name is its name, and it carries no credentials. *)
Theorem ini_collection_targets :
  forall content key devices d,
    Dict.get key (get_collection_targets (parse_ini_file content)) = Some devices ->
    In d devices ->
    (key = "fabric" \/ key = "apic" \/ key = "leaf" \/ key = "spine")
    /\ (key = "fabric" \/ key = "apic" ->
        is_apic d = true /\ DeviceInfo.port d = 443%Z)
    /\ (key = "leaf" \/ key = "spine" ->
        is_switch d = true /\ DeviceInfo.device_type d = key
        /\ DeviceInfo.port d = 22%Z)
    /\ DeviceInfo.name d <> ""
    /\ DeviceInfo.hostname d = DeviceInfo.name d
    /\ DeviceInfo.username d = "" /\ DeviceInfo.password d = "".
Proof.
  intros content key devices d Hget Hin.
  destruct (parse_ini_file_lists content)
    as (apics & leaves & spines & others & Hfold & Ha & Hl & Hs & _ & _).
  pose proof (add_hosts_ok (hosts (read_inventory_file content)) ([], [], [], [])) as Hok.
  rewrite Hfold in Hok. cbn [lists_ok] in Hok.
  destruct Hok as (Hapics & Hleaves & Hspines & _);
    [repeat split; constructor|].
  rewrite Forall_forall in Hapics, Hleaves, Hspines.
  unfold get_collection_targets in Hget. rewrite Ha, Hl, Hs in Hget.
  cbn [Dict.get] in Hget. unfold is_apic, is_switch.
  assert (Hcases : ((key = "fabric" \/ key = "apic") /\ devices = apics)
                   \/ (key = "leaf" /\ devices = leaves)
                   \/ (key = "spine" /\ devices = spines)).
  { destruct (String.eqb_spec key "fabric"); [inversion Hget; auto|].
    destruct (String.eqb_spec key "apic"); [inversion Hget; auto|].
    destruct (String.eqb_spec key "leaf"); [inversion Hget; auto|].
    destruct (String.eqb_spec key "spine"); [inversion Hget; auto | discriminate]. }
  clear Hget.
  destruct Hcases as [[Hkey ->] | [[-> ->] | [-> ->]]].
  - destruct (Hapics d Hin) as (Htype & Hport & Hrest). rewrite Htype, Hport.
    split; [tauto|]. split; [intros _; split; reflexivity|].
    split; [|exact Hrest].
    intros [E | E]; destruct Hkey as [K | K]; rewrite K in E; discriminate.
  - destruct (Hleaves d Hin) as (Htype & Hport & Hrest). rewrite Htype, Hport.
    split; [tauto|]. split; [intros [E | E]; discriminate|].
    split; [|exact Hrest]. intros _. repeat split; reflexivity.
  - destruct (Hspines d Hin) as (Htype & Hport & Hrest). rewrite Htype, Hport.
    split; [tauto|]. split; [intros [E | E]; discriminate|].
    split; [|exact Hrest]. intros _. repeat split; reflexivity.
Qed.

(** X29.  A text inventory is valid exactly when it has a controller, a leaf
    or a spine, and no controller named "unknown": the test on the size of
    the fabric and the test for an empty host name never fail on their own. *)
Theorem ini_inventory_valid_iff :
  forall content,
    let inventory := parse_ini_file content in
    validate_inventory inventory = true
    <-> apic_devices inventory <> []
        /\ (leaf_devices inventory <> [] \/ spine_devices inventory <> [])
        /\ forall apic, In apic (apic_devices inventory) ->
                        DeviceInfo.name apic <> "unknown".
Proof.
  intros content inventory. subst inventory.
  destruct (parse_ini_file_lists content)
    as (apics & leaves & spines & others & Hfold & Ha & Hl & Hs & Ho & Ht).
  pose proof (add_hosts_ok (hosts (read_inventory_file content)) ([], [], [], [])) as Hok.
  rewrite Hfold in Hok. cbn [lists_ok] in Hok.
  destruct Hok as (Hapics & _); [repeat split; constructor|].
  rewrite Forall_forall in Hapics.
  unfold validate_inventory, validation_errors. rewrite Ha, Hl, Hs, Ht.
  cbn [count4].
  assert (Hflat : flat_map
            (fun apic =>
               if String.eqb (DeviceInfo.hostname apic) ""
                  || String.eqb (DeviceInfo.hostname apic) "unknown"
               then [("APIC " ++ DeviceInfo.name apic ++ " missing hostname/IP")%string]
               else []) apics = []
          <-> forall apic, In apic apics -> DeviceInfo.name apic <> "unknown"%string).
  { rewrite ComparisonFacts.flat_map_nil_iff. split.
    - intros H apic Hin E. specialize (H apic Hin).
      destruct (Hapics apic Hin) as (_ & _ & _ & Hhost & _).
      rewrite Hhost, E in H. discriminate.
    - intros H apic Hin. destruct (Hapics apic Hin) as (_ & _ & Hname & Hhost & _).
      rewrite Hhost.
      destruct (String.eqb_spec (DeviceInfo.name apic) ""); [contradiction|].
      destruct (String.eqb_spec (DeviceInfo.name apic) "unknown"); [|reflexivity].
      exfalso. apply (H apic Hin). assumption. }
  destruct apics as [|a apics].
  - cbn. split; [discriminate | intros [H _]; congruence].
  - cbn [List.length Nat.eqb app].
    destruct leaves as [|l leaves], spines as [|s spines]; cbn [List.length Nat.eqb andb app].
    + split; [discriminate | intros (_ & [H | H] & _); congruence].
    + replace (Z.of_nat (S (List.length apics) + 0 + S (List.length spines)
                         + List.length others) <? 2)%Z with false
        by (symmetry; apply Z.ltb_ge; lia).
      cbn [app]. destruct (flat_map _ (a :: apics)) eqn:Hf.
      * split; [intros _ | reflexivity]. split; [discriminate|]. split; [right; discriminate|].
        apply Hflat. reflexivity.
      * split; [discriminate|]. intros (_ & _ & H). apply Hflat in H. discriminate.
    + replace (Z.of_nat (S (List.length apics) + S (List.length leaves) + 0
                         + List.length others) <? 2)%Z with false
        by (symmetry; apply Z.ltb_ge; lia).
      cbn [app]. destruct (flat_map _ (a :: apics)) eqn:Hf.
      * split; [intros _ | reflexivity]. split; [discriminate|]. split; [left; discriminate|].
        apply Hflat. reflexivity.
      * split; [discriminate|]. intros (_ & _ & H). apply Hflat in H. discriminate.
    + replace (Z.of_nat (S (List.length apics) + S (List.length leaves)
                         + S (List.length spines) + List.length others) <? 2)%Z with false
        by (symmetry; apply Z.ltb_ge; lia).
      cbn [app]. destruct (flat_map _ (a :: apics)) eqn:Hf.
      * split; [intros _ | reflexivity]. split; [discriminate|]. split; [left; discriminate|].
        apply Hflat. reflexivity.
      * split; [discriminate|]. intros (_ & _ & H). apply Hflat in H. discriminate.
Qed.

(** X30.  A device that the constructor accepted survives [to_dict] followed
    by [from_dict] unchanged, and a controller never has port 22. *)
Theorem device_round_trip :
  forall name hostname username password device_type node_id priority port d,
    DeviceInfo.new name hostname username password device_type node_id priority port
    = Py.Ok d ->
    from_dict (to_dict d) = Some (Py.Ok d)
    /\ (is_apic d = true -> DeviceInfo.port d <> 22%Z).
Proof.
  intros name hostname username password device_type node_id priority port d Hnew.
  unfold DeviceInfo.new in Hnew.
  destruct (String.eqb_spec name "") as [|Hname]; [discriminate|].
  destruct (String.eqb_spec hostname "") as [|Hhost]; [discriminate|].
  inversion Hnew; subst d; clear Hnew. unfold is_apic.
  cbn [DeviceInfo.device_type DeviceInfo.port].
  set (port' := if String.eqb device_type "apic" && (port =? 22)%Z
                then 443%Z else port).
  assert (Hport : String.eqb device_type "apic" = true -> port' <> 22%Z).
  { subst port'. intros ->. cbn [andb]. destruct (Z.eqb_spec port 22); lia. }
  assert (Hfix : (if String.eqb device_type "apic" && (port' =? 22)%Z
                  then 443%Z else port') = port').
  { destruct (String.eqb device_type "apic"); cbn [andb]; [|reflexivity].
    destruct (Z.eqb_spec port' 22) as [E | _]; [|reflexivity].
    exfalso. apply (Hport eq_refl E). }
  clearbody port'. split; [|exact Hport].
  unfold from_dict, to_dict, get_str, get_opt_int.
  destruct node_id, priority; cbn; unfold DeviceInfo.new;
    (destruct (String.eqb_spec name ""); [contradiction|]);
    (destruct (String.eqb_spec hostname ""); [contradiction|]);
    rewrite Hfix; reflexivity.
Qed.

End Invariants.
End InventoryInvariants.


(** ** Examples of the further properties *)

Module InvariantExamples.
Import Py BaseCollector.
#[local] Existing Instance FixedPoint.instance.

(** A controller that answers every query with three records. *)
Definition three_records : FabricCollector.fetcher :=
  fun _ _ => Ok (CollectorExamples.records 3).

(** With the query for the links unanswered, the entry of the topology
    still counts its three records. *)
Lemma topology_entry_counts_three :
  exists r e,
    FabricCollector.collect CollectorExamples.five_endpoints
      (CollectorExamples.fails_on "/api/class/fabricLink.json") 0 1
      (BaseCollector.new "FabricCollector") = Ok r
    /\ Dict.get "topology" (data r) = Some e
    /\ FabricCollector.fe_count e = 3%Z
    /\ py_len (FabricCollector.fe_data e) = Ok (FabricCollector.fe_count e).
Proof.
  eexists. eexists. split; [vm_compute; reflexivity|].
  split; [vm_compute; reflexivity|]. split; [reflexivity|].
  refine (proj1 (CollectorInvariants.fabric_entry_count_matches_data
                   CollectorExamples.five_endpoints
                   (CollectorExamples.fails_on "/api/class/fabricLink.json")
                   0%Z 1%Z (BaseCollector.new "FabricCollector") _ "topology" _ _ _));
    vm_compute; reflexivity.
Defined.

(** A controller that answers every query: the criterion for a result
    without errors, on the table of the collector. *)
Lemma answered_fabric_no_errors :
  exists r,
    FabricCollector.collect FabricCollector.FABRIC_ENDPOINTS three_records 0 1
      (BaseCollector.new "FabricCollector") = Ok r
    /\ (result_errors r = []
        <-> (forall k c, In (k, c) FabricCollector.FABRIC_ENDPOINTS ->
                         FabricFacts.metric_fails three_records c = false)
            /\ FabricFacts.validation_ok (data r)).
Proof.
  eexists. split; [vm_compute; reflexivity|].
  apply (CollectorInvariants.fabric_no_errors_iff FabricCollector.FABRIC_ENDPOINTS
           three_records 0%Z 1%Z (BaseCollector.new "FabricCollector")).
  vm_compute. reflexivity.
Defined.

(** One metric of five fails: between one and three errors. *)
Lemma one_failed_metric_error_bounds :
  exists r,
    FabricCollector.collect CollectorExamples.five_endpoints
      (CollectorExamples.fails_on "/api/class/fabricLink.json") 0 1
      (BaseCollector.new "FabricCollector") = Ok r
    /\ (1 <= List.length (result_errors r) <= 1 + 2)%nat.
Proof.
  eexists. split; [vm_compute; reflexivity|].
  apply (CollectorInvariants.fabric_error_count_bounds CollectorExamples.five_endpoints
           (CollectorExamples.fails_on "/api/class/fabricLink.json")
           0%Z 1%Z (BaseCollector.new "FabricCollector")).
  vm_compute. reflexivity.
Defined.

Definition leaf1 : DeviceInfo.t :=
  DeviceInfo.Make "leaf1" "10.0.0.1" "" "" "leaf" (Some 101%Z) (Some 1%Z) 22.



(** A port channel that is up. *)
Lemma port_channel_up_line :
  exists pc,
    LeafParsers.parse_port_channel_line "Po1(SU) LACP Eth1/1(P)" = Some pc
    /\ (LeafParsers.pc_status pc = "up"
        <-> PyStr.contains "(SU)" "Po1(SU) LACP Eth1/1(P)" = true).
Proof.
  eexists. split; [vm_compute; reflexivity|].
  refine (proj1 (proj2 (proj2 (ParserInvariants.port_channel_entries
                                 "Po1(SU) LACP Eth1/1(P)" _ _)))).
  vm_compute. reflexivity.
Defined.

(** The second total of an endpoint summary is not read. *)
Lemma second_total_is_not_read :
  LeafParsers.endpoint_total
    (["Endpoint summary"] ++ "Total endpoints: 42" :: ["Total endpoints: 7"])
  = LeafParsers.endpoint_total ["Total endpoints: 42"].
Proof.
  refine (proj1 (ParserInvariants.endpoint_total_first_line
                   ["Endpoint summary"] "Total endpoints: 42" ["Total endpoints: 7"]
                   _ _)); vm_compute; reflexivity.
Defined.

(** *** Sessions *)

(** Switches that accept every connection and fail every command. *)
Definition failing_switches : DeviceSessions.switches :=
  DeviceSessions.MkSwitches (fun _ _ _ => true)
                            (fun _ _ => DeviceSessions.Exited 1 "" "% Invalid command").

(** Switches that refuse every connection. *)
Definition refusing_switches : DeviceSessions.switches :=
  DeviceSessions.MkSwitches (fun _ _ _ => false)
                            (fun _ _ => DeviceSessions.ExecException "closed").

Definition leaf2_session : DeviceSessions.NXOSClient :=
  DeviceSessions.MkNXOSClient "10.0.0.2" "admin" "secret" true true.

(** A fabric client that holds the session of leaf2. *)
Definition fabric_with_leaf2 : DeviceSessions.Fabric :=
  DeviceSessions.MkFabric (AciClient.new_FabricClient [] "admin" "secret")
                          [("leaf2", leaf2_session)].

Definition no_sessions : DeviceSessions.Fabric :=
  DeviceSessions.MkFabric (AciClient.new_FabricClient [] "admin" "secret") [].

Lemma fabric_with_leaf2_open : SessionInvariants.sessions_open fabric_with_leaf2.
Proof.
  intros name c Hget. simpl in Hget.
  destruct (String.eqb name "leaf2"); [|discriminate].
  inversion Hget; subst. split; reflexivity.
Defined.

(** The session of leaf1 is opened once; the one of leaf2 stays. *)
Lemma leaf1_session_is_cached :
  exists c fabric',
    DeviceSessions.connect_to_device failing_switches fabric_with_leaf2 leaf1
    = (Some c, fabric')
    /\ DeviceSessions.connect_to_device refusing_switches fabric' leaf1
       = (Some c, fabric')
    /\ Dict.get "leaf2" (DeviceSessions.device_clients fabric') = Some leaf2_session.
Proof.
  eexists. eexists. split; [vm_compute; reflexivity|].
  destruct (SessionInvariants.sessions_are_cached failing_switches fabric_with_leaf2
              leaf1 _ _ fabric_with_leaf2_open eq_refl)
    as (Hagain & Hothers & _).
  split; [apply Hagain; reflexivity|].
  rewrite Hothers; [reflexivity | discriminate].
Defined.

(** After [disconnect_all] the session of leaf2 answers nothing. *)
Lemma leaf2_is_disconnected :
  let after := DeviceSessions.disconnect_all fabric_with_leaf2 in
  DeviceSessions.device_clients (DeviceSessions.fabric_after after) = []
  /\ forall c command,
       Dict.get "leaf2" (DeviceSessions.clients_after after) = Some c ->
       DeviceSessions.execute_command failing_switches c command = None.
Proof.
  destruct (SessionInvariants.disconnect_all_closes_everything failing_switches
              (AciClient.MkNetwork (fun _ _ _ => None)
                                   (fun _ _ => AciClient.RequestException "down"))
              fabric_with_leaf2 fabric_with_leaf2_open)
    as (Hempty & _ & _ & Hclosed & _).
  split; [exact Hempty|].
  intros c command Hget. apply (Hclosed "leaf2" c command Hget).
Defined.

(** A leaf that refuses the connection. *)
Lemma refused_leaf1 :
  exists r,
    LeafCollector.collect LeafCollector.LEAF_COMMANDS
      (DeviceSessions.connect_for_collector refusing_switches no_sessions) leaf1 0 1
      (BaseCollector.new "LeafCollector") = Ok r
    /\ data r = []
    /\ result_errors r = ["Failed to connect to leaf leaf1"].
Proof.
  apply (SessionInvariants.refused_leaf_is_reported refusing_switches no_sessions leaf1
           0%Z 1%Z (BaseCollector.new "LeafCollector")); reflexivity.
Defined.


(** *** The snapshot store *)


Definition leaf_data : value := VDict [("errors", VList []); ("data", VDict [])].



(** *** Comparisons *)

Definition topology_of (records : list value) : dict :=
  [("errors", VList []);
   ("data", VDict [("topology", VDict [("count", VInt 2); ("data", VList records)])])].

(** Two collections with the same counts and different records show no
    change. *)
Lemma same_counts_no_change :
  SnapshotManager.compare_collections
    (VDict (topology_of [VStr "node-1"; VStr "node-2"]))
    (VDict (topology_of [VStr "node-1"; VStr "node-3"])) = Ok [].
Proof.
  assert (Hints : forall records,
            ComparisonFacts.counts_are_ints
              [("topology", VDict [("count", VInt 2); ("data", VList records)])]).
  { intros records key item Hget. simpl in Hget.
    destruct (String.eqb key "topology"); [|discriminate].
    inversion Hget; subst. right. reflexivity. }
  apply (ComparisonInvariants.no_change_iff
           (topology_of [VStr "node-1"; VStr "node-2"])
           (topology_of [VStr "node-1"; VStr "node-3"])
           [] [] _ _ eq_refl eq_refl eq_refl eq_refl (Hints _) (Hints _)).
  split; [reflexivity|]. split.
  - intros key. simpl. tauto.
  - intros key b c x y Hb Hc Hx Hy. simpl in Hb, Hc.
    destruct (String.eqb key "topology"); [|discriminate].
    inversion Hb; subst. inversion Hc; subst. simpl in Hx, Hy. congruence.
Defined.

(** The report of a snapshot with leaf data against one with fabric
    data: "fabric" comes before "leaf". *)
Lemma fabric_section_before_leaf :
  exists report,
    SnapshotManager.create_comparison_report
      [("leaf_data.json"%string, Some leaf_data)]
      [("fabric_data.json"%string, Some leaf_data)] = Ok report
    /\ map fst report = ["fabric"%string; "leaf"%string]
    /\ Sorted (fun a b => String.leb a b = true) (map fst report)
    /\ NoDup (map fst report).
Proof.
  eexists. split; [vm_compute; reflexivity|]. split; [reflexivity|].
  destruct (ComparisonInvariants.report_sections_sorted
              [("leaf_data.json"%string, Some leaf_data)]
              [("fabric_data.json"%string, Some leaf_data)] _
              ltac:(vm_compute; reflexivity))
    as (Hsorted & Hnodup & _).
  split; [exact Hsorted | exact Hnodup].
Defined.

(** A fabric collection with one error and a controller collection
    without data: two errors, and the fabric is not healthy. *)
Lemma failed_collection_counts_once :
  exists summary,
    SnapshotManager.create_overall_summary
      [("fabric"%string, VDict [("errors", VList [VStr "e"])]); ("apic"%string, VNone)]
    = Ok summary
    /\ SnapshotManager.collections_completed summary
       = [("fabric"%string, SnapshotManager.CompletedWithErrors 1);
          ("apic"%string, SnapshotManager.Failed)]
    /\ SnapshotManager.total_errors summary = 2%Z.
Proof.
  destruct (RollupInvariants.rollup_counts_failed_collections
              [("fabric"%string, VDict [("errors", VList [VStr "e"])]);
               ("apic"%string, VNone)])
    as (summary & Hs & Hlines & Htotal & _).
  - constructor; [|constructor; [right; reflexivity | constructor]].
    left. eexists. eexists. split; [reflexivity|]. split; [discriminate | reflexivity].
  - exists summary. split; [exact Hs|]. split; [exact Hlines | exact Htotal].
Defined.

(** *** The inventory *)

Definition two_sections : string :=
  ("orphan ansible_host=10.0.0.9" ++ String PyStr.LF "[apic]"
   ++ String PyStr.LF "apic1 ansible_host=10.0.0.1"
   ++ String PyStr.LF "[leaves]"
   ++ String PyStr.LF "leaf1 ansible_host=10.0.0.2 node_id=101")%string.

(** The host line of leaf1 is recorded with its first field as name. *)
Lemma leaf1_is_recorded :
  let h := Utils.MkHost "leaf1" (Some "leaves"%string)
             "leaf1 ansible_host=10.0.0.2 node_id=101" in
  PyStr.contains "=" (Utils.line h) = true
  /\ exists rest, PyStr.split (Utils.line h) = Utils.host_name h :: rest.
Proof.
  intros h.
  destruct (InventoryInvariants.hosts_are_assignment_lines two_sections h)
    as (Heq & _ & _ & Hname & _).
  - vm_compute. right. right. left. reflexivity.
  - split; [exact Heq | exact Hname].
Defined.

(** The leaf of the inventory is collected as a switch on port 22. *)
Lemma leaf1_is_a_leaf_target :
  let d := DeviceInfo.Make "leaf1" "leaf1" "" "" "leaf" (Some 101%Z) (Some 1%Z) 22 in
  DeviceInfoMethods.is_switch d = true /\ DeviceInfo.port d = 22%Z.
Proof.
  intros d.
  destruct (InventoryInvariants.ini_collection_targets two_sections "leaf" [d] d)
    as (_ & _ & Hswitch & _).
  - vm_compute. reflexivity.
  - left. reflexivity.
  - destruct Hswitch as (Hs & _ & Hp); [left; reflexivity|].
    split; [exact Hs | exact Hp].
Defined.

(** A controller made with the default port gets port 443 and survives
    the round trip. *)
Lemma apic1_round_trip :
  let d := DeviceInfo.Make "apic1" "10.0.0.1" "admin" "secret" "apic" None (Some 1%Z) 443 in
  DeviceInfoMethods.from_dict (DeviceInfoMethods.to_dict d) = Some (Ok d).
Proof.
  intros d.
  apply (InventoryInvariants.device_round_trip "apic1" "10.0.0.1" "admin" "secret"
           "apic" None (Some 1%Z) 22%Z d).
  reflexivity.
Defined.

End InvariantExamples.
